(** * PV_Live API client: a shallow embedding of [pvlive_api/pvlive.py]

    The development follows the Python module top to bottom: the values the
    client handles, the calendar arithmetic of [datetime], the error type,
    the network seen as a scripted world, then the methods of class [PVLive]
    in the order the class uses them.  Theorems about the methods come
    last. *)

From Stdlib Require Import ZArith List String Ascii Bool Lia.
From Stdlib Require Import DecimalString Floats.
Import ListNotations.

Set Warnings "-register-all,-inexact-float".

Local Open Scope string_scope.
Local Open Scope Z_scope.

(** ** Python's [datetime], [date] and [timedelta] *)

(** A [timedelta] is a signed count of microseconds, which is what the
    normalised (days, seconds, microseconds) triple of Python denotes. *)
Definition timedelta (days minutes seconds : Z) : Z :=
  ((days * 24 * 60 + minutes) * 60 + seconds) * 1000000.

(** A [datetime] is kept the way [datetime.__add__] sees it: the wall-clock
    distance from 0001-01-01T00:00:00 in microseconds, together with the
    tzinfo, which is [None] for a naive object and otherwise the fixed UTC
    offset in seconds ([pytz.UTC] is [Some 0]).  The calendar fields are
    read off that count.  Python's datetimes end with the year 9999: the
    objects that exist are those [in_range]. *)
Record datetime := mk_datetime { micros : Z; tzinfo : option Z }.

(** [date.max.toordinal()], and the first count past [datetime.max]. *)
Definition _MAXORDINAL : Z := 3652059.
Definition max_micros : Z := _MAXORDINAL * 86400000000.

Definition in_range (dt : datetime) : bool :=
  (0 <=? micros dt) && (micros dt <? max_micros).

Definition microsecond (dt : datetime) : Z := micros dt mod 1000000.
Definition second (dt : datetime) : Z := (micros dt / 1000000) mod 60.
Definition minute (dt : datetime) : Z := (micros dt / 60000000) mod 60.
Definition hour (dt : datetime) : Z := (micros dt / 3600000000) mod 24.
(** [date.toordinal()]: day 1 is 0001-01-01. *)
Definition toordinal (dt : datetime) : Z := micros dt / 86400000000 + 1.

(** The count a sum or a difference lands on, tzinfo kept.  Whether that
    count is a datetime is decided where Python decides it, in [dt_plus]
    and [dt_minus] below. *)
Definition dt_add (dt : datetime) (td : Z) : datetime :=
  mk_datetime (micros dt + td) (tzinfo dt).
Definition dt_sub (dt : datetime) (td : Z) : datetime :=
  mk_datetime (micros dt - td) (tzinfo dt).

(** The proleptic Gregorian calendar of the [datetime] module
    ([_days_before_year], [_days_before_month], [_ymd2ord], [_ord2ymd]). *)
Definition _is_leap (year : Z) : bool :=
  (year mod 4 =? 0) && (negb (year mod 100 =? 0) || (year mod 400 =? 0)).

Definition _days_before_year (year : Z) : Z :=
  let y := year - 1 in y * 365 + y / 4 - y / 100 + y / 400.

Definition _DAYS_IN_MONTH : list Z :=
  [-1; 31; 28; 31; 30; 31; 30; 31; 31; 30; 31; 30; 31].
Definition _DAYS_BEFORE_MONTH : list Z :=
  [-1; 0; 31; 59; 90; 120; 151; 181; 212; 243; 273; 304; 334].

Definition _days_before_month (year month : Z) : Z :=
  nth (Z.to_nat month) _DAYS_BEFORE_MONTH 0
  + (if (2 <? month) && _is_leap year then 1 else 0).

Definition _ymd2ord (year month day : Z) : Z :=
  _days_before_year year + _days_before_month year month + day.

Definition _ord2ymd (n : Z) : Z * Z * Z :=
  let n := n - 1 in
  let n400 := n / 146097 in let n := n mod 146097 in
  let year := n400 * 400 + 1 in
  let n100 := n / 36524 in let n := n mod 36524 in
  let n4 := n / 1461 in let n := n mod 1461 in
  let n1 := n / 365 in let n := n mod 365 in
  let year := year + n100 * 100 + n4 * 4 + n1 in
  if (n1 =? 4) || (n100 =? 4) then (year - 1, 12, 31)
  else
    let leapyear := (n1 =? 3) && (negb (n4 =? 24) || (n100 =? 3)) in
    let month := Z.shiftr (n + 50) 5 in
    let preceding := nth (Z.to_nat month) _DAYS_BEFORE_MONTH 0
                     + (if (2 <? month) && leapyear then 1 else 0) in
    if n <? preceding then
      let month := month - 1 in
      let preceding := preceding
        - (nth (Z.to_nat month) _DAYS_IN_MONTH 0
           + (if (month =? 2) && leapyear then 1 else 0)) in
      (year, month, n - preceding + 1)
    else (year, month, n - preceding + 1).

(** [datetime(year, month, day, hour, minute, second, microsecond, tzinfo)]. *)
Definition datetime_of (year month day hh mm ss us : Z) (tz : option Z)
  : datetime :=
  mk_datetime
    ((_ymd2ord year month day - 1) * 86400000000
     + ((hh * 60 + mm) * 60 + ss) * 1000000 + us) tz.

(** [datetime.combine(d, time(hh, mm, tzinfo=tz))] for a date given by its
    ordinal. *)
Definition combine (ordinal hh mm : Z) (tz : option Z) : datetime :=
  mk_datetime ((ordinal - 1) * 86400000000 + (hh * 60 + mm) * 60000000) tz.

(** *** Text forms *)

Definition str_of_Z (n : Z) : string := NilZero.string_of_int (Z.to_int n).

Fixpoint zeros (k : nat) : string :=
  match k with O => "" | S k' => String "0" (zeros k') end.

(** ["%0<width>d" % n]. *)
Definition fmt_d (width : nat) (n : Z) : string :=
  let s := str_of_Z n in zeros (width - String.length s) ++ s.

(** The ["+HH:MM"] (or ["+HH:MM:SS"]) suffix [isoformat] writes for an
    aware object. *)
Definition format_offset (off : Z) : string :=
  let sign := if off <? 0 then "-" else "+" in
  let a := Z.abs off in
  let hh := a / 3600 in
  let mm := (a mod 3600) / 60 in
  let ss := a mod 60 in
  sign ++ fmt_d 2 hh ++ ":" ++ fmt_d 2 mm
       ++ (if ss =? 0 then "" else ":" ++ fmt_d 2 ss).

Definition date_isoformat (ordinal : Z) : string :=
  let '(y, m, d) := _ord2ymd ordinal in
  fmt_d 4 y ++ "-" ++ fmt_d 2 m ++ "-" ++ fmt_d 2 d.

(** [datetime.isoformat()] without its offset suffix. *)
Definition isoformat_naive (dt : datetime) : string :=
  date_isoformat (toordinal dt) ++ "T"
  ++ fmt_d 2 (hour dt) ++ ":" ++ fmt_d 2 (minute dt) ++ ":"
  ++ fmt_d 2 (second dt)
  ++ (if microsecond dt =? 0 then "" else "." ++ fmt_d 6 (microsecond dt)).

Definition isoformat (dt : datetime) : string :=
  isoformat_naive dt
  ++ match tzinfo dt with None => "" | Some off => format_offset off end.

(** [str.replace(old, new)] for a non-empty [old]: leftmost occurrences,
    not overlapping.  [n] bounds the number of characters still to scan. *)
Fixpoint strip_prefix (p s : string) : option string :=
  match p, s with
  | EmptyString, _ => Some s
  | String a p', String b s' =>
      if Ascii.eqb a b then strip_prefix p' s' else None
  | String _ _, EmptyString => None
  end.

Fixpoint replace_from (n : nat) (old new s : string) : string :=
  match n with
  | O => s
  | S n' =>
      match strip_prefix old s with
      | Some rest => new ++ replace_from (n' - (String.length old - 1)) old new rest
      | None =>
          match s with
          | EmptyString => ""
          | String c s' => String c (replace_from n' old new s')
          end
      end
  end.

Definition str_replace (old new s : string) : string :=
  replace_from (String.length s) old new s.

Definition UTC : option Z := Some 0.

(** ** Python values

    The values that reach the client: call arguments and parsed JSON.
    Strings are byte strings, so iterating one yields its bytes; for ASCII
    text that is Python's own iteration. *)
Inductive pyval :=
| VNone
| VBool (b : bool)
| VInt (z : Z)
| VFloat (f : float)
| VStr (s : string)
| VList (l : list pyval)
| VTuple (l : list pyval)
| VDict (kv : list (string * pyval))
| VDate (ordinal : Z)
| VDatetime (dt : datetime).

(** What a public method hands back: a Python value, or a pandas frame
    built from rows and column names.  [pd.DataFrame] is presentation glue
    and is kept as a constructor. *)
Inductive output :=
| Value (v : pyval)
| DataFrame (data columns : pyval).

(** ** Exceptions *)
Inductive exn :=
| PVLiveException (msg : string)
| RequestException (name : string)
| TypeError
| AttributeError
| KeyError
| IndexError
| ValueError
| OverflowError
| UnboundLocalError.

(** [PVLiveException.__init__]: [inspect] is never imported, so the [try]
    always fails and the file name is the module's own. *)
Definition new_PVLiveException (msg : string) : exn :=
  PVLiveException (msg ++ " (in '" ++ "pvlive.py" ++ "')").

Inductive result (A : Type) :=
| Ok (a : A)
| Raise (e : exn).
Arguments Ok {A} a.
Arguments Raise {A} e.

Definition rbind {A B} (r : result A) (k : A -> result B) : result B :=
  match r with Ok a => k a | Raise e => Raise e end.

(** [dt + td] and [dt - td] as [datetime.__add__] and [__sub__] do them:
    [OverflowError] when the result is not a datetime. *)
Definition dt_plus (dt : datetime) (td : Z) : result datetime :=
  let r := dt_add dt td in
  if in_range r then Ok r else Raise OverflowError.
Definition dt_minus (dt : datetime) (td : Z) : result datetime :=
  dt_plus dt (- td).

(** *** Dynamic operations *)

Definition is_none (v : pyval) : bool :=
  match v with VNone => true | _ => false end.

(** [isinstance(v, int)]: [bool] is a subclass of [int]. *)
Definition isinstance_int (v : pyval) : bool :=
  match v with VInt _ | VBool _ => true | _ => false end.
Definition isinstance_str (v : pyval) : bool :=
  match v with VStr _ => true | _ => false end.
Definition isinstance_datetime (v : pyval) : bool :=
  match v with VDatetime _ => true | _ => false end.
(** [isinstance(v, date)]: [datetime] is a subclass of [date]. *)
Definition isinstance_date (v : pyval) : bool :=
  match v with VDate _ | VDatetime _ => true | _ => false end.

(** The numeric tower: [bool] counts as [int]. *)
Inductive num := NInt (z : Z) | NFloat (f : float).

Definition as_num (v : pyval) : option num :=
  match v with
  | VBool b => Some (NInt (Z.b2z b))
  | VInt z => Some (NInt z)
  | VFloat f => Some (NFloat f)
  | _ => None
  end.

(** [float(z)]: round to nearest even, [OverflowError] past the largest
    double. *)
Definition float_of_Z (z : Z) : result float :=
  match binary_normalize prec emax z 0 false with
  | S754_infinity _ => Raise OverflowError
  | sf => Ok (SF2Prim sf)
  end.

(** [z > f] for an int and a float, exact as in CPython. *)
Definition Z_gt_float (z : Z) (f : float) : bool :=
  match Prim2SF f with
  | S754_nan => false
  | S754_infinity s => s
  | S754_zero _ => 0 <? z
  | S754_finite s m e =>
      let v := if s then Z.neg m else Z.pos m in
      if 0 <=? e then v * 2 ^ e <? z else v <? z * 2 ^ (- e)
  end.

Definition float_gt_Z (f : float) (z : Z) : bool :=
  match Prim2SF f with
  | S754_nan => false
  | S754_infinity s => negb s
  | S754_zero _ => z <? 0
  | S754_finite s m e =>
      let v := if s then Z.neg m else Z.pos m in
      if 0 <=? e then z <? v * 2 ^ e else z * 2 ^ (- e) <? v
  end.

Definition num_gt (a b : num) : bool :=
  match a, b with
  | NInt x, NInt y => y <? x
  | NFloat x, NFloat y => (y <? x)%float
  | NInt x, NFloat y => Z_gt_float x y
  | NFloat x, NInt y => float_gt_Z x y
  end.

(** [a + b] and [a * b] on numbers; anything else is a [TypeError] (the left
    operand is a number wherever the client adds or multiplies). *)
Definition num_arith (fz : Z -> Z -> Z) (ff : float -> float -> float)
  (a b : pyval) : result pyval :=
  match as_num a, as_num b with
  | Some (NInt x), Some (NInt y) => Ok (VInt (fz x y))
  | Some (NFloat x), Some (NFloat y) => Ok (VFloat (ff x y))
  | Some (NInt x), Some (NFloat y) =>
      rbind (float_of_Z x) (fun fx => Ok (VFloat (ff fx y)))
  | Some (NFloat x), Some (NInt y) =>
      rbind (float_of_Z y) (fun fy => Ok (VFloat (ff x fy)))
  | _, _ => Raise TypeError
  end.

Definition py_add : pyval -> pyval -> result pyval :=
  num_arith Z.add PrimFloat.add.
Definition py_mul : pyval -> pyval -> result pyval :=
  num_arith Z.mul PrimFloat.mul.

(** [sum(xs)]: left to right from the int [0]. *)
Fixpoint sum_from (acc : pyval) (xs : list pyval) : result pyval :=
  match xs with
  | [] => Ok acc
  | x :: xs' => rbind (py_add acc x) (fun acc' => sum_from acc' xs')
  end.
Definition py_sum (xs : list pyval) : result pyval := sum_from (VInt 0) xs.

(** Truth value of [if v:]. *)
Definition truthy (v : pyval) : bool :=
  match v with
  | VNone => false
  | VBool b => b
  | VInt z => negb (z =? 0)
  | VFloat f => negb (f =? 0)%float
  | VStr s => negb (String.eqb s "")
  | VList l | VTuple l => match l with [] => false | _ => true end
  | VDict kv => match kv with [] => false | _ => true end
  | VDate _ | VDatetime _ => true
  end.

(** [v == 0]. *)
Definition eq_zero (v : pyval) : bool :=
  match as_num v with
  | Some (NInt z) => z =? 0
  | Some (NFloat f) => (f =? 0)%float
  | None => false
  end.

Fixpoint dict_get (kv : list (string * pyval)) (k : string) : option pyval :=
  match kv with
  | [] => None
  | (k', v) :: kv' => if String.eqb k k' then Some v else dict_get kv' k
  end.

(** [d[k] = v] on an insertion-ordered dict. *)
Fixpoint dict_set (kv : list (string * pyval)) (k : string) (v : pyval)
  : list (string * pyval) :=
  match kv with
  | [] => [(k, v)]
  | (k', v') :: kv' =>
      if String.eqb k k' then (k, v) :: kv' else (k', v') :: dict_set kv' k v
  end.

(** [v[k]] for a string key. *)
Definition getitem_str (v : pyval) (k : string) : result pyval :=
  match v with
  | VDict kv =>
      match dict_get kv k with Some x => Ok x | None => Raise KeyError end
  | _ => Raise TypeError
  end.

Definition chars_of (s : string) : list pyval :=
  map (fun c => VStr (String c "")) (list_ascii_of_string s).

(** [v[i]] for an int index. *)
Definition getitem_int (v : pyval) (i : Z) : result pyval :=
  let pick (l : list pyval) :=
    let j := if i <? 0 then i + Z.of_nat (List.length l) else i in
    if j <? 0 then Raise IndexError
    else match nth_error l (Z.to_nat j) with
         | Some x => Ok x
         | None => Raise IndexError
         end in
  match v with
  | VList l | VTuple l => pick l
  | VStr s => pick (chars_of s)
  | VDict _ => Raise KeyError
  | _ => Raise TypeError
  end.

(** The items a [for] loop, [tuple(v)] or [list += v] draws from [v]. *)
Definition py_iter (v : pyval) : result (list pyval) :=
  match v with
  | VList l | VTuple l => Ok l
  | VStr s => Ok (chars_of s)
  | VDict kv => Ok (map (fun p => VStr (fst p)) kv)
  | _ => Raise TypeError
  end.

Definition py_tuple (v : pyval) : result pyval :=
  rbind (py_iter v) (fun l => Ok (VTuple l)).

(** [v.isoformat()]. *)
Definition py_isoformat (v : pyval) : result string :=
  match v with
  | VDatetime dt => Ok (isoformat dt)
  | VDate o => Ok (date_isoformat o)
  | _ => Raise AttributeError
  end.

(** [a < b] on two datetimes: wall clocks when both are naive, instants
    when both are aware, a [TypeError] when they are mixed. *)
Definition datetime_lt (a b : datetime) : result bool :=
  match tzinfo a, tzinfo b with
  | None, None => Ok (micros a <? micros b)
  | Some oa, Some ob =>
      Ok (micros a - oa * 1000000 <? micros b - ob * 1000000)
  | _, _ => Raise TypeError
  end.

(** [min(a, b)]: [b] only when it is strictly smaller. *)
Definition datetime_min (a b : datetime) : result datetime :=
  rbind (datetime_lt b a) (fun lt => Ok (if lt then b else a)).

(** ** The network and the clock

    One GET ends in a page whose status passed [raise_for_status], in
    [requests.exceptions.HTTPError], or in some other exception.  The world
    is the chronological log of what the client did; the host decides each
    GET from the log so far and the URL. *)
Inductive outcome :=
| Page (text : string)
| HTTPError
| OtherError (name : string).

Inductive event :=
| EGet (url : string)
| ESleep (delay : Z).

Definition world := list event.

(** What lies outside the module: [json.loads] ([None] when it raises),
    the remote service, [str] of values other than [None], bools, ints and
    strings, and [>] on containers. *)
Record Host := {
  json_loads : string -> option pyval;
  serve : world -> string -> outcome;
  str_other : pyval -> string;
  gt_other : pyval -> pyval -> result bool
}.

(** A computation runs in a world and ends with a value or an exception in
    a new world, unless the loop budget of the model runs out. *)
Inductive run (A : Type) :=
| Done (r : result A) (w : world)
| OutOfFuel.
Arguments Done {A} r w.
Arguments OutOfFuel {A}.

Definition M (A : Type) : Type := world -> run A.

Definition ret {A} (a : A) : M A := fun w => Done (Ok a) w.
Definition raise {A} (e : exn) : M A := fun w => Done (Raise e) w.
Definition lift {A} (r : result A) : M A := fun w => Done r w.
Definition bind {A B} (m : M A) (k : A -> M B) : M B :=
  fun w =>
    match m w with
    | Done (Ok a) w' => k a w'
    | Done (Raise e) w' => Done (Raise e) w'
    | OutOfFuel => OutOfFuel
    end.

Notation "x <- m ;; k" := (bind m (fun x => k))
  (at level 61, m at next level, right associativity).
Notation "' p <- m ;; k" := (bind m (fun x => match x with p => k end))
  (at level 61, p pattern, m at next level, right associativity).

(** An expression statement that builds an exception object and drops it:
    nothing is raised. *)
Definition discard (e : exn) : M unit := ret tt.

Definition sleep (delay : Z) : M unit :=
  fun w => Done (Ok tt) (w ++ [ESleep delay])%list.

(** ** class PVLive *)

Record PVLive := {
  base_url : string;
  max_range_national : Z;
  max_range_regional : Z;
  retries : Z
}.

(** [PVLive.__init__(retries=3)]. *)
Definition PVLive_init (retries : Z) : PVLive :=
  {| base_url := "https://api0.solar.sheffield.ac.uk/pvlive/v2/pes";
     max_range_national := timedelta 365 0 0;
     max_range_regional := timedelta 30 0 0;
     retries := retries |}.

Definition communication_error : exn :=
  new_PVLiveException "Error communicating with the PV_Live API.".

(** The arithmetic of [_nearest_hh] on a datetime: the count it lands on,
    which may be past the last datetime. *)
Definition nearest_hh (dt : datetime) : datetime :=
  if negb ((minute dt mod 30 =? 0) && (second dt =? 0)
           && (microsecond dt =? 0))
  then dt_add (dt_sub dt (timedelta 0 (minute dt mod 30) (second dt)))
              (timedelta 0 30 0)
  else dt.

(** [_nearest_hh(dt)]: anything without [minute] is an [AttributeError].
    On a datetime the subtraction goes back less than 30 minutes, to the
    boundary before it, and an argument handed back as it came is a
    datetime already: the one step that can leave the calendar is the last,
    so the [OverflowError] falls on the result. *)
Definition _nearest_hh (dt : pyval) : result datetime :=
  match dt with
  | VDatetime d =>
      if in_range (nearest_hh d) then Ok (nearest_hh d)
      else Raise OverflowError
  | _ => Raise AttributeError
  end.

(** [_nearest_hh] on a datetime read step by step, each of [-] and [+]
    checking its own result. *)
Definition nearest_hh_steps (dt : datetime) : result datetime :=
  if negb ((minute dt mod 30 =? 0) && (second dt =? 0)
           && (microsecond dt =? 0))
  then rbind (dt_minus dt (timedelta 0 (minute dt mod 30) (second dt)))
             (fun back => dt_plus back (timedelta 0 30 0))
  else Ok dt.

(** [v.tzinfo]. *)
Definition attr_tzinfo (v : pyval) : result (option Z) :=
  match v with
  | VDatetime d => Ok (tzinfo d)
  | _ => Raise AttributeError
  end.

Definition iso_param (v : pyval) : result pyval :=
  rbind (py_isoformat v) (fun s => Ok (VStr (str_replace "+00:00" "Z" s))).

(** [_compile_params(extra_fields, start, end)]. *)
Definition _compile_params (extra_fields start end_ : pyval)
  : result (list (string * pyval)) :=
  let params := [] in
  let params :=
    if truthy extra_fields then dict_set params "extra_fields" extra_fields
    else params in
  rbind (if negb (is_none start)
         then rbind (iso_param start)
                    (fun s => Ok (dict_set params "start" s))
         else Ok params)
    (fun params =>
       let end_ := if negb (is_none start) && is_none end_ then start
                   else end_ in
       if negb (is_none end_)
       then rbind (iso_param end_) (fun e => Ok (dict_set params "end" e))
       else Ok params).

Fixpoint join (sep : string) (l : list string) : string :=
  match l with
  | [] => ""
  | [x] => x
  | x :: l' => x ++ sep ++ join sep l'
  end.

(** [datetime.combine(d, time(hh, mm, tzinfo=tz))]. *)
Definition py_combine (d : pyval) (hh mm : Z) (tz : option Z)
  : result datetime :=
  match d with
  | VDate o => Ok (combine o hh mm tz)
  | VDatetime dt => Ok (combine (toordinal dt) hh mm tz)
  | _ => Raise TypeError
  end.

Fixpoint mapr {A B} (f : A -> result B) (l : list A) : result (list B) :=
  match l with
  | [] => Ok []
  | x :: l' =>
      rbind (f x) (fun y => rbind (mapr f l') (fun ys => Ok (y :: ys)))
  end.

Definition null_row : pyval := VTuple [VNone; VNone; VNone].

Section Client.

Variable H : Host.

(** [str(v)], as ["{}".format(v)] writes it. *)
Definition py_str (v : pyval) : string :=
  match v with
  | VNone => "None"
  | VBool b => if b then "True" else "False"
  | VInt z => str_of_Z z
  | VStr s => s
  | _ => str_other H v
  end.

(** [a > b], as [max] asks it of two keys. *)
Definition py_gt (a b : pyval) : result bool :=
  match as_num a, as_num b with
  | Some x, Some y => Ok (num_gt x y)
  | _, _ =>
      match a, b with
      | VStr s, VStr t => Ok (String.ltb t s)
      | VList _, VList _ | VTuple _, VTuple _ => gt_other H a b
      | _, _ => Raise TypeError
      end
  end.

(** [max(range(len(gens)), key=gens.__getitem__)]: the running best is
    replaced only by a strictly greater key. *)
Fixpoint argmax_from (best_i : Z) (best : pyval) (i : Z) (xs : list pyval)
  : result Z :=
  match xs with
  | [] => Ok best_i
  | x :: xs' =>
      rbind (py_gt x best)
        (fun gt => if gt then argmax_from i x (i + 1) xs'
                   else argmax_from best_i best (i + 1) xs')
  end.

Definition argmax (gens : list pyval) : result Z :=
  match gens with
  | [] => Raise ValueError
  | g :: gs => argmax_from 0 g 1 gs
  end.

(** [_build_url(pes_id, params)]. *)
Definition _build_url (self : PVLive) (pes_id : pyval)
  (params : list (string * pyval)) : string :=
  let base := base_url self ++ "/" ++ py_str pes_id in
  base ++ "?" ++ join "&" (map (fun kv => fst kv ++ "=" ++ py_str (snd kv)) params).

(** The [while] loop of [_fetch_url]; [page] is unbound until a GET
    succeeds. *)
Fixpoint fetch_loop (fuel : nat) (self : PVLive) (url : string)
  (success : bool) (try_counter delay : Z) (page : option string)
  : M (bool * option string) :=
  fun w =>
    if negb success && (try_counter <? retries self + 1) then
      match fuel with
      | O => OutOfFuel
      | S fuel' =>
          let try_counter := try_counter + 1 in
          match serve H w url with
          | Page text =>
              fetch_loop fuel' self url true try_counter delay (Some text)
                (w ++ [EGet url])%list
          | HTTPError =>
              (_ <- sleep delay ;;
               fetch_loop fuel' self url success try_counter (delay * 2) page)
                (w ++ [EGet url])%list
          | OtherError name =>
              Done (Raise (RequestException name)) (w ++ [EGet url])%list
          end
      end
    else Done (Ok (success, page)) w.

(** [_fetch_url(url)]. *)
Definition _fetch_url (fuel : nat) (self : PVLive) (url : string) : M pyval :=
  ' (success, page) <- fetch_loop fuel self url false 0 1 None ;;
  if negb success then raise communication_error
  else
    match page with
    | None => raise UnboundLocalError
    | Some text =>
        match json_loads H text with
        | Some v => ret v
        | None => raise communication_error
        end
    end.

(** [_query_api(pes_id, params)]. *)
Definition _query_api (fuel : nat) (self : PVLive) (pes_id : pyval)
  (params : list (string * pyval)) : M pyval :=
  let url := _build_url self pes_id params in
  _fetch_url fuel self url.

(** [convert_tuple_to_df(data, columns)]. *)
Definition convert_tuple_to_df (data columns : pyval) : output :=
  DataFrame (VList [data]) columns.

(** The tail shared by [latest] and [at_time]. *)
Definition first_row (response : pyval) (data_frame : bool) : M output :=
  data <- lift (getitem_str response "data") ;;
  if truthy data then
    row <- lift (getitem_int data 0) ;;
    if data_frame then
      meta <- lift (getitem_str response "meta") ;;
      ret (convert_tuple_to_df row meta)
    else
      t <- lift (py_tuple row) ;;
      ret (Value t)
  else ret (Value null_row).

(** [latest(pes_id=0, data_frame=False, extra_fields="")]. *)
Definition latest (fuel : nat) (self : PVLive) (pes_id : pyval)
  (data_frame : bool) (extra_fields : pyval) : M output :=
  if negb (isinstance_int pes_id)
     || negb (match as_num pes_id with
              | Some (NInt z) => (0 <=? z) && (z <? 328)
              | _ => false
              end)
  then raise (new_PVLiveException
                "The pes_id must be an integer between 0 and 327 (inclusive).")
  else if negb (isinstance_str extra_fields)
  then raise (new_PVLiveException
                "The extra_fields must be a comma-separated string.")
  else
    params <- lift (_compile_params extra_fields VNone VNone) ;;
    response <- _query_api fuel self pes_id params ;;
    first_row response data_frame.

(** [at_time(dt, pes_id=0, data_frame=False, extra_fields="")]. *)
Definition at_time (fuel : nat) (self : PVLive) (dt pes_id : pyval)
  (data_frame : bool) (extra_fields : pyval) : M output :=
  bad <- lift (if negb (isinstance_datetime dt) then Ok true
               else rbind (attr_tzinfo dt)
                          (fun tz => Ok (match tz with None => true
                                                  | Some _ => false end))) ;;
  _ <- (if bad : bool
        then discard (new_PVLiveException
               "The dt must be a timezone-aware Python datetime object.")
        else ret tt) ;;
  dt <- lift (_nearest_hh dt) ;;
  params <- lift (_compile_params extra_fields (VDatetime dt) VNone) ;;
  response <- _query_api fuel self pes_id params ;;
  first_row response data_frame.

(** The [while] loop of [between]; [response] is unbound until the first
    pass.  [n] is the budget handed to each fetch. *)
Fixpoint between_loop (fuel n : nat) (self : PVLive)
  (pes_id extra_fields : pyval) (end_ : datetime) (max_range : Z)
  (data : list pyval) (response : option pyval) (request_start : datetime)
  : M (list pyval * option pyval) :=
  fun w =>
    match datetime_lt request_start end_ with
    | Raise e => Done (Raise e) w
    | Ok false => Done (Ok (data, response)) w
    | Ok true =>
        match fuel with
        | O => OutOfFuel
        | S fuel' =>
            (upper <- lift (dt_plus request_start max_range) ;;
             request_end <- lift (datetime_min end_ upper) ;;
             params <- lift (_compile_params extra_fields
                               (VDatetime request_start)
                               (VDatetime request_end)) ;;
             response <- _query_api n self pes_id params ;;
             rows <- lift (rbind (getitem_str response "data") py_iter) ;;
             request_start <- lift (dt_plus request_start
                                      (max_range + timedelta 0 30 0)) ;;
             between_loop fuel' n self pes_id extra_fields end_ max_range
               (data ++ rows)%list (Some response) request_start) w
        end
    end.

(** [between(start, end, pes_id=0, data_frame=False, extra_fields="")]. *)
Definition between (fuel : nat) (self : PVLive) (start end_ pes_id : pyval)
  (data_frame : bool) (extra_fields : pyval) : M output :=
  let type_check :=
    negb (isinstance_datetime start && isinstance_datetime end_) in
  tz_check <- lift (rbind (attr_tzinfo start) (fun s =>
                match s with
                | None => Ok true
                | Some _ =>
                    rbind (attr_tzinfo end_)
                      (fun e => Ok (match e with None => true
                                            | Some _ => false end))
                end)) ;;
  _ <- (if type_check || tz_check
        then discard (new_PVLiveException
               "Start and end must be timezone-aware Python datetime objects.")
        else ret tt) ;;
  start <- lift (_nearest_hh start) ;;
  end_ <- lift (_nearest_hh end_) ;;
  let max_range := if eq_zero pes_id then max_range_national self
                   else max_range_regional self in
  ' (data, response) <- between_loop fuel fuel self pes_id extra_fields end_
                          max_range [] None start ;;
  if data_frame then
    match response with
    | None => raise UnboundLocalError
    | Some r =>
        columns <- lift (getitem_str r "meta") ;;
        ret (DataFrame (VList data) columns)
    end
  else ret (Value (VList data)).

(** The generation column as [day_peak] and [day_energy] read it: [x[2]],
    with [None] replaced by [dflt]. *)
Definition gen_or (dflt : pyval) (x : pyval) : result pyval :=
  rbind (getitem_int x 2) (fun g => Ok (if is_none g then dflt else g)).

(** The full-day window of a date: 00:30 through 00:00 the next day. *)
Definition day_window (d : pyval) : result (datetime * datetime) :=
  rbind (py_combine d 0 30 UTC)
    (fun start =>
       rbind (dt_plus start (timedelta 1 0 0))
         (fun next =>
            rbind (dt_minus next (timedelta 0 30 0))
              (fun end_ => Ok (start, end_)))).

(** [day_peak(d, pes_id=0, data_frame=False, extra_fields="")]. *)
Definition day_peak (fuel : nat) (self : PVLive) (d pes_id : pyval)
  (data_frame : bool) (extra_fields : pyval) : M output :=
  _ <- (if negb (isinstance_date d)
        then discard (new_PVLiveException "The d must be a Python date object.")
        else ret tt) ;;
  ' (start, end_) <- lift (day_window d) ;;
  params <- lift (_compile_params extra_fields (VDatetime start)
                    (VDatetime end_)) ;;
  response <- _query_api fuel self pes_id params ;;
  data <- lift (getitem_str response "data") ;;
  if truthy data then
    xs <- lift (py_iter data) ;;
    gens <- lift (mapr (gen_or (VFloat (-1e308))) xs) ;;
    index_max <- lift (argmax gens) ;;
    row <- lift (getitem_int data index_max) ;;
    if data_frame then
      meta <- lift (getitem_str response "meta") ;;
      ret (convert_tuple_to_df row meta)
    else
      t <- lift (py_tuple row) ;;
      ret (Value t)
  else ret (Value null_row).

(** [day_energy(d, pes_id=0)]. *)
Definition day_energy (fuel : nat) (self : PVLive) (d pes_id : pyval)
  : M pyval :=
  _ <- (if negb (isinstance_date d)
        then discard (new_PVLiveException "The d must be a Python date object.")
        else ret tt) ;;
  ' (start, end_) <- lift (day_window d) ;;
  params <- lift (_compile_params (VStr "") (VDatetime start)
                    (VDatetime end_)) ;;
  response <- _query_api fuel self pes_id params ;;
  data <- lift (getitem_str response "data") ;;
  if truthy data then
    xs <- lift (py_iter data) ;;
    gens <- lift (mapr (gen_or (VInt 0)) xs) ;;
    total <- lift (py_sum gens) ;;
    lift (py_mul total (VFloat 0.5))
  else ret VNone.

End Client.
(** ** Reference notions used by the statements *)

(** A half-hour boundary: minute 0 or 30, no seconds, no microseconds. *)
Definition on_half_hour (dt : datetime) : bool :=
  ((minute dt =? 0) || (minute dt =? 30))
  && (second dt =? 0) && (microsecond dt =? 0).

(** Number of GETs in a log. *)
Definition count_gets (w : world) : nat :=
  List.length (filter (fun e => match e with EGet _ => true | _ => false end) w).

(** The log of [k] GETs that each ended in an HTTP error status: every one
    is followed by a sleep, and the delay doubles from one to the next. *)
Fixpoint backoff (url : string) (k : nat) (delay : Z) : list event :=
  match k with
  | O => []
  | S k' => EGet url :: ESleep delay :: backoff url k' (delay * 2)
  end.

(** The outcome of GET number [i] (from 0) of a fetch begun in world [w],
    when the GETs before it ended in HTTP error statuses. *)
Definition reply (H : Host) (url : string) (w : world) (i : nat) : outcome :=
  serve H (w ++ backoff url i 1)%list url.

Fixpoint has_char (c : ascii) (s : string) : bool :=
  match s with
  | EmptyString => false
  | String a s' => Ascii.eqb a c || has_char c s'
  end.

(** [s.endswith(suffix)]. *)
Definition str_endswith (s suffix : string) : bool :=
  let n := String.length s in
  let k := String.length suffix in
  (k <=? n)%nat && String.eqb (substring (n - k) k s) suffix.

(** The generation cell of a row as [json.loads] makes it: [None] for
    null, an int or a float for a number. *)
Inductive cell :=
| CNull
| CInt (z : Z)
| CFloat (f : float).

Definition cell_value (c : cell) : pyval :=
  match c with CNull => VNone | CInt z => VInt z | CFloat f => VFloat f end.

(** A row as the service sends it: a list whose third cell is the
    generation. *)
Definition has_cell (row : pyval) (c : cell) : Prop :=
  exists cells, row = VList cells /\ nth_error cells 2 = Some (cell_value c).

(** What the comprehensions of [day_peak] and [day_energy] make of a
    generation cell: the value, or [dflt] for null. *)
Definition cell_or (dflt : pyval) (c : cell) : pyval :=
  match c with CNull => dflt | _ => cell_value c end.

(** [sum(...) * 0.5] over the generation cells, null counted as the int 0,
    in Python's arithmetic: ints add exactly, an int met by a float is
    converted first. *)
Definition energy_of (cells : list cell) : result pyval :=
  rbind (py_sum (map (cell_or (VInt 0)) cells))
        (fun total => py_mul total (VFloat 0.5)).

(** The exact sum of cells that are ints or null. *)
Definition int_total (cells : list cell) : Z :=
  fold_right (fun c acc => match c with CInt z => z + acc | _ => acc end)
    0 cells.

Definition is_int_cell (c : cell) : Prop :=
  match c with CFloat _ => False | _ => True end.


(** The days whose window exists: a date, and not [date.max], whose
    00:30 plus one day would leave the calendar. *)
Definition day_in_range (ordinal : Z) : Prop := 1 <= ordinal < _MAXORDINAL.


(** The parameters of a full-day query: 00:30 on the day through 00:00 on
    the next. *)
Definition day_params (extra_fields : pyval) (ordinal : Z)
  : list (string * pyval) :=
  ((if truthy extra_fields then [("extra_fields", extra_fields)] else [])
   ++ [("start", VStr (date_isoformat ordinal ++ "T00:30:00Z"));
       ("end", VStr (date_isoformat (ordinal + 1) ++ "T00:00:00Z"))])%list.

(** A float that is a number: [f == f]. *)
Definition is_number (f : float) : Prop := (f =? f)%float = true.

(** A number of the tower that is not NaN. *)
Definition num_ok (n : num) : Prop :=
  match n with NInt _ => True | NFloat f => is_number f end.

(** The order of numbers by value.  A finite float is its signed mantissa
    times two to its exponent, and no exponent is below -1074, so a finite
    number is a whole count of units of 2^-1074; the infinities stand below
    and above all of them. *)
Definition num_class (n : num) : Z :=
  match n with
  | NInt _ => 0
  | NFloat f =>
      match Prim2SF f with
      | S754_infinity s => if s then -1 else 1
      | _ => 0
      end
  end.

Definition num_units (n : num) : Z :=
  match n with
  | NInt z => z * 2 ^ 1074
  | NFloat f =>
      match Prim2SF f with
      | S754_finite s m e =>
          (if s then Z.neg m else Z.pos m) * 2 ^ (e + 1074)
      | _ => 0
      end
  end.

(** [a] is below [b] in value. *)
Definition num_below (a b : num) : Prop :=
  num_class a < num_class b
  \/ (num_class a = num_class b /\ num_units a < num_units b).

Definition num_value (n : num) : pyval :=
  match n with NInt z => VInt z | NFloat f => VFloat f end.

(** The key [day_peak] compares rows by: the generation, or -1e308 for
    null. *)
Definition peak_key (c : cell) : num :=
  match c with
  | CNull => NFloat (-1e308)
  | CInt z => NInt z
  | CFloat f => NFloat f
  end.

(** [i] is the first index of a maximal key: no key is above the one at
    [i] in value, and every key before it is below it. *)
Definition first_max (keys : list num) (i : nat) : Prop :=
  exists ki,
    nth_error keys i = Some ki
    /\ (forall j kj, nth_error keys j = Some kj -> ~ num_below ki kj)
    /\ (forall j kj, (j < i)%nat -> nth_error keys j = Some kj ->
                     num_below kj ki).

Definition cell_is_number (c : cell) : Prop := num_ok (peak_key c).

(** The instant of a datetime on the UTC line, in microseconds; a naive
    one counts as it stands. *)
Definition instant (dt : datetime) : Z :=
  micros dt - match tzinfo dt with Some off => off * 1000000 | None => 0 end.

(** Both aware or both naive: the pairs Python agrees to order. *)
Definition comparable (a b : datetime) : bool :=
  match tzinfo a, tzinfo b with
  | Some _, Some _ | None, None => true
  | _, _ => false
  end.

Definition one_interval : Z := timedelta 0 30 0.

(** The per-request limit by region. *)
Definition limit_of (pes_id : pyval) : Z :=
  if eq_zero pes_id then timedelta 365 0 0 else timedelta 30 0 0.

(** [min(a, b)] of two comparable datetimes. *)
Definition earlier (a b : datetime) : datetime :=
  if instant b <? instant a then b else a.

(** The number of request starts [start + i * (max_range + 30 min)] that
    lie strictly before [end]. *)
Definition chunk_count (start end_ : datetime) (max_range : Z) : nat :=
  if instant start <? instant end_
  then Z.to_nat ((instant end_ - instant start - 1) / (max_range + one_interval) + 1)
  else 0.

(** Every datetime the loop computes for the window exists: the start, and
    the start advanced by one step per request. *)
Definition window_in_range (start end_ : datetime) (max_range : Z) : Prop :=
  0 <= micros start
  /\ micros start
     + Z.of_nat (chunk_count start end_ max_range) * (max_range + one_interval)
     < max_micros.

(** Chunk number [i]: it starts [i] steps after [start] and ends
    [max_range] later, or at [end] if that comes first. *)
Definition chunk (start end_ : datetime) (max_range : Z) (i : nat)
  : datetime * datetime :=
  let request_start :=
    dt_add start (Z.of_nat i * (max_range + one_interval)) in
  (request_start, earlier end_ (dt_add request_start max_range)).

Definition chunks (start end_ : datetime) (max_range : Z)
  : list (datetime * datetime) :=
  map (chunk start end_ max_range) (seq 0 (chunk_count start end_ max_range)).

(** One query per chunk, in order, each answer's rows appended to [data]. *)
Fixpoint query_chunks (H : Host) (n : nat) (self : PVLive)
  (pes_id extra_fields : pyval) (cs : list (datetime * datetime))
  (data : list pyval) (response : option pyval)
  : M (list pyval * option pyval) :=
  match cs with
  | [] => ret (data, response)
  | (request_start, request_end) :: cs' =>
      params <- lift (_compile_params extra_fields (VDatetime request_start)
                        (VDatetime request_end)) ;;
      response <- _query_api H n self pes_id params ;;
      rows <- lift (rbind (getitem_str response "data") py_iter) ;;
      query_chunks H n self pes_id extra_fields cs' (data ++ rows)%list
        (Some response)
  end.

(** The chunks [cs], queried in order from world [w], are answered with
    the row lists [rowss], and the world is then [w']. *)
Inductive answered (H : Host) (n : nat) (self : PVLive)
  (pes_id extra_fields : pyval)
  : list (datetime * datetime) -> world -> list (list pyval) -> world -> Prop :=
| answered_nil (w : world) :
    answered H n self pes_id extra_fields [] w [] w
| answered_cons (request_start request_end : datetime)
    (cs : list (datetime * datetime)) (w w1 w2 : world)
    (params : list (string * pyval)) (response : pyval)
    (rows : list pyval) (rowss : list (list pyval)) :
    _compile_params extra_fields (VDatetime request_start)
      (VDatetime request_end) = Ok params ->
    _query_api H n self pes_id params w = Done (Ok response) w1 ->
    rbind (getitem_str response "data") py_iter = Ok rows ->
    answered H n self pes_id extra_fields cs w1 rowss w2 ->
    answered H n self pes_id extra_fields
      ((request_start, request_end) :: cs) w (rows :: rowss) w2.

(** What [latest] accepts as a region: an int in [0, 327]. *)
Definition region_ok (pes_id : pyval) : bool :=
  isinstance_int pes_id
  && match as_num pes_id with
     | Some (NInt z) => (0 <=? z) && (z <? 328)
     | _ => false
     end.

(** The [extra_fields] entry of a request, present only for a true value. *)
Definition extra_params (extra_fields : pyval) : list (string * pyval) :=
  if truthy extra_fields then [("extra_fields", extra_fields)] else [].

(** Seconds slept and number of sleeps in a log. *)
Fixpoint total_sleep (w : world) : Z :=
  match w with
  | [] => 0
  | ESleep d :: w' => d + total_sleep w'
  | EGet _ :: w' => total_sleep w'
  end.

Definition count_sleeps (w : world) : nat :=
  List.length (filter (fun e => match e with ESleep _ => true | _ => false end) w).

(** A time argument as the methods pass it to [_compile_params]: [None] or
    a datetime. *)
Definition time_arg (v : pyval) : Prop :=
  v = VNone \/ exists dt, v = VDatetime dt.

(** An event a fetch of [url] may add to the log: a GET of that URL, or a
    sleep of at least one time unit. *)
Definition fetch_event (url : string) (e : event) : Prop :=
  match e with
  | EGet u => u = url
  | ESleep d => 1 <= d
  end.

(** The URL of a full-day query without extra fields. *)
Definition day_query_url (base region : string) (ordinal : Z) : string :=
  base ++ "/" ++ region ++ "?start=" ++ date_isoformat ordinal
  ++ "T00:30:00Z&end=" ++ date_isoformat (ordinal + 1) ++ "T00:00:00Z".

(** ** Worked examples: scripted services *)

Module Demo.

(** A host for worked examples: the k-th GET of a session ends as the k-th
    entry of [script] says (a connection error once the script is over),
    and [docs] gives what [json.loads] makes of each page. *)
Definition scripted (script : list outcome) (docs : list (string * pyval))
  : Host :=
  {| json_loads := fun text => dict_get docs text;
     serve := fun w _ => nth (count_gets w) script (OtherError "ConnectionError");
     str_other := fun _ => "<object>";
     gt_other := fun _ _ => Raise TypeError |}.

Definition pvlive : PVLive := PVLive_init 3.

(** Two HTTP errors, then a page. *)
Definition flaky : Host :=
  scripted [HTTPError; HTTPError; Page "page"]
    [("page", VDict [("data", VList []); ("meta", VList [])])].

(** One HTTP error, then the connection drops. *)
Definition dropping : Host := scripted [HTTPError] [].

Definition demo_url : string :=
  "https://api0.solar.sheffield.ac.uk/pvlive/v2/pes/0?".

Definition day_url : string :=
  "https://api0.solar.sheffield.ac.uk/pvlive/v2/pes/0?start=2018-06-03T00:30:00Z&end=2018-06-04T00:00:00Z".

Definition row (stamp : string) (c : cell) : pyval :=
  VList [VInt 0; VStr stamp; cell_value c].

Definition meta : pyval :=
  VList [VStr "pes_id"; VStr "datetime_gmt"; VStr "generation_mw"].

(** A service that answers a day's query with the given rows. *)
Definition day_of (rows : list (string * cell)) : Host :=
  scripted [Page "day"]
    [("day", VDict [("data", VList (map (fun r => row (fst r) (snd r)) rows));
                    ("meta", meta)])].

(** Generation 2.0, null, 4.0. *)
Definition three_rows : Host :=
  day_of [("2018-06-03T00:30:00Z", CFloat 2);
          ("2018-06-03T01:00:00Z", CNull);
          ("2018-06-03T01:30:00Z", CFloat 4)].

(** Generation 2.0, 5.0, null, 5.0. *)
Definition peak_rows : list (string * cell) :=
  [("2018-06-03T00:30:00Z", CFloat 2);
   ("2018-06-03T01:00:00Z", CFloat 5);
   ("2018-06-03T01:30:00Z", CNull);
   ("2018-06-03T02:00:00Z", CFloat 5)].
Definition four_rows : Host := day_of peak_rows.

(** A day on which every generation is null. *)
Definition all_null : Host :=
  day_of [("2018-06-03T00:30:00Z", CNull); ("2018-06-03T01:00:00Z", CNull)].

(** A null row ahead of a row whose generation is -1e308. *)
Definition null_then_floor : Host :=
  day_of [("2018-06-03T00:30:00Z", CNull);
          ("2018-06-03T01:00:00Z", CFloat (-1e308))].

(** Two pages for a query split in two. *)
Definition two_pages : Host :=
  scripted [Page "first"; Page "second"]
    [("first", VDict [("data", VList [row "2019-01-01T00:00:00Z" (CFloat 1)]);
                      ("meta", meta)]);
     ("second", VDict [("data", VList [row "2019-02-05T00:00:00Z" (CFloat 2)]);
                       ("meta", meta)])].

(** A service that answers with a single row. *)
Definition one_row : Host :=
  scripted [Page "row"]
    [("row", VDict [("data", VList [row "2018-06-03T12:00:00Z" (CFloat 5)]);
                    ("meta", meta)])].

(** Every GET ends in an HTTP error status. *)
Definition always_failing : Host :=
  {| json_loads := fun _ => None;
     serve := fun _ _ => HTTPError;
     str_other := fun _ => "<object>";
     gt_other := fun _ _ => Raise TypeError |}.

(** The first page of a split query arrives, then the connection drops. *)
Definition second_drops : Host :=
  scripted [Page "first"]
    [("first", VDict [("data", VList [row "2019-01-01T00:00:00Z" (CFloat 1)]);
                      ("meta", meta)])].

(** An answer that parses but has no data field. *)
Definition no_data_field : Host :=
  scripted [Page "error"] [("error", VDict [("error", VStr "bad request")])].

(** A 400-day window and the two requests it is split into. *)
Definition long_start : datetime := datetime_of 2018 1 1 0 0 0 0 UTC.
Definition long_end : datetime := datetime_of 2019 2 5 0 0 0 0 UTC.
Definition first_url : string :=
  "https://api0.solar.sheffield.ac.uk/pvlive/v2/pes/0?start=2018-01-01T00:00:00Z&end=2019-01-01T00:00:00Z".
Definition second_url : string :=
  "https://api0.solar.sheffield.ac.uk/pvlive/v2/pes/0?start=2019-01-01T00:30:00Z&end=2019-02-05T00:00:00Z".
Definition first_page : pyval :=
  VDict [("data", VList [row "2019-01-01T00:00:00Z" (CFloat 1)]);
         ("meta", meta)].

(** The last instant of a window one step long. *)
Definition seam_end : datetime := datetime_of 2019 1 1 0 30 0 0 UTC.


(** Integers and floats mixed: 2, 5.0, null, 5. *)
Definition mixed_rows : list (string * cell) :=
  [("2018-06-03T00:30:00Z", CInt 2);
   ("2018-06-03T01:00:00Z", CFloat 5);
   ("2018-06-03T01:30:00Z", CNull);
   ("2018-06-03T02:00:00Z", CInt 5)].
Definition four_mixed_rows : Host := day_of mixed_rows.

(** A NaN ahead of 7.0. *)
Definition nan_rows : Host :=
  day_of [("2018-06-03T00:30:00Z", CFloat nan);
          ("2018-06-03T01:00:00Z", CFloat 7)].

(** One generation of 2^1024, as a JSON integer. *)
Definition huge_int_rows : Host :=
  day_of [("2018-06-03T00:30:00Z", CInt (2 ^ 1024))].

End Demo.

Import Demo.

(** * Properties *)

(** ** The calendar and the text forms on concrete dates *)

Example ord2ymd_leap_day : _ord2ymd (_ymd2ord 2020 2 29) = (2020, 2, 29).
Proof. reflexivity. Qed.

Example ord2ymd_year_end : _ord2ymd (_ymd2ord 2019 12 31) = (2019, 12, 31).
Proof. reflexivity. Qed.

Example isoformat_utc :
  isoformat (datetime_of 2018 6 3 12 35 0 0 UTC) = "2018-06-03T12:35:00+00:00".
Proof. vm_compute. reflexivity. Qed.

Example isoformat_microseconds_west :
  isoformat (datetime_of 2020 2 29 0 30 0 250 (Some (-19800)))
  = "2020-02-29T00:30:00.000250-05:30".
Proof. vm_compute. reflexivity. Qed.

(** ** The time normaliser *)

Lemma half_hour_iff (dt : datetime) :
  on_half_hour dt = true <-> micros dt mod 1800000000 = 0.
Proof.
  unfold on_half_hour, minute, second, microsecond.
  rewrite !andb_true_iff, orb_true_iff, !Z.eqb_eq.
  split; intros; Z.to_euclidean_division_equations; lia.
Qed.

Lemma nearest_hh_micros (dt : datetime) :
  micros (nearest_hh dt) =
  if (micros dt mod 1800000000 =? 0) then micros dt
  else micros dt - (micros dt mod 1800000000) + 1800000000 + microsecond dt.
Proof.
  unfold nearest_hh, timedelta, dt_add, dt_sub, minute, second, microsecond.
  destruct (micros dt mod 1800000000 =? 0) eqn:E.
  - apply Z.eqb_eq in E.
    replace (((micros dt / 60000000) mod 60) mod 30 =? 0) with true
      by (symmetry; apply Z.eqb_eq; Z.to_euclidean_division_equations; lia).
    replace ((micros dt / 1000000) mod 60 =? 0) with true
      by (symmetry; apply Z.eqb_eq; Z.to_euclidean_division_equations; lia).
    replace (micros dt mod 1000000 =? 0) with true
      by (symmetry; apply Z.eqb_eq; Z.to_euclidean_division_equations; lia).
    reflexivity.
  - apply Z.eqb_neq in E.
    destruct (negb _) eqn:N; cbn [micros].
    + Z.to_euclidean_division_equations; lia.
    + apply negb_false_iff in N. rewrite !andb_true_iff, !Z.eqb_eq in N.
      exfalso. apply E. Z.to_euclidean_division_equations; lia.
Qed.

(** With whole seconds the normaliser does what its docstring says: it
    lands on the least half-hour boundary at or after its argument. *)
Lemma nearest_hh_whole_seconds (dt : datetime) :
  microsecond dt = 0 ->
  on_half_hour (nearest_hh dt) = true
  /\ micros dt <= micros (nearest_hh dt)
  /\ (forall b, on_half_hour b = true -> micros dt <= micros b ->
                micros (nearest_hh dt) <= micros b).
Proof.
  intros Hus. rewrite half_hour_iff, nearest_hh_micros.
  unfold microsecond in *.
  destruct (micros dt mod 1800000000 =? 0) eqn:E.
  - apply Z.eqb_eq in E. repeat split; auto; lia.
  - apply Z.eqb_neq in E. repeat split.
    + Z.to_euclidean_division_equations; lia.
    + Z.to_euclidean_division_equations; lia.
    + intros b Hb Hle. apply half_hour_iff in Hb.
      Z.to_euclidean_division_equations; lia.
Qed.

(** A boundary is left alone. *)
Lemma nearest_hh_fixed (dt : datetime) :
  on_half_hour dt = true -> nearest_hh dt = dt.
Proof.
  intros Hb. unfold nearest_hh.
  unfold on_half_hour in Hb.
  rewrite !andb_true_iff, orb_true_iff, !Z.eqb_eq in Hb.
  destruct Hb as [[Hm Hs] Hu].
  replace (minute dt mod 30 =? 0) with true
    by (destruct Hm as [-> | ->]; reflexivity).
  rewrite Hs, Hu. reflexivity.
Qed.

(** With whole seconds a second pass changes nothing. *)
Lemma nearest_hh_idempotent_whole_seconds (dt : datetime) :
  microsecond dt = 0 -> nearest_hh (nearest_hh dt) = nearest_hh dt.
Proof.
  intros Hus. apply nearest_hh_fixed, nearest_hh_whole_seconds, Hus.
Qed.

(** Microseconds survive the rounding, so an argument that carries some is
    moved to a point that is not a boundary, and moved again by a second
    pass. *)
Lemma nearest_hh_microseconds (dt : datetime) :
  microsecond dt <> 0 ->
  microsecond (nearest_hh dt) = microsecond dt
  /\ on_half_hour (nearest_hh dt) = false
  /\ micros (nearest_hh (nearest_hh dt)) = micros (nearest_hh dt) + 1800000000.
Proof.
  intros Hus.
  assert (Hm : micros (nearest_hh dt)
               = micros dt - micros dt mod 1800000000 + 1800000000
                 + microsecond dt).
  { rewrite nearest_hh_micros.
    destruct (micros dt mod 1800000000 =? 0) eqn:E; [| reflexivity].
    apply Z.eqb_eq in E. exfalso. apply Hus. unfold microsecond.
    Z.to_euclidean_division_equations; lia. }
  assert (Hk : microsecond (nearest_hh dt) = microsecond dt).
  { unfold microsecond in *. rewrite Hm.
    Z.to_euclidean_division_equations; lia. }
  assert (Hr : micros (nearest_hh dt) mod 1800000000 = microsecond dt).
  { rewrite Hm. unfold microsecond in *.
    Z.to_euclidean_division_equations; lia. }
  split; [exact Hk |]. split.
  - destruct (on_half_hour (nearest_hh dt)) eqn:B; [| reflexivity].
    apply half_hour_iff in B. congruence.
  - rewrite (nearest_hh_micros (nearest_hh dt)), Hr, Hk.
    destruct (microsecond dt =? 0) eqn:E; [apply Z.eqb_eq in E; tauto | lia].
Qed.

(** On every datetime the two readings of [_nearest_hh] agree: the
    subtraction cannot leave the calendar, so only the result of the
    addition matters. *)
Lemma nearest_hh_steps_agree (dt : datetime) :
  in_range dt = true -> nearest_hh_steps dt = _nearest_hh (VDatetime dt).
Proof.
  intros Hdt. unfold nearest_hh_steps, _nearest_hh, nearest_hh.
  destruct (negb _) eqn:G; [| rewrite Hdt; reflexivity].
  unfold dt_minus, dt_plus. cbv zeta.
  replace (dt_add dt (- timedelta 0 (minute dt mod 30) (second dt)))
    with (dt_sub dt (timedelta 0 (minute dt mod 30) (second dt)))
    by (unfold dt_add, dt_sub; f_equal; lia).
  replace (in_range (dt_sub dt (timedelta 0 (minute dt mod 30) (second dt))))
    with true; [reflexivity |].
  symmetry. unfold in_range in *. cbn [dt_sub micros].
  apply andb_true_iff in Hdt as [H0 H1].
  apply Z.leb_le in H0. apply Z.ltb_lt in H1.
  apply andb_true_iff. rewrite Z.leb_le, Z.ltb_lt.
  unfold timedelta, minute, second.
  split; Z.to_euclidean_division_equations; lia.
Qed.

(** C3.  The normaliser is meant to return the least half-hour boundary at
    or after its argument.  At 12:00:00.000001 UTC it returns
    12:30:00.000001, which is after the argument but is not a boundary: the
    microseconds are tested by the guard and then not subtracted. *)
Theorem nearest_hh_microsecond_input :
  let t := datetime_of 2018 6 3 12 0 0 1 UTC in
  _nearest_hh (VDatetime t) = Ok (datetime_of 2018 6 3 12 30 0 1 UTC)
  /\ on_half_hour (nearest_hh t) = false
  /\ microsecond (nearest_hh t) = 1.
Proof. repeat split. Qed.

(** C7.  Normalising twice should equal normalising once.  12:01:00 goes to
    12:30:00 and 12:30:00 stays, but 12:00:00.000001 goes to
    12:30:00.000001 and a second pass moves that to 13:00:00.000001. *)
Theorem nearest_hh_twice_differs :
  let t := datetime_of 2018 6 3 12 0 0 1 UTC in
  nearest_hh (datetime_of 2018 6 3 12 1 0 0 UTC)
    = datetime_of 2018 6 3 12 30 0 0 UTC
  /\ nearest_hh (datetime_of 2018 6 3 12 30 0 0 UTC)
    = datetime_of 2018 6 3 12 30 0 0 UTC
  /\ nearest_hh t = datetime_of 2018 6 3 12 30 0 1 UTC
  /\ nearest_hh (nearest_hh t) = datetime_of 2018 6 3 13 0 0 1 UTC
  /\ nearest_hh (nearest_hh t) <> nearest_hh t.
Proof.
  repeat split. intros E. apply (f_equal micros) in E. vm_compute in E.
  discriminate E.
Qed.

(** ** The ranged query on an empty window *)

(** Where the rounded time is a datetime, [_nearest_hh] returns it. *)
Lemma nearest_hh_ok (dt : datetime) :
  in_range (nearest_hh dt) = true ->
  _nearest_hh (VDatetime dt) = Ok (nearest_hh dt).
Proof. intros Hr. unfold _nearest_hh. rewrite Hr. reflexivity. Qed.

(** Where it is past the last datetime, [_nearest_hh] raises. *)
Lemma nearest_hh_overflow (dt : datetime) :
  in_range (nearest_hh dt) = false ->
  _nearest_hh (VDatetime dt) = Raise OverflowError.
Proof. intros Hr. unfold _nearest_hh. rewrite Hr. reflexivity. Qed.

(** C10.  In row mode, when both bounds normalise to datetimes (neither
    is rounded past 9999-12-31) and the normalised start is not strictly
    before the normalised end, [between] sends no request (the log is
    unchanged), raises nothing and returns the empty list, whatever the
    loop budget. *)
Theorem between_empty_window (H : Host) (fuel : nat) (self : PVLive)
  (s e : datetime) (pes_id extra_fields : pyval) (w : world) :
  in_range (nearest_hh s) = true ->
  in_range (nearest_hh e) = true ->
  datetime_lt (nearest_hh s) (nearest_hh e) = Ok false ->
  between H fuel self (VDatetime s) (VDatetime e) pes_id false extra_fields w
  = Done (Ok (Value (VList []))) w.
Proof.
  intros Hs He Hlt. unfold between, bind, lift, ret, discard.
  rewrite (nearest_hh_ok s Hs), (nearest_hh_ok e He).
  cbn [attr_tzinfo rbind isinstance_datetime andb negb orb].
  destruct (tzinfo s), (tzinfo e); cbn; destruct fuel; cbn; rewrite Hlt;
    reflexivity.
Qed.

Lemma between_empty_window_witness :
  let t := datetime_of 2018 7 3 14 0 0 0 UTC in
  let s := datetime_of 2018 7 3 14 20 0 0 UTC in
  between (scripted [] []) 0 pvlive (VDatetime t) (VDatetime t) (VInt 0)
    false (VStr "") [] = Done (Ok (Value (VList []))) []
  /\ between (scripted [] []) 0 pvlive (VDatetime s) (VDatetime t) (VInt 12)
    false (VStr "") [] = Done (Ok (Value (VList []))) [].
Proof.
  split; apply between_empty_window; reflexivity.
Defined.

(** In frame mode the same call, on bounds that normalise to datetimes
    with the start not strictly before the end, fails with nothing sent:
    [response] was never bound. *)
Lemma between_empty_window_frame (H : Host) (fuel : nat) (self : PVLive)
  (s e : datetime) (pes_id extra_fields : pyval) (w : world) :
  in_range (nearest_hh s) = true ->
  in_range (nearest_hh e) = true ->
  datetime_lt (nearest_hh s) (nearest_hh e) = Ok false ->
  between H fuel self (VDatetime s) (VDatetime e) pes_id true extra_fields w
  = Done (Raise UnboundLocalError) w.
Proof.
  intros Hs He Hlt. unfold between, discard, bind, lift, ret, raise.
  rewrite (nearest_hh_ok s Hs), (nearest_hh_ok e He).
  cbn [attr_tzinfo rbind isinstance_datetime andb negb orb].
  destruct (tzinfo s), (tzinfo e); cbn; destruct fuel; cbn; rewrite Hlt;
    reflexivity.
Qed.

(** ** The retrying fetcher *)

Section Fetcher.

Variable H : Host.
Variable self : PVLive.
Variable url : string.

Lemma fetch_loop_eq (fuel : nat) (success : bool) (tc d : Z)
  (page : option string) (w : world) :
  fetch_loop H fuel self url success tc d page w =
  if negb success && (tc <? retries self + 1) then
    match fuel with
    | O => OutOfFuel
    | S fuel' =>
        match serve H w url with
        | Page text =>
            fetch_loop H fuel' self url true (tc + 1) d (Some text)
              (w ++ [EGet url])%list
        | HTTPError =>
            fetch_loop H fuel' self url success (tc + 1) (d * 2) page
              ((w ++ [EGet url]) ++ [ESleep d])%list
        | OtherError name =>
            Done (Raise (RequestException name)) (w ++ [EGet url])%list
        end
    end
  else Done (Ok (success, page)) w.
Proof. destruct fuel; reflexivity. Qed.

Lemma backoff_snoc (w : world) (i : nat) (d : Z) :
  (w ++ backoff url (S i) d)%list
  = (((w ++ [EGet url]) ++ [ESleep d]) ++ backoff url i (d * 2))%list.
Proof. cbn [backoff]. rewrite <- !app_assoc. reflexivity. Qed.

(** [k] GETs in a row end in an HTTP error status: the loop is where it
    was, [k] attempts and [k] sleeps later, with the delay doubled [k]
    times. *)
Lemma fetch_loop_retries (k : nat) :
  forall (fuel : nat) (w : world) (tc d : Z) (page : option string),
    (k <= fuel)%nat ->
    tc + Z.of_nat k <= retries self + 1 ->
    (forall i, (i < k)%nat -> serve H (w ++ backoff url i d)%list url = HTTPError) ->
    fetch_loop H fuel self url false tc d page w
    = fetch_loop H (fuel - k) self url false (tc + Z.of_nat k)
        (d * 2 ^ Z.of_nat k) page (w ++ backoff url k d)%list.
Proof.
  induction k as [| k IH]; intros fuel w tc d page Hfuel Htc Hfail.
  - cbn [backoff]. rewrite Nat.sub_0_r, app_nil_r, Z.add_0_r.
    change (2 ^ Z.of_nat 0) with 1. rewrite Z.mul_1_r. reflexivity.
  - destruct fuel as [| fuel]; [lia |].
    rewrite fetch_loop_eq.
    replace (tc <? retries self + 1) with true by (symmetry; apply Z.ltb_lt; lia).
    cbn [negb andb].
    assert (H0 : serve H w url = HTTPError).
    { rewrite <- (app_nil_r w) at 1. apply (Hfail 0%nat). lia. }
    rewrite H0.
    rewrite IH.
    + rewrite backoff_snoc. cbn [Nat.sub].
      replace (tc + 1 + Z.of_nat k) with (tc + Z.of_nat (S k)) by lia.
      replace (d * 2 * 2 ^ Z.of_nat k) with (d * 2 ^ Z.of_nat (S k)).
      * reflexivity.
      * rewrite Nat2Z.inj_succ, Z.pow_succ_r by lia. ring.
    + lia.
    + lia.
    + intros i Hi. rewrite <- backoff_snoc. apply Hfail. lia.
Qed.

(** Sleep number [i] of a run of failures lasts [delay * 2 ^ i]. *)
Lemma backoff_delay (k i : nat) (delay : Z) :
  (i < k)%nat ->
  nth_error (backoff url k delay) (2 * i + 1)
  = Some (ESleep (delay * 2 ^ Z.of_nat i)).
Proof.
  revert i delay. induction k as [| k IH]; intros i delay Hi; [lia |].
  destruct i as [| i].
  - cbn. rewrite Z.mul_1_r. reflexivity.
  - replace (2 * S i + 1)%nat with (S (S (2 * i + 1))) by lia.
    cbn [backoff nth_error]. rewrite IH by lia.
    rewrite Nat2Z.inj_succ, Z.pow_succ_r by lia. do 2 f_equal. ring.
Qed.

Lemma count_gets_app (w1 w2 : world) :
  count_gets (w1 ++ w2)%list = (count_gets w1 + count_gets w2)%nat.
Proof. unfold count_gets. rewrite filter_app, length_app. reflexivity. Qed.

Lemma count_gets_backoff (k : nat) (d : Z) :
  count_gets (backoff url k d) = k.
Proof.
  revert d. induction k as [| k IH]; intros d; [reflexivity |].
  cbn [backoff]. change (count_gets (EGet url :: ESleep d :: backoff url k (d * 2)))
    with (S (count_gets (backoff url k (d * 2)))). rewrite IH. reflexivity.
Qed.

(** Among the first [n] replies either all are HTTP errors or there is a
    first one that is not. *)
Lemma first_reply (reply : nat -> outcome) (n : nat) :
  (forall i, (i < n)%nat -> reply i = HTTPError)
  \/ exists k, (k < n)%nat
       /\ (forall i, (i < k)%nat -> reply i = HTTPError)
       /\ reply k <> HTTPError.
Proof.
  induction n as [| n [All | (k & Hk & Hbefore & Hat)]].
  - left. intros i Hi. lia.
  - destruct (reply n) eqn:E.
    + right. exists n. repeat split; [lia | exact All | congruence].
    + left. intros i Hi. destruct (Nat.eq_dec i n) as [-> | Hne];
        [exact E | apply All; lia].
    + right. exists n. repeat split; [lia | exact All | congruence].
  - right. exists k. repeat split; [lia | exact Hbefore | exact Hat].
Qed.

(** The loop after [k] failed attempts followed by a page. *)
Lemma fetch_loop_page (k fuel : nat) (w : world) (text : string) :
  (k < fuel)%nat ->
  Z.of_nat k < retries self + 1 ->
  (forall i, (i < k)%nat -> serve H (w ++ backoff url i 1)%list url = HTTPError) ->
  serve H (w ++ backoff url k 1)%list url = Page text ->
  fetch_loop H fuel self url false 0 1 None w
  = Done (Ok (true, Some text)) (w ++ backoff url k 1 ++ [EGet url])%list.
Proof.
  intros Hfuel Hk Hfail Hpage.
  rewrite (fetch_loop_retries k) by (auto; lia).
  destruct (fuel - k)%nat as [| f] eqn:Ef; [lia |].
  rewrite fetch_loop_eq.
  replace (0 + Z.of_nat k <? retries self + 1) with true
    by (symmetry; apply Z.ltb_lt; lia).
  cbn [negb andb]. rewrite Hpage, fetch_loop_eq. cbn [negb andb].
  rewrite <- app_assoc. reflexivity.
Qed.

(** The loop after [k] failed attempts followed by an exception that is not
    an HTTP error. *)
Lemma fetch_loop_other (k fuel : nat) (w : world) (name : string) :
  (k < fuel)%nat ->
  Z.of_nat k < retries self + 1 ->
  (forall i, (i < k)%nat -> serve H (w ++ backoff url i 1)%list url = HTTPError) ->
  serve H (w ++ backoff url k 1)%list url = OtherError name ->
  fetch_loop H fuel self url false 0 1 None w
  = Done (Raise (RequestException name)) (w ++ backoff url k 1 ++ [EGet url])%list.
Proof.
  intros Hfuel Hk Hfail Hother.
  rewrite (fetch_loop_retries k) by (auto; lia).
  destruct (fuel - k)%nat as [| f] eqn:Ef; [lia |].
  rewrite fetch_loop_eq.
  replace (0 + Z.of_nat k <? retries self + 1) with true
    by (symmetry; apply Z.ltb_lt; lia).
  cbn [negb andb]. rewrite Hother, <- app_assoc. reflexivity.
Qed.

(** The loop when every allowed attempt fails. *)
Lemma fetch_loop_exhausted (fuel : nat) (w : world) :
  let attempts := Z.to_nat (retries self + 1) in
  (attempts <= fuel)%nat ->
  (forall i, (i < attempts)%nat ->
             serve H (w ++ backoff url i 1)%list url = HTTPError) ->
  fetch_loop H fuel self url false 0 1 None w
  = Done (Ok (false, None)) (w ++ backoff url attempts 1)%list.
Proof.
  intros attempts Hfuel Hfail.
  destruct (Z_le_gt_dec 0 (retries self + 1)) as [Hr | Hr].
  - rewrite (fetch_loop_retries attempts) by (auto; unfold attempts; lia).
    rewrite fetch_loop_eq.
    replace (0 + Z.of_nat attempts <? retries self + 1) with false
      by (symmetry; apply Z.ltb_ge; unfold attempts; lia).
    reflexivity.
  - replace attempts with 0%nat by (unfold attempts; lia).
    rewrite fetch_loop_eq.
    replace (0 <? retries self + 1) with false
      by (symmetry; apply Z.ltb_ge; lia).
    cbn [backoff]. rewrite app_nil_r. reflexivity.
Qed.

Lemma fetch_url_page (k fuel : nat) (w : world) (text : string) :
  (k < fuel)%nat ->
  Z.of_nat k < retries self + 1 ->
  (forall i, (i < k)%nat -> reply H url w i = HTTPError) ->
  reply H url w k = Page text ->
  _fetch_url H fuel self url w
  = Done (match json_loads H text with
          | Some v => Ok v
          | None => Raise communication_error
          end) (w ++ backoff url k 1 ++ [EGet url])%list.
Proof.
  intros Hfuel Hk Hfail Hpage. unfold _fetch_url, bind.
  rewrite (fetch_loop_page k fuel w text) by assumption.
  cbn. destruct (json_loads H text); reflexivity.
Qed.

Lemma fetch_url_exhausted (fuel : nat) (w : world) :
  (Z.to_nat (retries self + 1) <= fuel)%nat ->
  (forall i, (i < Z.to_nat (retries self + 1))%nat ->
             reply H url w i = HTTPError) ->
  _fetch_url H fuel self url w
  = Done (Raise communication_error)
      (w ++ backoff url (Z.to_nat (retries self + 1)) 1)%list.
Proof.
  intros Hfuel Hfail. unfold _fetch_url, bind.
  rewrite fetch_loop_exhausted by assumption. reflexivity.
Qed.

Lemma fetch_url_other (k fuel : nat) (w : world) (name : string) :
  (k < fuel)%nat ->
  Z.of_nat k < retries self + 1 ->
  (forall i, (i < k)%nat -> reply H url w i = HTTPError) ->
  reply H url w k = OtherError name ->
  _fetch_url H fuel self url w
  = Done (Raise (RequestException name))
      (w ++ backoff url k 1 ++ [EGet url])%list.
Proof.
  intros Hfuel Hk Hfail Hother. unfold _fetch_url, bind.
  rewrite (fetch_loop_other k fuel w name) by assumption. reflexivity.
Qed.

(** C1.  With a retry budget [retries >= 0] and enough loop budget:
    - if the first [k <= retries] GETs end in HTTP error statuses and the
      next one succeeds, the fetch stops there, having slept 1, 2, 4, ...
      after the failures, and returns the page parsed as JSON, or raises
      the communication error when the page does not parse;
    - if all [retries + 1] GETs end in HTTP error statuses, it raises the
      communication error;
    - the sleep after failure number [i] (from 0) lasts [2 ^ i];
    - it always ends, after at most [retries + 1] GETs;
    - it raises the communication error in exactly those two cases. *)
Theorem fetch_url_contract (fuel : nat) (w : world) :
  0 <= retries self ->
  (Z.to_nat (retries self + 1) <= fuel)%nat ->
  (forall (k : nat) (text : string),
      Z.of_nat k <= retries self ->
      (forall i, (i < k)%nat -> reply H url w i = HTTPError) ->
      reply H url w k = Page text ->
      _fetch_url H fuel self url w
      = Done (match json_loads H text with
              | Some v => Ok v
              | None => Raise communication_error
              end) (w ++ backoff url k 1 ++ [EGet url])%list)
  /\ ((forall i, Z.of_nat i <= retries self -> reply H url w i = HTTPError) ->
      _fetch_url H fuel self url w
      = Done (Raise communication_error)
          (w ++ backoff url (Z.to_nat (retries self + 1)) 1)%list)
  /\ (forall k i : nat,
        (i < k)%nat ->
        nth_error (backoff url k 1) (2 * i + 1)
        = Some (ESleep (2 ^ Z.of_nat i)))
  /\ (exists r w',
        _fetch_url H fuel self url w = Done r w'
        /\ Z.of_nat (count_gets w')
           <= Z.of_nat (count_gets w) + retries self + 1)
  /\ ((exists w', _fetch_url H fuel self url w
                  = Done (Raise communication_error) w')
      <-> (forall i, Z.of_nat i <= retries self -> reply H url w i = HTTPError)
          \/ (exists (k : nat) (text : string),
                 Z.of_nat k <= retries self
                 /\ (forall i, (i < k)%nat -> reply H url w i = HTTPError)
                 /\ reply H url w k = Page text
                 /\ json_loads H text = None)).
Proof.
  intros Hr Hfuel.
  assert (Hpage : forall (k : nat) (text : string),
      Z.of_nat k <= retries self ->
      (forall i, (i < k)%nat -> reply H url w i = HTTPError) ->
      reply H url w k = Page text ->
      _fetch_url H fuel self url w
      = Done (match json_loads H text with
              | Some v => Ok v
              | None => Raise communication_error
              end) (w ++ backoff url k 1 ++ [EGet url])%list).
  { intros k text Hk Hfail Hp. apply fetch_url_page; auto; lia. }
  assert (Hall : (forall i, Z.of_nat i <= retries self ->
                            reply H url w i = HTTPError) ->
      _fetch_url H fuel self url w
      = Done (Raise communication_error)
          (w ++ backoff url (Z.to_nat (retries self + 1)) 1)%list).
  { intros Hfail. apply fetch_url_exhausted; auto.
    intros i Hi. apply Hfail. lia. }
  split; [exact Hpage |]. split; [exact Hall |].
  split.
  { intros k i Hi. rewrite backoff_delay by exact Hi.
    rewrite Z.mul_1_l. reflexivity. }
  destruct (first_reply (reply H url w) (Z.to_nat (retries self + 1)))
    as [All | (k & Hk & Hbefore & Hat)].
  - assert (All' : forall i, Z.of_nat i <= retries self ->
                             reply H url w i = HTTPError)
      by (intros i Hi; apply All; lia).
    split.
    + eexists _, _. split; [apply Hall, All' |].
      rewrite count_gets_app, count_gets_backoff. lia.
    + split; [intros _; left; exact All' | intros _].
      eexists. apply Hall, All'.
  - destruct (reply H url w k) as [text | | name] eqn:Ek; [| congruence |].
    + split.
      * eexists _, _. split; [apply (Hpage k text); auto; lia |].
        rewrite !count_gets_app, count_gets_backoff.
        change (count_gets [EGet url]) with 1%nat. lia.
      * rewrite (Hpage k text) by (auto; lia). split.
        -- intros [w' Hw']. right. exists k, text.
           repeat split; auto; [lia |].
           destruct (json_loads H text); [discriminate | reflexivity].
        -- intros [Hfail | (k' & text' & Hk' & Hbefore' & Hat' & Hnone)].
           ++ rewrite Hfail in Ek by lia. discriminate.
           ++ assert (k' = k).
              { destruct (Nat.lt_trichotomy k' k) as [Hlt | [Heq | Hgt]];
                  [| exact Heq |].
                - rewrite (Hbefore k' Hlt) in Hat'. discriminate.
                - rewrite (Hbefore' k Hgt) in Ek. discriminate. }
              subst k'. rewrite Ek in Hat'. injection Hat' as <-.
              rewrite Hnone. eexists. reflexivity.
    + assert (Hother := fetch_url_other k fuel w name ltac:(lia) ltac:(lia)
                          Hbefore Ek).
      split.
      * eexists _, _. split; [exact Hother |].
        rewrite !count_gets_app, count_gets_backoff.
        change (count_gets [EGet url]) with 1%nat. lia.
      * rewrite Hother. split.
        -- intros [w' Hw']. discriminate.
        -- intros [Hfail | (k' & text' & Hk' & Hbefore' & Hat' & Hnone)].
           ++ rewrite Hfail in Ek by lia. discriminate.
           ++ exfalso.
              destruct (Nat.lt_trichotomy k' k) as [Hlt | [Heq | Hgt]].
              ** rewrite (Hbefore k' Hlt) in Hat'. discriminate.
              ** subst k'. rewrite Ek in Hat'. discriminate.
              ** rewrite (Hbefore' k Hgt) in Ek. discriminate.
Qed.

(** C6.  A GET that ends in an exception other than an HTTP error is not
    retried: when it follows [k] HTTP errors within the budget, the fetch
    re-raises it at once.  The log ends with that GET: no sleep follows it
    and no further GET is made, however much of the budget is left. *)
Theorem fetch_url_transport_error (fuel k : nat) (w : world) (name : string) :
  (k < fuel)%nat ->
  Z.of_nat k <= retries self ->
  (forall i, (i < k)%nat -> reply H url w i = HTTPError) ->
  reply H url w k = OtherError name ->
  _fetch_url H fuel self url w
  = Done (Raise (RequestException name))
      (w ++ backoff url k 1 ++ [EGet url])%list
  /\ count_gets (w ++ backoff url k 1 ++ [EGet url])%list
     = (count_gets w + k + 1)%nat.
Proof.
  intros Hfuel Hk Hfail Hother. split.
  - apply fetch_url_other; auto; lia.
  - rewrite !count_gets_app, count_gets_backoff.
    change (count_gets [EGet url]) with 1%nat. lia.
Qed.

End Fetcher.

Lemma fetch_url_contract_witness :
  0 <= retries pvlive
  /\ (Z.to_nat (retries pvlive + 1) <= 4)%nat
  /\ _fetch_url flaky 4 pvlive demo_url []
     = Done (Ok (VDict [("data", VList []); ("meta", VList [])]))
         [EGet demo_url; ESleep 1; EGet demo_url; ESleep 2; EGet demo_url].
Proof.
  assert (Hr : 0 <= retries pvlive) by (cbn; lia).
  assert (Hf : (Z.to_nat (retries pvlive + 1) <= 4)%nat) by (cbn; lia).
  split; [exact Hr |]. split; [exact Hf |].
  destruct (fetch_url_contract flaky pvlive demo_url 4 [] Hr Hf) as [Hpage _].
  apply (Hpage 2%nat "page").
  - cbn. lia.
  - intros [| [| i]] Hi; [reflexivity | reflexivity | lia].
  - reflexivity.
Defined.

Lemma fetch_url_transport_error_witness :
  _fetch_url dropping 4 pvlive demo_url []
  = Done (Raise (RequestException "ConnectionError"))
      [EGet demo_url; ESleep 1; EGet demo_url]
  /\ count_gets [EGet demo_url; ESleep 1; EGet demo_url] = 2%nat.
Proof.
  apply (fetch_url_transport_error dropping pvlive demo_url 4 1 []
           "ConnectionError").
  - lia.
  - cbn. lia.
  - intros [| i] Hi; [reflexivity | lia].
  - reflexivity.
Defined.

(** ** The request builder *)

Lemma has_char_app (c : ascii) (a b : string) :
  has_char c (a ++ b) = has_char c a || has_char c b.
Proof.
  induction a as [| x a IH]; [reflexivity |].
  cbn. rewrite IH, orb_assoc. reflexivity.
Qed.

Lemma no_plus_uint (d : Decimal.uint) :
  has_char "+" (NilEmpty.string_of_uint d) = false.
Proof. induction d; cbn; auto. Qed.

Lemma no_plus_str_of_Z (n : Z) : has_char "+" (str_of_Z n) = false.
Proof.
  unfold str_of_Z, NilZero.string_of_int, NilZero.string_of_uint.
  destruct (Z.to_int n) as [d | d]; destruct d; cbn;
    try reflexivity; apply no_plus_uint.
Qed.

Lemma no_plus_zeros (k : nat) : has_char "+" (zeros k) = false.
Proof. induction k; cbn; auto. Qed.

Lemma no_plus_fmt_d (width : nat) (n : Z) : has_char "+" (fmt_d width n) = false.
Proof.
  unfold fmt_d. rewrite has_char_app, no_plus_zeros, no_plus_str_of_Z.
  reflexivity.
Qed.

Lemma no_plus_isoformat_naive (dt : datetime) :
  has_char "+" (isoformat_naive dt) = false.
Proof.
  unfold isoformat_naive, date_isoformat.
  destruct (_ord2ymd (toordinal dt)) as [[y m] d].
  destruct (microsecond dt =? 0);
    repeat (rewrite has_char_app || rewrite no_plus_fmt_d); reflexivity.
Qed.

Lemma replace_from_empty (n : nat) :
  replace_from n "+00:00" "Z" "" = "".
Proof. destruct n; reflexivity. Qed.

(** The one [+00:00] of a text without any other [+] is its suffix, and
    [replace] turns it into [Z]. *)
Lemma replace_utc_suffix (body : string) :
  has_char "+" body = false ->
  forall n, (String.length body < n)%nat ->
            replace_from n "+00:00" "Z" (body ++ "+00:00") = body ++ "Z".
Proof.
  induction body as [| c body IH]; intros Hno n Hn.
  - destruct n as [| n]; [lia |]. cbn. rewrite replace_from_empty. reflexivity.
  - cbn in Hno. apply orb_false_iff in Hno as [Hc Hno].
    destruct n as [| n]; [cbn in Hn; lia |].
    cbn [append replace_from strip_prefix].
    rewrite Ascii.eqb_sym, Hc.
    rewrite IH by (auto; cbn in Hn; lia). reflexivity.
Qed.

Lemma length_append (a b : string) :
  String.length (a ++ b) = (String.length a + String.length b)%nat.
Proof. induction a; cbn; auto. Qed.

Lemma iso_param_utc (dt : datetime) :
  tzinfo dt = Some 0 ->
  iso_param (VDatetime dt) = Ok (VStr (isoformat_naive dt ++ "Z")).
Proof.
  intros Htz. unfold iso_param, py_isoformat, rbind, isoformat, str_replace.
  rewrite Htz. change (format_offset 0) with "+00:00".
  rewrite replace_utc_suffix; [reflexivity | apply no_plus_isoformat_naive |].
  rewrite length_append. cbn. lia.
Qed.

Lemma dict_get_set_same (p : list (string * pyval)) (k : string) (v : pyval) :
  dict_get (dict_set p k v) k = Some v.
Proof.
  induction p as [| [k' v'] p IH]; cbn.
  - rewrite String.eqb_refl. reflexivity.
  - destruct (String.eqb k k') eqn:E; cbn.
    + rewrite String.eqb_refl. reflexivity.
    + rewrite E. exact IH.
Qed.

Lemma dict_get_set_other (p : list (string * pyval)) (k k' : string)
  (v : pyval) :
  String.eqb k' k = false ->
  dict_get (dict_set p k v) k' = dict_get p k'.
Proof.
  intros Hne. induction p as [| [k0 v0] p IH]; cbn.
  - rewrite Hne. reflexivity.
  - destruct (String.eqb k k0) eqn:E; cbn.
    + apply String.eqb_eq in E. subst k0. rewrite Hne. reflexivity.
    + destruct (String.eqb k' k0); [reflexivity | exact IH].
Qed.

(** What [_compile_params] returns for two datetimes. *)
Lemma compile_params_datetimes (extra_fields : pyval) (s e : datetime) :
  _compile_params extra_fields (VDatetime s) (VDatetime e)
  = rbind (iso_param (VDatetime s)) (fun vs =>
      rbind (iso_param (VDatetime e)) (fun ve =>
        Ok (dict_set
              (dict_set (if truthy extra_fields
                         then [("extra_fields", extra_fields)] else [])
                 "start" vs) "end" ve))).
Proof.
  unfold _compile_params. destruct (truthy extra_fields); cbn;
    destruct (iso_param (VDatetime s)); reflexivity.
Qed.

(** C9 (as amended).  A request compiled from a datetime [start] and no
    [end] is the request compiled from [start] and [end = start], and its
    [end] parameter equals its [start] parameter.  When [start] and [end]
    carry a zero UTC offset, both are written as the ISO-8601 text of the
    wall clock followed by [Z]. *)
Theorem compile_params_point_and_utc :
  (forall (extra_fields : pyval) (s : datetime),
      _compile_params extra_fields (VDatetime s) VNone
      = _compile_params extra_fields (VDatetime s) (VDatetime s)
      /\ exists params v,
           _compile_params extra_fields (VDatetime s) VNone = Ok params
           /\ dict_get params "start" = Some v
           /\ dict_get params "end" = Some v)
  /\ (forall (extra_fields : pyval) (s e : datetime),
        tzinfo s = Some 0 -> tzinfo e = Some 0 ->
        exists params,
          _compile_params extra_fields (VDatetime s) (VDatetime e) = Ok params
          /\ dict_get params "start" = Some (VStr (isoformat_naive s ++ "Z"))
          /\ dict_get params "end" = Some (VStr (isoformat_naive e ++ "Z"))).
Proof.
  split.
  - intros extra_fields s.
    assert (Heq : _compile_params extra_fields (VDatetime s) VNone
                  = _compile_params extra_fields (VDatetime s) (VDatetime s))
      by reflexivity.
    split; [exact Heq |]. rewrite Heq, compile_params_datetimes.
    unfold iso_param, py_isoformat, rbind.
    eexists _, _. split; [reflexivity |]. split.
    + rewrite dict_get_set_other by reflexivity. apply dict_get_set_same.
    + apply dict_get_set_same.
  - intros extra_fields s e Hs He.
    rewrite compile_params_datetimes, (iso_param_utc s Hs), (iso_param_utc e He).
    cbn [rbind]. eexists. split; [reflexivity |]. split.
    + rewrite dict_get_set_other by reflexivity. apply dict_get_set_same.
    + apply dict_get_set_same.
Qed.

Lemma compile_params_point_and_utc_witness :
  exists params,
    _compile_params (VStr "ucl_mw")
      (VDatetime (datetime_of 2018 6 3 12 30 0 0 UTC))
      (VDatetime (datetime_of 2018 6 3 14 0 0 0 UTC)) = Ok params
    /\ dict_get params "start" = Some (VStr "2018-06-03T12:30:00Z")
    /\ dict_get params "end" = Some (VStr "2018-06-03T14:00:00Z").
Proof.
  exact (proj2 compile_params_point_and_utc (VStr "ucl_mw")
           (datetime_of 2018 6 3 12 30 0 0 UTC)
           (datetime_of 2018 6 3 14 0 0 0 UTC) eq_refl eq_refl).
Defined.

(** C9, where the claim fails: a datetime one hour east of UTC is written
    with its own offset, not in UTC and not with a [Z]. *)
Lemma compile_params_keeps_offset :
  _compile_params (VStr "")
    (VDatetime (datetime_of 2018 6 3 12 0 0 0 (Some 3600))) VNone
  = Ok [("start", VStr "2018-06-03T12:00:00+01:00");
        ("end", VStr "2018-06-03T12:00:00+01:00")]
  /\ str_endswith "2018-06-03T12:00:00+01:00" "Z" = false
  /\ str_endswith "2018-06-03T11:00:00Z" "Z" = true.
Proof. repeat split; vm_compute; reflexivity. Qed.

(** ** The daily queries *)

Lemma append_assoc (a b c : string) : (a ++ b) ++ c = a ++ b ++ c.
Proof. induction a; cbn; congruence. Qed.

(** The window of a day before the last: 00:30 on it through 00:00 on the
    next. *)
Lemma day_window_date (o : Z) :
  day_in_range o ->
  day_window (VDate o) = Ok (combine o 0 30 UTC, combine (o + 1) 0 0 UTC).
Proof.
  intros Ho. unfold day_in_range, _MAXORDINAL in Ho.
  unfold day_window, py_combine, dt_minus, dt_plus, rbind.
  assert (R1 : in_range (dt_add (combine o 0 30 UTC) (timedelta 1 0 0)) = true).
  { unfold in_range, dt_add, combine, timedelta, max_micros, _MAXORDINAL.
    cbn [micros]. apply andb_true_iff. split; [apply Z.leb_le | apply Z.ltb_lt];
      lia. }
  cbv zeta. rewrite R1.
  assert (R2 : in_range (dt_add (dt_add (combine o 0 30 UTC) (timedelta 1 0 0))
                           (- timedelta 0 30 0)) = true).
  { unfold in_range, dt_add, combine, timedelta, max_micros, _MAXORDINAL.
    cbn [micros]. apply andb_true_iff. split; [apply Z.leb_le | apply Z.ltb_lt];
      lia. }
  rewrite R2. unfold combine, dt_add, timedelta. cbn [micros tzinfo].
  do 3 f_equal. lia.
Qed.

(** On the last day the window does not exist: 00:30 plus one day is past
    the last datetime. *)
Lemma day_window_last_day :
  day_window (VDate _MAXORDINAL) = Raise OverflowError.
Proof. reflexivity. Qed.

Lemma isoformat_naive_combine (o hh mm : Z) (tz : option Z) :
  0 <= hh < 24 -> 0 <= mm < 60 ->
  isoformat_naive (combine o hh mm tz)
  = date_isoformat o ++ "T" ++ fmt_d 2 hh ++ ":" ++ fmt_d 2 mm ++ ":00".
Proof.
  intros Hh Hm. unfold isoformat_naive.
  replace (toordinal (combine o hh mm tz)) with o
    by (unfold toordinal, combine; cbn [micros];
        Z.to_euclidean_division_equations; lia).
  replace (hour (combine o hh mm tz)) with hh
    by (unfold hour, combine; cbn [micros];
        Z.to_euclidean_division_equations; lia).
  replace (minute (combine o hh mm tz)) with mm
    by (unfold minute, combine; cbn [micros];
        Z.to_euclidean_division_equations; lia).
  replace (second (combine o hh mm tz)) with 0
    by (unfold second, combine; cbn [micros];
        Z.to_euclidean_division_equations; lia).
  replace (microsecond (combine o hh mm tz)) with 0
    by (unfold microsecond, combine; cbn [micros];
        Z.to_euclidean_division_equations; lia).
  cbn [Z.eqb]. change (fmt_d 2 0) with "00". reflexivity.
Qed.

(** The request of a full-day query. *)
Lemma compile_params_day (extra_fields : pyval) (o : Z) :
  _compile_params extra_fields (VDatetime (combine o 0 30 UTC))
    (VDatetime (combine (o + 1) 0 0 UTC))
  = Ok (day_params extra_fields o).
Proof.
  rewrite compile_params_datetimes, !iso_param_utc by reflexivity.
  rewrite !isoformat_naive_combine by lia.
  unfold day_params. cbn [rbind].
  change (fmt_d 2 0) with "00". change (fmt_d 2 30) with "30".
  rewrite !append_assoc.
  destruct (truthy extra_fields); reflexivity.
Qed.

Lemma mapr_gen_or (dflt : pyval) (rows : list pyval) (cells : list cell) :
  Forall2 has_cell rows cells ->
  mapr (gen_or dflt) rows = Ok (map (cell_or dflt) cells).
Proof.
  induction 1 as [| r c rows cells (cs & -> & Hcell) _ IH]; [reflexivity |].
  cbn [mapr map]. unfold gen_or at 1, getitem_int.
  cbn [Z.ltb Z.compare]. change (Z.to_nat 2) with 2%nat.
  rewrite Hcell, IH. destruct c; reflexivity.
Qed.


(** [float] of an int: exact up to 2^53, rounded to even beyond, and an
    [OverflowError] for what would round past the largest double. *)
Example float_of_Z_values :
  float_of_Z 7 = Ok 7%float
  /\ float_of_Z (-3) = Ok (-3)%float
  /\ float_of_Z (2 ^ 53 + 1) = Ok 9007199254740992%float
  /\ float_of_Z (2 ^ 53 + 3) = Ok 9007199254740996%float
  /\ float_of_Z (2 ^ 1024 - 2 ^ 971) = Ok 0x1.fffffffffffffp+1023%float
  /\ float_of_Z (2 ^ 1024 - 2 ^ 970 - 1) = Ok 0x1.fffffffffffffp+1023%float
  /\ float_of_Z (2 ^ 1024 - 2 ^ 970) = Raise OverflowError
  /\ float_of_Z (2 ^ 1024) = Raise OverflowError.
Proof. repeat split; vm_compute; reflexivity. Qed.



Lemma sum_from_ints (cells : list cell) :
  Forall is_int_cell cells ->
  forall a : Z,
    sum_from (VInt a) (map (cell_or (VInt 0)) cells)
    = Ok (VInt (a + int_total cells)).
Proof.
  induction 1 as [| c cells Hc _ IH]; intros a.
  - cbn [map sum_from int_total fold_right]. do 2 f_equal. lia.
  - cbn [map sum_from]. unfold int_total. cbn [fold_right].
    fold (int_total cells).
    destruct c as [| z | f]; cbn [cell_or cell_value]; [| | destruct Hc].
    + change (py_add (VInt a) (VInt 0)) with (Ok (VInt (a + 0))).
      cbn [rbind]. rewrite IH. do 2 f_equal. lia.
    + change (py_add (VInt a) (VInt z)) with (Ok (VInt (a + z))).
      cbn [rbind]. rewrite IH. do 2 f_equal. lia.
Qed.

(** Over cells that are ints or null the sum is exact, and the product with
    0.5 converts it: past the largest double that is an [OverflowError]. *)
Lemma energy_of_ints (cells : list cell) :
  Forall is_int_cell cells ->
  energy_of cells
  = rbind (float_of_Z (int_total cells))
          (fun total => Ok (VFloat (total * 0.5)%float)).
Proof.
  intros Hc. unfold energy_of, py_sum. rewrite (sum_from_ints cells Hc).
  reflexivity.
Qed.

Section Daily.

Variable H : Host.
Variable self : PVLive.


End Daily.


(** ** Order of numbers

    [>] on ints and floats is compared with the order of their values: a
    float is its mantissa times a power of two, and the floats the kernel
    hands out have their mantissa in canonical form. *)

Lemma is_number_spec (f : float) : is_number f -> Prim2SF f <> S754_nan.
Proof.
  unfold is_number. rewrite eqb_spec. intros E N. rewrite N in E.
  discriminate E.
Qed.

Lemma digits2_pos_bounds (m : positive) :
  2 ^ (Z.pos (digits2_pos m) - 1) <= Z.pos m < 2 ^ Z.pos (digits2_pos m).
Proof.
  induction m as [m IH | m IH |]; cbn [digits2_pos];
    [rewrite Pos2Z.inj_succ, (Pos2Z.inj_xI m)
    | rewrite Pos2Z.inj_succ, (Pos2Z.inj_xO m)
    | cbn; lia];
    replace (Z.succ (Z.pos (digits2_pos m)) - 1)
      with (Z.succ (Z.pos (digits2_pos m) - 1)) by lia;
    rewrite !Z.pow_succ_r by lia;
    revert IH;
    generalize (2 ^ (Z.pos (digits2_pos m) - 1)) (2 ^ Z.pos (digits2_pos m));
    intros; lia.
Qed.

(** What [Prim2SF_valid] says of a finite float. *)
Lemma bounded_spec (m : positive) (e : Z) :
  bounded prec emax m e = true ->
  -1074 <= e
  /\ Z.pos m < 2 ^ 53
  /\ (-1074 < e -> 2 ^ 52 <= Z.pos m).
Proof.
  unfold bounded, canonical_mantissa, fexp, emin, prec, emax.
  rewrite andb_true_iff, Z.eqb_eq. intros [Hc _].
  destruct (digits2_pos_bounds m) as [Hlo Hhi].
  assert (Hd : Z.pos (digits2_pos m) <= 53 /\
               (-1074 < e -> Z.pos (digits2_pos m) = 53)) by lia.
  destruct Hd as [Hd1 Hd2]. split; [lia |]. split.
  - apply Z.lt_le_trans with (1 := Hhi).
    apply Z.pow_le_mono_r; lia.
  - intros He. rewrite (Hd2 He) in Hlo. exact Hlo.
Qed.

Lemma finite_valid (f : float) (s : bool) (m : positive) (e : Z) :
  Prim2SF f = S754_finite s m e -> bounded prec emax m e = true.
Proof.
  intros E. generalize (Prim2SF_valid f). rewrite E. auto.
Qed.

(** A larger exponent makes a larger float. *)
Lemma units_exponent (m1 m2 : positive) (e1 e2 : Z) :
  bounded prec emax m1 e1 = true -> bounded prec emax m2 e2 = true ->
  e1 < e2 ->
  Z.pos m1 * 2 ^ (e1 + 1074) < Z.pos m2 * 2 ^ (e2 + 1074).
Proof.
  intros H1 H2 Hlt.
  apply bounded_spec in H1 as (Hl1 & Hm1 & _).
  apply bounded_spec in H2 as (Hl2 & _ & Hm2).
  specialize (Hm2 ltac:(lia)).
  replace (e2 + 1074) with ((e2 - e1 - 1) + 1 + (e1 + 1074)) by lia.
  rewrite (Z.pow_add_r 2 (e2 - e1 - 1 + 1) (e1 + 1074)) by lia.
  rewrite (Z.pow_add_r 2 (e2 - e1 - 1) 1) by lia.
  assert (Hp : 0 < 2 ^ (e1 + 1074)) by (apply Z.pow_pos_nonneg; lia).
  assert (Hq : 1 <= 2 ^ (e2 - e1 - 1))
    by (apply Z.lt_pred_le, Z.pow_pos_nonneg; lia).
  change (2 ^ 1) with 2. change (2 ^ 53) with 9007199254740992 in Hm1.
  change (2 ^ 52) with 4503599627370496 in Hm2.
  apply Z.lt_le_trans with (9007199254740992 * 2 ^ (e1 + 1074)).
  - apply Z.mul_lt_mono_pos_r; assumption.
  - rewrite Z.mul_assoc. apply Z.mul_le_mono_nonneg_r; [lia |].
    revert Hq. generalize (2 ^ (e2 - e1 - 1)). intros q Hq. nia.
Qed.

Lemma units_mantissa (m1 m2 : positive) (e : Z) :
  -1074 <= e ->
  (Z.pos m1 * 2 ^ (e + 1074) < Z.pos m2 * 2 ^ (e + 1074)
   <-> (m1 < m2)%positive).
Proof.
  intros He.
  assert (Hp : 0 < 2 ^ (e + 1074)) by (apply Z.pow_pos_nonneg; lia).
  rewrite <- Z.mul_lt_mono_pos_r by assumption. reflexivity.
Qed.

Lemma neg_units (m : positive) (p : Z) : Z.neg m * p = - (Z.pos m * p).
Proof. rewrite <- Pos2Z.opp_pos. lia. Qed.

(** [>] on two floats that are numbers. *)
Lemma float_gt_below (a b : float) :
  is_number a -> is_number b ->
  ((b <? a)%float = true <-> num_below (NFloat b) (NFloat a)).
Proof.
  intros Ha Hb. apply is_number_spec in Ha, Hb.
  rewrite ltb_spec. unfold num_below, num_class, num_units, SFltb, SFcompare.
  assert (Va := finite_valid a). assert (Vb := finite_valid b).
  destruct (Prim2SF a) as [sa | sa | | sa ma ea];
    destruct (Prim2SF b) as [sb | sb | | sb mb eb];
    try congruence;
    try (destruct sa; try destruct sb; split;
         first [discriminate | reflexivity | lia]);
    try (destruct sb; split; first [discriminate | reflexivity | lia]).
  - specialize (Vb _ _ _ eq_refl). apply bounded_spec in Vb as (Hl & _).
    assert (Hp : 0 < 2 ^ (eb + 1074)) by (apply Z.pow_pos_nonneg; lia).
    destruct sb; rewrite ?neg_units; split;
      first [discriminate | reflexivity | lia | nia].
  - specialize (Va _ _ _ eq_refl). apply bounded_spec in Va as (Hl & _).
    assert (Hp : 0 < 2 ^ (ea + 1074)) by (apply Z.pow_pos_nonneg; lia).
    destruct sa; rewrite ?neg_units; split;
      first [discriminate | reflexivity | lia | nia].
  - specialize (Va _ _ _ eq_refl). specialize (Vb _ _ _ eq_refl).
    assert (Ba := Va). assert (Bb := Vb).
    apply bounded_spec in Ba as (Hla & _).
    apply bounded_spec in Bb as (Hlb & _).
    assert (Hpa : 0 < 2 ^ (ea + 1074)) by (apply Z.pow_pos_nonneg; lia).
    assert (Hpb : 0 < 2 ^ (eb + 1074)) by (apply Z.pow_pos_nonneg; lia).
    change (Pos.compare_cont Eq mb ma) with (Pos.compare mb ma).
    destruct sa, sb; rewrite ?neg_units.
    + destruct (Z.compare_spec eb ea) as [-> | Hlt | Hgt].
      * generalize (units_mantissa ma mb ea Hla).
        destruct (Pos.compare_spec mb ma) as [-> | Hm | Hm]; cbn;
          intros U; split; try discriminate; try reflexivity; lia.
      * generalize (units_exponent mb ma eb ea Vb Va Hlt).
        split; [discriminate | lia].
      * generalize (units_exponent ma mb ea eb Va Vb ltac:(lia)).
        split; [lia | reflexivity].
    + split; [discriminate | nia].
    + split; [nia | reflexivity].
    + destruct (Z.compare_spec eb ea) as [-> | Hlt | Hgt].
      * generalize (units_mantissa mb ma ea Hla).
        destruct (Pos.compare_spec mb ma) as [-> | Hm | Hm]; cbn;
          intros U; split; try discriminate; try reflexivity; lia.
      * generalize (units_exponent mb ma eb ea Vb Va Hlt).
        split; [lia | reflexivity].
      * generalize (units_exponent ma mb ea eb Va Vb ltac:(lia)).
        split; [discriminate | lia].
Qed.

(** An int against a finite float, on the common scale. *)
Lemma scaled_compare (v z e : Z) :
  -1074 <= e ->
  ((if 0 <=? e then v * 2 ^ e <? z else v <? z * 2 ^ (- e)) = true
   <-> v * 2 ^ (e + 1074) < z * 2 ^ 1074)
  /\ ((if 0 <=? e then z <? v * 2 ^ e else z * 2 ^ (- e) <? v) = true
      <-> z * 2 ^ 1074 < v * 2 ^ (e + 1074)).
Proof.
  intros He.
  assert (Hp : 0 < 2 ^ 1074) by (apply Z.pow_pos_nonneg; lia).
  destruct (0 <=? e) eqn:E; rewrite !Z.ltb_lt.
  - apply Z.leb_le in E. rewrite Z.pow_add_r by lia.
    rewrite !Z.mul_assoc, <- !Z.mul_lt_mono_pos_r by assumption. tauto.
  - apply Z.leb_gt in E.
    assert (Hq : 0 < 2 ^ (e + 1074)) by (apply Z.pow_pos_nonneg; lia).
    replace (2 ^ 1074) with (2 ^ (- e) * 2 ^ (e + 1074))
      by (rewrite <- Z.pow_add_r by lia; f_equal; lia).
    rewrite !Z.mul_assoc, <- !Z.mul_lt_mono_pos_r by assumption. tauto.
Qed.

(** [a > b] on numbers is the order of their values. *)
Lemma num_gt_below (a b : num) :
  num_ok a -> num_ok b ->
  (num_gt a b = true <-> num_below b a).
Proof.
  destruct a as [x | x], b as [y | y]; cbn [num_ok num_gt]; intros Ha Hb.
  - unfold num_below, num_class, num_units. rewrite Z.ltb_lt.
    assert (Hp : 0 < 2 ^ 1074) by (apply Z.pow_pos_nonneg; lia).
    rewrite <- Z.mul_lt_mono_pos_r by assumption. lia.
  - apply is_number_spec in Hb. assert (Vy := finite_valid y).
    unfold Z_gt_float, num_below, num_class, num_units.
    destruct (Prim2SF y) as [s | s | | s m e]; try congruence.
    + rewrite Z.ltb_lt.
      assert (Hp : 0 < 2 ^ 1074) by (apply Z.pow_pos_nonneg; lia). nia.
    + destruct s; split; first [discriminate | reflexivity | lia].
    + specialize (Vy _ _ _ eq_refl). apply bounded_spec in Vy as (Hl & _).
      cbv zeta.
      rewrite (proj1 (scaled_compare (if s then Z.neg m else Z.pos m) x e Hl)).
      lia.
  - apply is_number_spec in Ha. assert (Vx := finite_valid x).
    unfold float_gt_Z, num_below, num_class, num_units.
    destruct (Prim2SF x) as [s | s | | s m e]; try congruence.
    + rewrite Z.ltb_lt.
      assert (Hp : 0 < 2 ^ 1074) by (apply Z.pow_pos_nonneg; lia). nia.
    + destruct s; split; first [discriminate | reflexivity | lia].
    + specialize (Vx _ _ _ eq_refl). apply bounded_spec in Vx as (Hl & _).
      cbv zeta.
      rewrite (proj2 (scaled_compare (if s then Z.neg m else Z.pos m) y e Hl)).
      lia.
  - apply float_gt_below; assumption.
Qed.

Lemma num_gt_not_below (a b : num) :
  num_ok a -> num_ok b ->
  (num_gt a b = false <-> ~ num_below b a).
Proof.
  intros Ha Hb. rewrite <- (num_gt_below a b Ha Hb).
  destruct (num_gt a b); split; congruence.
Qed.

Lemma nth_error_snoc {A} (l : list A) (x y : A) (j : nat) :
  nth_error (l ++ [x]) j = Some y ->
  ((j < List.length l)%nat /\ nth_error l j = Some y)
  \/ (j = List.length l /\ y = x).
Proof.
  intros E. destruct (Nat.lt_ge_cases j (List.length l)) as [Hlt | Hge].
  - left. rewrite nth_error_app1 in E by assumption. auto.
  - right. rewrite nth_error_app2 in E by assumption.
    destruct (j - List.length l)%nat as [| n] eqn:En.
    + cbn in E. injection E as <-. split; [lia | reflexivity].
    + destruct n; discriminate E.
Qed.

Section Peak.

Variable H : Host.

Lemma py_gt_nums (x b : num) :
  py_gt H (num_value x) (num_value b) = Ok (num_gt x b).
Proof. destruct x, b; reflexivity. Qed.

(** The scan of [max]: with the best of the keys seen so far in hand, it
    ends on the first index of a maximal key of the whole list. *)
Lemma argmax_from_first_max (rest : list num) :
  forall (pre : list num) (bi : nat) (b : num),
    Forall num_ok (pre ++ rest) ->
    nth_error pre bi = Some b ->
    (forall j kj, nth_error pre j = Some kj -> ~ num_below b kj) ->
    (forall j kj, (j < bi)%nat -> nth_error pre j = Some kj ->
                  num_below kj b) ->
    exists i,
      argmax_from H (Z.of_nat bi) (num_value b) (Z.of_nat (List.length pre))
        (map num_value rest) = Ok (Z.of_nat i)
      /\ first_max (pre ++ rest) i.
Proof.
  induction rest as [| x rest IH]; intros pre bi b Hnum Hb Hmax Hfirst.
  - exists bi. split; [reflexivity |]. rewrite app_nil_r.
    exists b. auto.
  - assert (Hin : forall j kj, nth_error pre j = Some kj -> num_ok kj).
    { intros j kj E. apply nth_error_In in E.
      rewrite Forall_forall in Hnum. apply Hnum, in_or_app. auto. }
    assert (Hx : num_ok x).
    { rewrite Forall_forall in Hnum. apply Hnum, in_or_app. right. left.
      reflexivity. }
    assert (Hbn : num_ok b) by (eapply Hin; eauto).
    assert (Hbi : (bi < List.length pre)%nat)
      by (apply nth_error_Some; congruence).
    replace (pre ++ x :: rest)%list with ((pre ++ [x]) ++ rest)%list in *
      by (rewrite <- app_assoc; reflexivity).
    cbn [map argmax_from]. rewrite py_gt_nums. cbn [rbind].
    replace (Z.of_nat (List.length pre) + 1)
      with (Z.of_nat (List.length (pre ++ [x])))
      by (rewrite length_app; cbn; lia).
    destruct (num_gt x b) eqn:E.
    + apply (num_gt_below x b Hx Hbn) in E. apply IH; auto.
      * rewrite nth_error_app2, Nat.sub_diag by lia. reflexivity.
      * intros j kj Ej. apply nth_error_snoc in Ej as [[_ Ej] | [_ ->]].
        -- specialize (Hmax j kj Ej). unfold num_below in *. lia.
        -- unfold num_below. lia.
      * intros j kj Hj Ej. apply nth_error_snoc in Ej as [[_ Ej] | [-> _]];
          [| lia].
        specialize (Hmax j kj Ej). unfold num_below in *. lia.
    + apply (num_gt_not_below x b Hx Hbn) in E. apply IH; auto.
      * rewrite nth_error_app1 by assumption. exact Hb.
      * intros j kj Ej. apply nth_error_snoc in Ej as [[_ Ej] | [_ ->]]; eauto.
      * intros j kj Hj Ej. apply nth_error_snoc in Ej as [[_ Ej] | [-> _]];
          [eauto | lia].
Qed.

(** [max(range(len(keys)), key=keys.__getitem__)] on number keys. *)
Lemma argmax_first_max (keys : list num) :
  keys <> [] -> Forall num_ok keys ->
  exists i, argmax H (map num_value keys) = Ok (Z.of_nat i) /\ first_max keys i.
Proof.
  intros Hne Hnum. destruct keys as [| k keys]; [congruence |].
  cbn [map argmax].
  apply (argmax_from_first_max keys [k] 0%nat k); auto.
  - intros [| [| j]] kj E; try discriminate E. injection E as <-.
    unfold num_below. lia.
  - intros j kj Hj. lia.
Qed.

End Peak.

Lemma has_cell_nth (rows : list pyval) (cells : list cell) :
  Forall2 has_cell rows cells ->
  forall i c, nth_error cells i = Some c ->
    exists r, nth_error rows i = Some (VList r)
              /\ nth_error r 2 = Some (cell_value c).
Proof.
  induction 1 as [| r c0 rows cells (cs & -> & Hcell) _ IH]; intros i c E.
  - destruct i; discriminate E.
  - destruct i as [| i]; cbn in E |- *.
    + injection E as <-. eauto.
    + apply IH, E.
Qed.

Lemma getitem_int_list (rows : list pyval) (i : nat) (r : pyval) :
  nth_error rows i = Some r ->
  getitem_int (VList rows) (Z.of_nat i) = Ok r.
Proof.
  intros E. unfold getitem_int.
  assert (Hlt : (Z.of_nat i <? 0) = false) by (apply Z.ltb_ge; lia).
  cbv zeta. rewrite Hlt. cbv iota. rewrite Hlt, Nat2Z.id, E. reflexivity.
Qed.

Lemma peak_keys (cells : list cell) :
  map (cell_or (VFloat (-1e308))) cells
  = map num_value (map peak_key cells).
Proof.
  rewrite map_map. apply map_ext. intros [| z | f]; reflexivity.
Qed.

Lemma peak_key_is_number (cells : list cell) :
  Forall cell_is_number cells -> Forall num_ok (map peak_key cells).
Proof.
  induction 1 as [| c cells Hc _ IH]; cbn [map]; constructor; auto.
Qed.

Section DayPeak.

Variable H : Host.
Variable self : PVLive.

(** C5 (as amended).  For a day before 9999-12-31, [day_peak] sends the one
    query for 00:30 on the day through 00:00 on the next.  When the
    answer's data array is not empty, with generation cells that are null,
    ints or floats other than NaN, it returns, as a tuple, the first row
    whose key is maximal in value, the key of a row being its generation,
    or -1e308 when that is null.  So on a day whose generations are all null it
    returns the first row, and a null row is returned only when no
    generation is above -1e308.  When the answer carries no data it returns
    the placeholder [(None, None, None)]. *)
Theorem day_peak_first_maximum (fuel : nat) (o : Z)
  (pes_id extra_fields response : pyval) (w w' : world) :
  day_in_range o ->
  _query_api H fuel self pes_id (day_params extra_fields o) w
    = Done (Ok response) w' ->
  (forall rows cells,
      getitem_str response "data" = Ok (VList rows) ->
      rows <> [] ->
      Forall2 has_cell rows cells ->
      Forall cell_is_number cells ->
      exists i r,
        first_max (map peak_key cells) i
        /\ nth_error rows i = Some (VList r)
        /\ day_peak H fuel self (VDate o) pes_id false extra_fields w
           = Done (Ok (Value (VTuple r))) w'
        /\ (Forall (fun c => c = CNull) cells -> i = 0%nat)
        /\ (nth_error cells i = Some CNull ->
            forall j c, nth_error cells j = Some c ->
                        ~ num_below (NFloat (-1e308)) (peak_key c)))
  /\ (forall data,
        getitem_str response "data" = Ok data ->
        truthy data = false ->
        day_peak H fuel self (VDate o) pes_id false extra_fields w
        = Done (Ok (Value null_row)) w').
Proof.
  intros Ho Hq.
  assert (Hrun : day_peak H fuel self (VDate o) pes_id false extra_fields w
    = (data <- lift (getitem_str response "data") ;;
       if truthy data then
         xs <- lift (py_iter data) ;;
         gens <- lift (mapr (gen_or (VFloat (-1e308))) xs) ;;
         index_max <- lift (argmax H gens) ;;
         row <- lift (getitem_int data index_max) ;;
         t <- lift (py_tuple row) ;;
         ret (Value t)
       else ret (Value null_row)) w').
  { unfold day_peak, bind at 1 2 3 4, lift at 1 2, ret at 1, discard.
    cbn [isinstance_date negb].
    rewrite (day_window_date o Ho), compile_params_day, Hq. reflexivity. }
  rewrite Hrun. split.
  - intros rows cells Hdata Hne Hcells Hnum.
    assert (Hkeys : map peak_key cells <> []).
    { destruct Hcells; [congruence | discriminate]. }
    destruct (argmax_first_max H (map peak_key cells) Hkeys
                (peak_key_is_number cells Hnum)) as (i & Hmax & Hfirst).
    assert (Hfirst' := Hfirst).
    destruct Hfirst' as (ki & Hki & Habove & Hbefore).
    destruct (nth_error cells i) as [c |] eqn:Ec.
    2:{ rewrite nth_error_map, Ec in Hki. discriminate Hki. }
    destruct (has_cell_nth rows cells Hcells i c Ec) as (r & Hrow & _).
    exists i, r. split; [exact Hfirst |]. split; [exact Hrow |]. split.
    + unfold bind, lift, ret. rewrite Hdata.
      destruct rows as [| r0 rows]; [congruence |].
      cbn [truthy py_iter]. rewrite (mapr_gen_or _ _ _ Hcells), peak_keys, Hmax.
      rewrite (getitem_int_list _ _ _ Hrow). reflexivity.
    + split.
      * intros Hnull. destruct i as [| i]; [reflexivity | exfalso].
        assert (Hall : forall j kj, nth_error (map peak_key cells) j = Some kj ->
                                    kj = NFloat (-1e308)).
        { intros j kj E. apply nth_error_In, in_map_iff in E.
          destruct E as (c' & <- & Hin).
          rewrite Forall_forall in Hnull. rewrite (Hnull c' Hin). reflexivity. }
        destruct (map peak_key cells) as [| k0 keys] eqn:Ek; [congruence |].
        assert (H0 := Hbefore 0%nat k0 ltac:(lia) eq_refl).
        rewrite (Hall 0%nat k0 eq_refl), (Hall (S i) ki Hki) in H0.
        unfold num_below in H0. lia.
      * intros Hsel j c' Ej.
        rewrite Hsel in Ec. injection Ec as <-.
        rewrite nth_error_map, Hsel in Hki. injection Hki as <-.
        apply (Habove j (peak_key c')). rewrite nth_error_map, Ej. reflexivity.
  - intros data Hdata Hfalsy. unfold bind, lift. rewrite Hdata, Hfalsy.
    reflexivity.
Qed.

End DayPeak.

Lemma day_peak_first_maximum_witness :
  day_peak four_rows 4 pvlive (VDate (_ymd2ord 2018 6 3)) (VInt 0) false
    (VStr "") []
  = Done (Ok (Value (VTuple [VInt 0; VStr "2018-06-03T01:00:00Z";
                             VFloat 5%float])))
      [EGet day_url]
  /\ first_max [NFloat 2; NFloat 5; NFloat (-1e308); NFloat 5] 1
  /\ day_peak four_mixed_rows 4 pvlive (VDate (_ymd2ord 2018 6 3)) (VInt 0)
       false (VStr "") []
     = Done (Ok (Value (VTuple [VInt 0; VStr "2018-06-03T01:00:00Z";
                                VFloat 5%float])))
         [EGet day_url]
  /\ first_max [NInt 2; NFloat 5; NFloat (-1e308); NInt 5] 1.
Proof.
  assert (Hday : day_in_range (_ymd2ord 2018 6 3))
    by (vm_compute; split; [discriminate | reflexivity]).
  assert (Hpick : forall keys i,
             first_max keys i ->
             nth_error keys 1 = Some (NFloat 5) ->
             (forall j k, nth_error keys j = Some k -> j <> 1%nat ->
                          num_ok k
                          /\ (num_gt (NFloat 5) k = true
                              \/ (j = 3%nat /\ num_gt k (NFloat 5) = false))) ->
             i = 1%nat).
  { intros keys i (ki & Hki & Habove & Hbefore) H1 Hothers.
    destruct (Nat.eq_dec i 1) as [-> | Hne]; [reflexivity | exfalso].
    destruct (Hothers i ki Hki Hne) as (Hok & [Hlow | (-> & Htie)]).
    - apply (Habove 1%nat (NFloat 5) H1).
      apply (num_gt_below (NFloat 5) ki eq_refl Hok). exact Hlow.
    - assert (Hb := Hbefore 1%nat (NFloat 5) ltac:(lia) H1).
      apply (num_gt_below ki (NFloat 5) Hok eq_refl) in Hb. congruence. }
  pose (rows := map (fun r => row (fst r) (snd r)) peak_rows).
  pose (mrows := map (fun r => row (fst r) (snd r)) mixed_rows).
  destruct (day_peak_first_maximum four_rows pvlive 4 (_ymd2ord 2018 6 3)
              (VInt 0) (VStr "")
              (VDict [("data", VList rows); ("meta", meta)])
              [] [EGet day_url] Hday) as [Hrows _].
  { vm_compute. reflexivity. }
  destruct (Hrows rows (map snd peak_rows))
    as (i & cells & Hmax & Hrow & Hrun & _).
  { reflexivity. }
  { discriminate. }
  { repeat constructor; eexists; split; reflexivity. }
  { repeat constructor. }
  destruct (day_peak_first_maximum four_mixed_rows pvlive 4
              (_ymd2ord 2018 6 3) (VInt 0) (VStr "")
              (VDict [("data", VList mrows); ("meta", meta)])
              [] [EGet day_url] Hday) as [Hmrows _].
  { vm_compute. reflexivity. }
  destruct (Hmrows mrows (map snd mixed_rows))
    as (i' & cells' & Hmax' & Hrow' & Hrun' & _).
  { reflexivity. }
  { discriminate. }
  { repeat constructor; eexists; split; reflexivity. }
  { repeat constructor. }
  assert (Hi : i = 1%nat).
  { apply (Hpick _ i Hmax); [reflexivity |].
    intros [| [| [| [| j]]]] k E Hj; cbn in E; try congruence;
      try (destruct j; discriminate E); injection E as <-;
      (split; [first [exact I | reflexivity] |]);
      first [left; reflexivity | right; split; reflexivity]. }
  assert (Hi' : i' = 1%nat).
  { apply (Hpick _ i' Hmax'); [reflexivity |].
    intros [| [| [| [| j]]]] k E Hj; cbn in E; try congruence;
      try (destruct j; discriminate E); injection E as <-;
      (split; [first [exact I | reflexivity] |]);
      first [left; reflexivity | right; split; reflexivity]. }
  subst i i'. cbn in Hrow, Hrow'. injection Hrow as <-. injection Hrow' as <-.
  repeat split; assumption.
Defined.

(** C5, where the claim fails: on a day whose generations are all null the
    first row is returned, not the placeholder; and a null row ahead of a
    row whose generation is -1e308 is returned although not every row is
    null. *)
Lemma day_peak_all_null_returns_row :
  day_peak all_null 4 pvlive (VDate (_ymd2ord 2018 6 3)) (VInt 0) false
    (VStr "") []
  = Done (Ok (Value (VTuple [VInt 0; VStr "2018-06-03T00:30:00Z"; VNone])))
      [EGet day_url]
  /\ VTuple [VInt 0; VStr "2018-06-03T00:30:00Z"; VNone] <> null_row
  /\ day_peak null_then_floor 4 pvlive (VDate (_ymd2ord 2018 6 3)) (VInt 0)
       false (VStr "") []
     = Done (Ok (Value (VTuple [VInt 0; VStr "2018-06-03T00:30:00Z"; VNone])))
         [EGet day_url].
Proof.
  split; [vm_compute; reflexivity |].
  split; [discriminate | vm_compute; reflexivity].
Qed.

(** A NaN is above nothing and nothing is above it, so [max] keeps it when
    it comes first, and the row returned is not one of maximal
    generation. *)
Example day_peak_nan_first :
  day_peak nan_rows 4 pvlive (VDate (_ymd2ord 2018 6 3)) (VInt 0) false
    (VStr "") []
  = Done (Ok (Value (VTuple [VInt 0; VStr "2018-06-03T00:30:00Z";
                             VFloat nan])))
      [EGet day_url].
Proof. vm_compute. reflexivity. Qed.

(** On the last day of the calendar both daily queries fail before
    anything is sent. *)
Example day_queries_last_day :
  day_peak three_rows 4 pvlive (VDate _MAXORDINAL) (VInt 0) false (VStr "") []
  = Done (Raise OverflowError) []
  /\ day_energy three_rows 4 pvlive (VDate _MAXORDINAL) (VInt 0) []
     = Done (Raise OverflowError) [].
Proof. split; reflexivity. Qed.

(** An int too large for a double: the sum is exact, the product with 0.5
    raises. *)
Example day_energy_huge_int :
  day_energy huge_int_rows 4 pvlive (VDate (_ymd2ord 2018 6 3)) (VInt 0) []
  = Done (Raise OverflowError) [EGet day_url].
Proof. vm_compute. reflexivity. Qed.

(** ** The window chunker *)

Lemma instant_add (dt : datetime) (td : Z) :
  instant (dt_add dt td) = instant dt + td.
Proof. unfold instant, dt_add. cbn [micros tzinfo]. lia. Qed.

Lemma datetime_lt_instant (a b : datetime) :
  comparable a b = true -> datetime_lt a b = Ok (instant a <? instant b).
Proof.
  unfold comparable, datetime_lt, instant.
  destruct (tzinfo a), (tzinfo b); intros Hc; try discriminate Hc;
    rewrite ?Z.sub_0_r; reflexivity.
Qed.

Lemma datetime_min_earlier (a b : datetime) :
  comparable a b = true -> datetime_min a b = Ok (earlier a b).
Proof.
  intros Hc. unfold datetime_min, earlier.
  rewrite datetime_lt_instant; [reflexivity |].
  unfold comparable in *. destruct (tzinfo a), (tzinfo b); auto.
Qed.

Lemma chunk_count_stop (s e : datetime) (mr : Z) :
  instant e <= instant s -> chunk_count s e mr = 0%nat.
Proof.
  intros Hle. unfold chunk_count.
  replace (instant s <? instant e) with false
    by (symmetry; apply Z.ltb_ge; lia).
  reflexivity.
Qed.

Lemma chunk_count_step (s e : datetime) (mr : Z) :
  0 < mr -> instant s < instant e ->
  chunk_count s e mr = S (chunk_count (dt_add s (mr + one_interval)) e mr).
Proof.
  intros Hmr Hlt. unfold chunk_count. rewrite instant_add.
  assert (Hstep : 0 < mr + one_interval) by (unfold one_interval, timedelta; lia).
  set (step := mr + one_interval) in *.
  replace (instant s <? instant e) with true by (symmetry; apply Z.ltb_lt; lia).
  destruct (instant s + step <? instant e) eqn:E.
  - apply Z.ltb_lt in E.
    replace (instant e - (instant s + step) - 1)
      with ((instant e - instant s - 1) + (-1) * step) by ring.
    rewrite Z.div_add by lia.
    assert (1 <= (instant e - instant s - 1) / step)
      by (apply Z.div_le_lower_bound; lia).
    lia.
  - apply Z.ltb_ge in E. rewrite Z.div_small by lia. reflexivity.
Qed.

Lemma chunk_count_spec (s e : datetime) (mr : Z) (i : nat) :
  0 < mr ->
  ((i < chunk_count s e mr)%nat
   <-> instant s + Z.of_nat i * (mr + one_interval) < instant e).
Proof.
  intros Hmr.
  assert (Hstep : 0 < mr + one_interval) by (unfold one_interval, timedelta; lia).
  set (step := mr + one_interval) in *.
  unfold chunk_count. fold step.
  destruct (instant s <? instant e) eqn:E.
  - apply Z.ltb_lt in E.
    assert (Hq : 0 <= (instant e - instant s - 1) / step)
      by (apply Z.div_pos; lia).
    split; intros Hi.
    + assert (Z.of_nat i <= (instant e - instant s - 1) / step) by lia.
      assert (Z.of_nat i * step <= instant e - instant s - 1).
      { etransitivity; [apply Z.mul_le_mono_nonneg_r; [lia | eassumption] |].
        rewrite Z.mul_comm. apply Z.mul_div_le. lia. }
      lia.
    + assert (Z.of_nat i <= (instant e - instant s - 1) / step)
        by (apply Z.div_le_lower_bound; lia).
      lia.
  - apply Z.ltb_ge in E. split; intros Hi; [lia |].
    assert (0 <= Z.of_nat i * step) by (apply Z.mul_nonneg_nonneg; lia).
    lia.
Qed.

Lemma chunks_stop (s e : datetime) (mr : Z) :
  instant e <= instant s -> chunks s e mr = [].
Proof. intros Hle. unfold chunks. rewrite chunk_count_stop; auto. Qed.

Lemma chunks_step (s e : datetime) (mr : Z) :
  0 < mr -> instant s < instant e ->
  chunks s e mr
  = (s, earlier e (dt_add s mr)) :: chunks (dt_add s (mr + one_interval)) e mr.
Proof.
  intros Hmr Hlt. unfold chunks. rewrite (chunk_count_step s e mr Hmr Hlt).
  cbn [seq map]. f_equal.
  - unfold chunk. cbn [Z.of_nat Z.mul].
    replace (dt_add s 0) with s; [reflexivity |].
    destruct s. unfold dt_add. cbn [micros tzinfo]. f_equal. lia.
  - rewrite <- seq_shift, map_map. apply map_ext. intros i.
    unfold chunk.
    replace (dt_add s (Z.of_nat (S i) * (mr + one_interval)))
      with (dt_add (dt_add s (mr + one_interval))
                   (Z.of_nat i * (mr + one_interval))); [reflexivity |].
    unfold dt_add. cbn [micros tzinfo]. f_equal. lia.
Qed.

(** Inside the calendar [+] is plain addition. *)
Lemma dt_plus_in_range (dt : datetime) (td : Z) :
  0 <= micros dt + td < max_micros -> dt_plus dt td = Ok (dt_add dt td).
Proof.
  intros Hr. unfold dt_plus, in_range, dt_add. cbn [micros].
  replace (0 <=? micros dt + td) with true by (symmetry; apply Z.leb_le; lia).
  replace (micros dt + td <? max_micros) with true
    by (symmetry; apply Z.ltb_lt; lia).
  reflexivity.
Qed.

Lemma in_range_spec (dt : datetime) :
  in_range dt = true <-> 0 <= micros dt < max_micros.
Proof. unfold in_range. rewrite andb_true_iff, Z.leb_le, Z.ltb_lt. tauto. Qed.

Lemma window_in_range_start (s e : datetime) (mr : Z) :
  0 < mr -> window_in_range s e mr -> in_range s = true.
Proof.
  intros Hmr [H0 H1]. apply in_range_spec.
  assert (0 <= Z.of_nat (chunk_count s e mr) * (mr + one_interval))
    by (apply Z.mul_nonneg_nonneg; unfold one_interval, timedelta; lia).
  lia.
Qed.

(** One pass of the loop leaves a window that is in range again. *)
Lemma window_in_range_step (s e : datetime) (mr : Z) :
  0 < mr -> instant s < instant e -> window_in_range s e mr ->
  0 <= micros s + mr < max_micros
  /\ 0 <= micros s + (mr + one_interval) < max_micros
  /\ window_in_range (dt_add s (mr + one_interval)) e mr.
Proof.
  intros Hmr Hlt [H0 H1]. rewrite (chunk_count_step s e mr Hmr Hlt) in H1.
  assert (Hstep : 0 < mr + one_interval) by (unfold one_interval, timedelta; lia).
  assert (Hi : one_interval = 1800000000) by reflexivity.
  unfold window_in_range. cbn [dt_add micros].
  set (k := chunk_count (dt_add s (mr + one_interval)) e mr) in *.
  assert (0 <= Z.of_nat k * (mr + one_interval))
    by (apply Z.mul_nonneg_nonneg; lia).
  rewrite Nat2Z.inj_succ in H1. lia.
Qed.

Section Chunker.

Variable H : Host.
Variable self : PVLive.
Variables pes_id extra_fields : pyval.

Lemma between_loop_eq (fuel n : nat) (end_ : datetime) (max_range : Z)
  (data : list pyval) (response : option pyval) (request_start : datetime)
  (w : world) :
  between_loop H fuel n self pes_id extra_fields end_ max_range data response
    request_start w =
  match datetime_lt request_start end_ with
  | Raise e => Done (Raise e) w
  | Ok false => Done (Ok (data, response)) w
  | Ok true =>
      match fuel with
      | O => OutOfFuel
      | S fuel' =>
          (upper <- lift (dt_plus request_start max_range) ;;
           request_end <- lift (datetime_min end_ upper) ;;
           params <- lift (_compile_params extra_fields
                             (VDatetime request_start)
                             (VDatetime request_end)) ;;
           response <- _query_api H n self pes_id params ;;
           rows <- lift (rbind (getitem_str response "data") py_iter) ;;
           request_start <- lift (dt_plus request_start
                                    (max_range + timedelta 0 30 0)) ;;
           between_loop H fuel' n self pes_id extra_fields end_ max_range
             (data ++ rows)%list (Some response) request_start) w
      end
  end.
Proof. destruct fuel; reflexivity. Qed.

(** The loop is the walk over the chunks, as long as every datetime it
    computes is in range. *)
Lemma between_loop_chunks (n : nat) (end_ : datetime) (max_range : Z) :
  0 < max_range ->
  forall (fuel : nat) (start : datetime) (data : list pyval)
         (response : option pyval) (w : world),
    comparable start end_ = true ->
    window_in_range start end_ max_range ->
    (chunk_count start end_ max_range <= fuel)%nat ->
    between_loop H fuel n self pes_id extra_fields end_ max_range data
      response start w
    = query_chunks H n self pes_id extra_fields
        (chunks start end_ max_range) data response w.
Proof.
  intros Hmr. induction fuel as [| fuel IH];
    intros start data response w Hc Hr Hfuel;
    rewrite between_loop_eq, (datetime_lt_instant _ _ Hc);
    destruct (instant start <? instant end_) eqn:E.
  - apply Z.ltb_lt in E. rewrite (chunk_count_step _ _ _ Hmr E) in Hfuel. lia.
  - apply Z.ltb_ge in E. rewrite chunks_stop by assumption. reflexivity.
  - apply Z.ltb_lt in E. rewrite (chunks_step _ _ _ Hmr E).
    destruct (window_in_range_step _ _ _ Hmr E Hr) as (R1 & R2 & Hr').
    cbn [query_chunks]. unfold bind, lift.
    rewrite (dt_plus_in_range _ _ R1).
    rewrite datetime_min_earlier
      by (unfold comparable in *; cbn [dt_add tzinfo];
          destruct (tzinfo start), (tzinfo end_); auto).
    destruct (_compile_params extra_fields (VDatetime start)
                (VDatetime (earlier end_ (dt_add start max_range))))
      as [params | ex]; [| reflexivity].
    destruct (_query_api H n self pes_id params w) as [[resp | ex] w1 |];
      [| reflexivity | reflexivity].
    destruct (rbind (getitem_str resp "data") py_iter) as [rows | ex];
      [| reflexivity].
    change (timedelta 0 30 0) with one_interval.
    rewrite (dt_plus_in_range _ _ R2).
    apply IH; [exact Hc | exact Hr' |].
    rewrite (chunk_count_step _ _ _ Hmr E) in Hfuel. lia.
  - apply Z.ltb_ge in E. rewrite chunks_stop by assumption. reflexivity.
Qed.

(** Answered chunks leave their rows, in order, after the rows already
    gathered. *)
Lemma query_chunks_answered (n : nat) (cs : list (datetime * datetime))
  (w w' : world) (rowss : list (list pyval)) :
  answered H n self pes_id extra_fields cs w rowss w' ->
  forall (data : list pyval) (response : option pyval),
  exists response',
    query_chunks H n self pes_id extra_fields cs data response w
    = Done (Ok ((data ++ List.concat rowss)%list, response')) w'.
Proof.
  induction 1 as [w | rs re cs w w1 w2 params resp rows rowss Hp Hq Hr _ IH];
    intros data response.
  - exists response. cbn. rewrite app_nil_r. reflexivity.
  - destruct (IH (data ++ rows)%list (Some resp)) as (response' & Hrun).
    exists response'. cbn [query_chunks List.concat].
    unfold bind, lift. rewrite Hp, Hq, Hr, Hrun, <- app_assoc. reflexivity.
Qed.

End Chunker.

Lemma tzinfo_nearest_hh (dt : datetime) : tzinfo (nearest_hh dt) = tzinfo dt.
Proof. unfold nearest_hh. destruct (negb _); reflexivity. Qed.

Lemma comparable_nearest_hh (s e : datetime) :
  comparable (nearest_hh s) (nearest_hh e) = comparable s e.
Proof. unfold comparable. rewrite !tzinfo_nearest_hh. reflexivity. Qed.

Lemma limit_of_pos (pes_id : pyval) : 0 < limit_of pes_id.
Proof. unfold limit_of. destruct (eq_zero pes_id); reflexivity. Qed.

(** [between] on two datetimes that normalise to datetimes, in row mode:
    the loop, then the rows. *)
Lemma between_datetimes (H : Host) (fuel : nat) (r : Z) (s e : datetime)
  (pes_id extra_fields : pyval) (w : world) :
  in_range (nearest_hh s) = true ->
  in_range (nearest_hh e) = true ->
  between H fuel (PVLive_init r) (VDatetime s) (VDatetime e) pes_id false
    extra_fields w
  = (x <- between_loop H fuel fuel (PVLive_init r) pes_id extra_fields
            (nearest_hh e) (limit_of pes_id) [] None (nearest_hh s) ;;
     ret (Value (VList (fst x)))) w.
Proof.
  intros Hs He. unfold between, discard, bind, lift, ret, limit_of.
  rewrite (nearest_hh_ok s Hs), (nearest_hh_ok e He).
  cbn [attr_tzinfo rbind isinstance_datetime andb negb
       max_range_national max_range_regional PVLive_init].
  destruct (tzinfo s); [destruct (tzinfo e) |]; cbn [orb];
    destruct (between_loop _ _ _ _ _ _ _ _ _ _ _ _) as [[[d resp] | ex] w1 |];
    reflexivity.
Qed.

(** C2 (as amended).  For a client built by [__init__] and two comparable
    datetimes whose window stays inside the calendar (the normalised end
    is a datetime, and so is the normalised start advanced by
    [max_range + 30 min] once per chunk, which bounds every datetime the
    loop computes), [between] in row mode is the walk over the chunks of
    the normalised window: chunk [i] starts [i * (max_range + 30 min)]
    after the start and ends [max_range] later or at the end, whichever is
    first; there is a chunk for every such start strictly before the end
    and no other; [max_range] is 365 days for region 0 and 30 days
    otherwise.  A nationwide window of 400 days has exactly two chunks, the
    second starting 30 minutes after the first ends.  A window that is not
    empty and no larger than the limit has exactly one chunk, the window
    itself.  When every chunk is answered, the result is the concatenation
    of the answers' rows in chunk order. *)
Theorem between_chunks (H : Host) (fuel : nat) (r : Z) (s e : datetime)
  (pes_id extra_fields : pyval) (w : world) :
  let self := PVLive_init r in
  let start := nearest_hh s in
  let end_ := nearest_hh e in
  let max_range := limit_of pes_id in
  comparable s e = true ->
  in_range end_ = true ->
  window_in_range start end_ max_range ->
  (chunk_count start end_ max_range <= fuel)%nat ->
  between H fuel self (VDatetime s) (VDatetime e) pes_id false extra_fields w
  = (x <- query_chunks H fuel self pes_id extra_fields
            (chunks start end_ max_range) [] None ;;
     ret (Value (VList (fst x)))) w
  /\ (forall i : nat,
        (i < chunk_count start end_ max_range)%nat
        <-> instant start + Z.of_nat i * (max_range + timedelta 0 30 0)
            < instant end_)
  /\ (eq_zero pes_id = true ->
      instant end_ - instant start = timedelta 400 0 0 ->
      chunks start end_ max_range
      = [(start, dt_add start (timedelta 365 0 0));
         (dt_add (dt_add start (timedelta 365 0 0)) (timedelta 0 30 0), end_)])
  /\ (0 < instant end_ - instant start <= max_range ->
      chunks start end_ max_range = [(start, end_)])
  /\ (forall (rowss : list (list pyval)) (w' : world),
        answered H fuel self pes_id extra_fields
          (chunks start end_ max_range) w rowss w' ->
        between H fuel self (VDatetime s) (VDatetime e) pes_id false
          extra_fields w
        = Done (Ok (Value (VList (List.concat rowss)))) w').
Proof.
  intros self start end_ max_range Hc He Hr Hfuel.
  assert (Hmr : 0 < max_range) by apply limit_of_pos.
  assert (Hs : in_range start = true)
    by (apply (window_in_range_start start end_ max_range); assumption).
  assert (Hrun :
    between H fuel self (VDatetime s) (VDatetime e) pes_id false extra_fields w
    = (x <- query_chunks H fuel self pes_id extra_fields
              (chunks start end_ max_range) [] None ;;
       ret (Value (VList (fst x)))) w).
  { unfold self. rewrite between_datetimes by assumption. unfold bind.
    rewrite between_loop_chunks; auto.
    rewrite comparable_nearest_hh. exact Hc. }
  split; [exact Hrun |]. split.
  { intros i. apply chunk_count_spec, Hmr. }
  split.
  { intros Hz Hwin. unfold max_range, limit_of in *. rewrite Hz in *.
    rewrite chunks_step by (auto; unfold timedelta in *; lia).
    rewrite chunks_step
      by (auto; rewrite instant_add; unfold one_interval, timedelta in *; lia).
    rewrite chunks_stop
      by (rewrite !instant_add; unfold one_interval, timedelta in *; lia).
    unfold earlier. rewrite !instant_add.
    replace (instant start + timedelta 365 0 0 <? instant end_) with true
      by (symmetry; apply Z.ltb_lt; unfold timedelta in *; lia).
    replace (instant start + (timedelta 365 0 0 + one_interval)
             + timedelta 365 0 0 <? instant end_) with false
      by (symmetry; apply Z.ltb_ge; unfold one_interval, timedelta in *; lia).
    do 2 f_equal. f_equal.
    unfold dt_add, one_interval. cbn [micros tzinfo]. f_equal. lia. }
  split.
  { intros Hwin.
    rewrite chunks_step by (auto; lia).
    rewrite chunks_stop
      by (rewrite instant_add; unfold one_interval, timedelta; lia).
    unfold earlier. rewrite instant_add.
    replace (instant start + max_range <? instant end_) with false
      by (symmetry; apply Z.ltb_ge; lia).
    reflexivity. }
  intros rowss w' Hans. rewrite Hrun. unfold bind.
  destruct (query_chunks_answered H self pes_id extra_fields fuel _ _ _ _ Hans
              [] None) as (resp & ->).
  reflexivity.
Qed.

Lemma between_chunks_witness :
  let s := datetime_of 2018 1 1 0 0 0 0 UTC in
  let e := datetime_of 2019 2 5 0 0 0 0 UTC in
  instant (nearest_hh e) - instant (nearest_hh s) = timedelta 400 0 0
  /\ between two_pages 4 pvlive (VDatetime s) (VDatetime e) (VInt 0) false
       (VStr "") []
     = Done (Ok (Value (VList [row "2019-01-01T00:00:00Z" (CFloat 1);
                               row "2019-02-05T00:00:00Z" (CFloat 2)])))
         [EGet "https://api0.solar.sheffield.ac.uk/pvlive/v2/pes/0?start=2018-01-01T00:00:00Z&end=2019-01-01T00:00:00Z";
          EGet "https://api0.solar.sheffield.ac.uk/pvlive/v2/pes/0?start=2019-01-01T00:30:00Z&end=2019-02-05T00:00:00Z"].
Proof.
  intros s e. split; [reflexivity |].
  destruct (between_chunks two_pages 4 3 s e (VInt 0) (VStr "") [])
    as (Hrun & _ & Htwo & _).
  - reflexivity.
  - reflexivity.
  - vm_compute. split; [discriminate | reflexivity].
  - vm_compute. lia.
  - change pvlive with (PVLive_init 3). rewrite Hrun.
    rewrite Htwo by reflexivity.
    vm_compute. reflexivity.
Defined.

(** C2, where the claim fails: a window from an instant to itself is no
    larger than the limit, yet it has no chunk and [between] sends no
    request. *)
Lemma between_point_window_no_chunk :
  let t := datetime_of 2018 7 3 14 0 0 0 UTC in
  instant (nearest_hh t) - instant (nearest_hh t) <= limit_of (VInt 0)
  /\ chunks (nearest_hh t) (nearest_hh t) (limit_of (VInt 0)) = []
  /\ between (scripted [Page "first"] []) 4 pvlive (VDatetime t) (VDatetime t)
       (VInt 0) false (VStr "") []
     = Done (Ok (Value (VList []))) [].
Proof.
  intros t. split; [vm_compute; discriminate |].
  split; vm_compute; reflexivity.
Qed.

(** Near the end of the calendar the loop fails on its first addition: a
    one-day window in June 9999 is no larger than the limit, yet
    [request_start + max_range] is past the last datetime and nothing is
    sent. *)
Example between_window_out_of_range :
  let s := datetime_of 9999 6 1 0 0 0 0 UTC in
  let e := datetime_of 9999 6 2 0 0 0 0 UTC in
  between (scripted [Page "first"] []) 4 pvlive (VDatetime s) (VDatetime e)
    (VInt 0) false (VStr "") []
  = Done (Raise OverflowError) [].
Proof. vm_compute. reflexivity. Qed.

(** ** Argument validation *)

(** [latest] checks its region and its extra fields before it touches the
    network. *)
Lemma latest_validates (H : Host) (fuel : nat) (self : PVLive)
  (pes_id extra_fields : pyval) (data_frame : bool) (w : world) :
  region_ok pes_id = false \/ isinstance_str extra_fields = false ->
  exists msg,
    latest H fuel self pes_id data_frame extra_fields w
    = Done (Raise (PVLiveException msg)) w.
Proof.
  intros Hbad. unfold latest, region_ok in *.
  rewrite <- negb_andb.
  destruct (isinstance_int pes_id && _) eqn:E; cbn [negb].
  - destruct Hbad as [Hr | Hs]; [discriminate Hr |].
    rewrite Hs. eexists. reflexivity.
  - eexists. reflexivity.
Qed.

(** C4.  Every public query is meant to reject a bad region, bad extra
    fields or a naive timestamp before any network activity.  [at_time]
    with a naive datetime, region 400 and the int 7 for the extra fields
    sends its GET and returns the row: the exception object for the bad
    timestamp is built and dropped, and the region and the extra fields are
    not looked at.  [latest] does reject region 400, with the log left
    empty. *)
Theorem at_time_skips_validation :
  let naive := datetime_of 2018 6 3 12 0 0 0 None in
  at_time one_row 4 pvlive (VDatetime naive) (VInt 400) false (VInt 7) []
  = Done (Ok (Value (VTuple [VInt 0; VStr "2018-06-03T12:00:00Z";
                             VFloat 5%float])))
      [EGet "https://api0.solar.sheffield.ac.uk/pvlive/v2/pes/400?extra_fields=7&start=2018-06-03T12:00:00&end=2018-06-03T12:00:00"]
  /\ latest one_row 4 pvlive (VInt 400) false (VStr "") []
     = Done (Raise (new_PVLiveException
                      "The pes_id must be an integer between 0 and 327 (inclusive)."))
         [].
Proof. split; vm_compute; reflexivity. Qed.

(** * Further properties of the client *)

(** ** [latest] and [at_time] *)

Lemma region_ok_int (z : Z) : region_ok (VInt z) = true <-> 0 <= z <= 327.
Proof.
  unfold region_ok. cbn. rewrite andb_true_iff, Z.leb_le, Z.ltb_lt. lia.
Qed.

(** [latest] names what it rejects: a region that is not an int in
    [0, 327] first, then extra fields that are not a string; either way
    nothing is sent. *)
Theorem latest_rejects_arguments (H : Host) (fuel : nat) (self : PVLive)
  (pes_id extra_fields : pyval) (data_frame : bool) (w : world) :
  (region_ok pes_id = false ->
   latest H fuel self pes_id data_frame extra_fields w
   = Done (Raise (new_PVLiveException
                    "The pes_id must be an integer between 0 and 327 (inclusive)."))
       w)
  /\ (region_ok pes_id = true -> isinstance_str extra_fields = false ->
      latest H fuel self pes_id data_frame extra_fields w
      = Done (Raise (new_PVLiveException
                       "The extra_fields must be a comma-separated string."))
          w)
  /\ (forall z, region_ok (VInt z) = true <-> 0 <= z <= 327)
  /\ region_ok (VStr "0") = false
  /\ region_ok (VFloat 0) = false
  /\ region_ok VNone = false.
Proof.
  unfold latest. fold (region_ok pes_id).
  replace (negb (isinstance_int pes_id)
           || negb match as_num pes_id with
                   | Some (NInt z) => (0 <=? z) && (z <? 328)
                   | _ => false
                   end)
    with (negb (region_ok pes_id))
    by (unfold region_ok; apply negb_andb).
  split; [intros -> ; reflexivity |].
  split; [intros -> -> ; reflexivity |].
  split; [exact region_ok_int |]. repeat split.
Qed.

Lemma latest_rejects_arguments_witness :
  latest one_row 4 pvlive (VInt 328) false (VStr "") []
  = Done (Raise (new_PVLiveException
                   "The pes_id must be an integer between 0 and 327 (inclusive)."))
      []
  /\ latest one_row 4 pvlive (VInt 327) false (VList [VStr "ucl_mw"]) []
     = Done (Raise (new_PVLiveException
                      "The extra_fields must be a comma-separated string."))
         [].
Proof.
  destruct (latest_rejects_arguments one_row 4 pvlive (VInt 328) (VStr "")
              false []) as (Hregion & _).
  destruct (latest_rejects_arguments one_row 4 pvlive (VInt 327)
              (VList [VStr "ucl_mw"]) false []) as (_ & Hextra & _).
  split; [apply Hregion | apply Hextra]; reflexivity.
Defined.

(** [latest] with accepted arguments: one query, then the shared tail. *)
Lemma latest_run (H : Host) (fuel : nat) (self : PVLive)
  (pes_id extra_fields : pyval) (data_frame : bool) (w : world) :
  region_ok pes_id = true -> isinstance_str extra_fields = true ->
  latest H fuel self pes_id data_frame extra_fields w
  = (response <- _query_api H fuel self pes_id (extra_params extra_fields) ;;
     first_row response data_frame) w.
Proof.
  intros Hr Hs. unfold latest.
  replace (negb (isinstance_int pes_id)
           || negb match as_num pes_id with
                   | Some (NInt z) => (0 <=? z) && (z <? 328)
                   | _ => false
                   end)
    with (negb (region_ok pes_id))
    by (unfold region_ok; apply negb_andb).
  rewrite Hr, Hs. cbn [negb]. unfold _compile_params, extra_params.
  destruct (truthy extra_fields); reflexivity.
Qed.

(** The tail on an answer whose data starts with a list row. *)
Lemma first_row_tuple (response : pyval) (cells : list pyval)
  (rest : list pyval) (w : world) :
  getitem_str response "data" = Ok (VList (VList cells :: rest)) ->
  first_row response false w = Done (Ok (Value (VTuple cells))) w.
Proof.
  intros Hd. unfold first_row, bind, lift, ret. rewrite Hd. reflexivity.
Qed.

Lemma first_row_frame (response r columns : pyval) (rest : list pyval)
  (w : world) :
  getitem_str response "data" = Ok (VList (r :: rest)) ->
  getitem_str response "meta" = Ok columns ->
  first_row response true w = Done (Ok (convert_tuple_to_df r columns)) w.
Proof.
  intros Hd Hm. unfold first_row, bind, lift, ret. rewrite Hd. cbn.
  rewrite Hm. reflexivity.
Qed.

Lemma first_row_empty (response data : pyval) (data_frame : bool) (w : world) :
  getitem_str response "data" = Ok data -> truthy data = false ->
  first_row response data_frame w = Done (Ok (Value null_row)) w.
Proof.
  intros Hd Hf. unfold first_row, bind, lift, ret. rewrite Hd, Hf.
  reflexivity.
Qed.

(** With accepted arguments [latest] sends one query that carries no time
    bounds, and hands back the first row of the answer: as a tuple in row
    mode, as a one-row frame under the answer's column names in frame mode.
    When the data array is empty (or null) it hands back the placeholder
    [(None, None, None)], in either mode. *)
Theorem latest_first_row_or_placeholder (H : Host) (fuel : nat)
  (self : PVLive) (pes_id extra_fields response : pyval) (w w' : world) :
  region_ok pes_id = true ->
  isinstance_str extra_fields = true ->
  _query_api H fuel self pes_id (extra_params extra_fields) w
    = Done (Ok response) w' ->
  (forall cells rest,
      getitem_str response "data" = Ok (VList (VList cells :: rest)) ->
      latest H fuel self pes_id false extra_fields w
      = Done (Ok (Value (VTuple cells))) w')
  /\ (forall r rest columns,
        getitem_str response "data" = Ok (VList (r :: rest)) ->
        getitem_str response "meta" = Ok columns ->
        latest H fuel self pes_id true extra_fields w
        = Done (Ok (DataFrame (VList [r]) columns)) w')
  /\ (forall data data_frame,
        getitem_str response "data" = Ok data -> truthy data = false ->
        latest H fuel self pes_id data_frame extra_fields w
        = Done (Ok (Value null_row)) w').
Proof.
  intros Hr Hs Hq.
  assert (Hrun : forall df,
             latest H fuel self pes_id df extra_fields w
             = first_row response df w').
  { intros df. rewrite latest_run by assumption. unfold bind. rewrite Hq.
    reflexivity. }
  split; [| split].
  - intros cells rest Hd. rewrite Hrun. eapply first_row_tuple, Hd.
  - intros r rest columns Hd Hm. rewrite Hrun.
    eapply first_row_frame; eassumption.
  - intros data df Hd Hf. rewrite Hrun. eapply first_row_empty; eassumption.
Qed.

Lemma latest_first_row_or_placeholder_witness :
  latest one_row 4 pvlive (VInt 0) false (VStr "") []
  = Done (Ok (Value (VTuple [VInt 0; VStr "2018-06-03T12:00:00Z";
                             VFloat 5%float])))
      [EGet "https://api0.solar.sheffield.ac.uk/pvlive/v2/pes/0?"].
Proof.
  refine (proj1 (latest_first_row_or_placeholder one_row 4 pvlive (VInt 0)
                   (VStr "") _ [] _ _ _ _) _ [] _).
  - reflexivity.
  - reflexivity.
  - vm_compute. reflexivity.
  - reflexivity.
Defined.

(** An answer that parses but is not an object with a data field makes
    [latest] fail after the request with the lookup's own exception:
    [KeyError] for an object without the field, [TypeError] for anything
    that is not an object.  It is not turned into a [PVLiveException]. *)
Theorem latest_answer_without_data (H : Host) (fuel : nat) (self : PVLive)
  (pes_id extra_fields response : pyval) (data_frame : bool) (w w' : world) :
  region_ok pes_id = true ->
  isinstance_str extra_fields = true ->
  _query_api H fuel self pes_id (extra_params extra_fields) w
    = Done (Ok response) w' ->
  (forall kv, response = VDict kv -> dict_get kv "data" = None ->
              latest H fuel self pes_id data_frame extra_fields w
              = Done (Raise KeyError) w')
  /\ ((forall kv, response <> VDict kv) ->
      latest H fuel self pes_id data_frame extra_fields w
      = Done (Raise TypeError) w').
Proof.
  intros Hr Hs Hq.
  assert (Hrun : latest H fuel self pes_id data_frame extra_fields w
                 = first_row response data_frame w').
  { rewrite latest_run by assumption. unfold bind. rewrite Hq. reflexivity. }
  rewrite Hrun. unfold first_row, bind, lift. split.
  - intros kv -> Hnone. cbn. rewrite Hnone. reflexivity.
  - intros Hnot. destruct response; try reflexivity.
    exfalso. eapply Hnot. reflexivity.
Qed.

Lemma latest_answer_without_data_witness :
  latest no_data_field 4 pvlive (VInt 0) false (VStr "") []
  = Done (Raise KeyError)
      [EGet "https://api0.solar.sheffield.ac.uk/pvlive/v2/pes/0?"].
Proof.
  refine (proj1 (latest_answer_without_data no_data_field 4 pvlive (VInt 0)
                   (VStr "") _ false [] _ _ _ _) _ eq_refl _).
  - reflexivity.
  - reflexivity.
  - vm_compute. reflexivity.
  - reflexivity.
Defined.

(** [at_time] on a datetime: normalise, compile a request with no end,
    query, then the shared tail.  Nothing is checked on the way. *)
Lemma at_time_run (H : Host) (fuel : nat) (self : PVLive) (dt : datetime)
  (pes_id extra_fields : pyval) (data_frame : bool) (w : world) :
  at_time H fuel self (VDatetime dt) pes_id data_frame extra_fields w
  = (t <- lift (_nearest_hh (VDatetime dt)) ;;
     params <- lift (_compile_params extra_fields (VDatetime t) VNone) ;;
     response <- _query_api H fuel self pes_id params ;;
     first_row response data_frame) w.
Proof.
  unfold at_time, discard, bind, lift, ret.
  cbn [isinstance_datetime negb attr_tzinfo rbind].
  destruct (tzinfo dt); reflexivity.
Qed.

Lemma dict_set_extra_params (extra_fields s e : pyval) :
  dict_set (dict_set (if truthy extra_fields
                      then [("extra_fields", extra_fields)] else [])
              "start" s) "end" e
  = (extra_params extra_fields ++ [("start", s); ("end", e)])%list.
Proof. unfold extra_params. destruct (truthy extra_fields); reflexivity. Qed.

(** [at_time] on a UTC datetime whose normalised time is a datetime (it is
    not rounded past 9999-12-31) is a point query: one request whose
    [start] and [end] are both the normalised time, written with a [Z],
    followed by the first row or the placeholder as for [latest]. *)
Theorem at_time_point_query (H : Host) (fuel : nat) (self : PVLive)
  (dt : datetime) (pes_id extra_fields : pyval) (data_frame : bool)
  (w : world) :
  tzinfo dt = Some 0 ->
  in_range (nearest_hh dt) = true ->
  let t := VStr (isoformat_naive (nearest_hh dt) ++ "Z") in
  at_time H fuel self (VDatetime dt) pes_id data_frame extra_fields w
  = (response <- _query_api H fuel self pes_id
                   (extra_params extra_fields ++ [("start", t); ("end", t)])%list ;;
     first_row response data_frame) w.
Proof.
  intros Htz Hr t. rewrite at_time_run, (nearest_hh_ok dt Hr).
  assert (Hp : _compile_params extra_fields (VDatetime (nearest_hh dt)) VNone
               = Ok (extra_params extra_fields ++ [("start", t); ("end", t)])%list).
  { change (_compile_params extra_fields (VDatetime (nearest_hh dt)) VNone)
      with (_compile_params extra_fields (VDatetime (nearest_hh dt))
              (VDatetime (nearest_hh dt))).
    rewrite compile_params_datetimes, iso_param_utc
      by (rewrite tzinfo_nearest_hh; exact Htz).
    cbn [rbind]. rewrite dict_set_extra_params. reflexivity. }
  unfold bind at 1 2, lift. rewrite Hp. reflexivity.
Qed.

Lemma at_time_point_query_witness :
  at_time one_row 4 pvlive (VDatetime (datetime_of 2018 6 3 11 35 0 0 UTC))
    (VInt 0) false (VStr "") []
  = Done (Ok (Value (VTuple [VInt 0; VStr "2018-06-03T12:00:00Z";
                             VFloat 5%float])))
      [EGet "https://api0.solar.sheffield.ac.uk/pvlive/v2/pes/0?start=2018-06-03T12:00:00Z&end=2018-06-03T12:00:00Z"].
Proof.
  rewrite (at_time_point_query one_row 4 pvlive
             (datetime_of 2018 6 3 11 35 0 0 UTC) (VInt 0) (VStr "") false []
             eq_refl eq_refl).
  vm_compute. reflexivity.
Defined.

(** A time given in whole seconds and its normalised form are the same
    argument to [at_time]: same request, same result. *)
Theorem at_time_normalised_argument (H : Host) (fuel : nat) (self : PVLive)
  (dt : datetime) (pes_id extra_fields : pyval) (data_frame : bool)
  (w : world) :
  microsecond dt = 0 ->
  at_time H fuel self (VDatetime dt) pes_id data_frame extra_fields w
  = at_time H fuel self (VDatetime (nearest_hh dt)) pes_id data_frame
      extra_fields w.
Proof.
  intros Hus. rewrite !at_time_run. unfold _nearest_hh.
  rewrite nearest_hh_idempotent_whole_seconds by exact Hus. reflexivity.
Qed.

Lemma at_time_normalised_argument_witness :
  at_time one_row 4 pvlive (VDatetime (datetime_of 2018 6 3 11 35 12 0 UTC))
    (VInt 0) false (VStr "") []
  = at_time one_row 4 pvlive (VDatetime (datetime_of 2018 6 3 12 0 0 0 UTC))
      (VInt 0) false (VStr "") [].
Proof.
  exact (at_time_normalised_argument one_row 4 pvlive
           (datetime_of 2018 6 3 11 35 12 0 UTC) (VInt 0) (VStr "") false []
           eq_refl).
Defined.

(** ** Time arguments of the wrong type *)



(** ** More on [between] *)

(** One naive and one aware bound, both normalising to datetimes: the
    loop guard cannot order them, and [between] ends in [TypeError] with
    nothing sent, in either mode. *)
Theorem between_mixed_awareness (H : Host) (fuel : nat) (self : PVLive)
  (s e : datetime) (pes_id extra_fields : pyval) (data_frame : bool)
  (w : world) :
  in_range (nearest_hh s) = true ->
  in_range (nearest_hh e) = true ->
  comparable s e = false ->
  between H fuel self (VDatetime s) (VDatetime e) pes_id data_frame
    extra_fields w
  = Done (Raise TypeError) w.
Proof.
  intros Hs He Hc. unfold comparable in Hc.
  assert (Hlt : datetime_lt (nearest_hh s) (nearest_hh e) = Raise TypeError).
  { unfold datetime_lt. rewrite !tzinfo_nearest_hh.
    destruct (tzinfo s), (tzinfo e); try discriminate Hc; reflexivity. }
  unfold between, discard, bind, lift, ret.
  rewrite (nearest_hh_ok s Hs), (nearest_hh_ok e He).
  cbn [attr_tzinfo rbind isinstance_datetime andb negb orb].
  destruct (tzinfo s), (tzinfo e); try discriminate Hc; cbn;
    destruct fuel; cbn; rewrite Hlt; reflexivity.
Qed.

Lemma between_mixed_awareness_witness :
  between one_row 4 pvlive (VDatetime (datetime_of 2018 6 3 12 0 0 0 None))
    (VDatetime (datetime_of 2018 6 3 14 0 0 0 UTC)) (VInt 0) false (VStr "") []
  = Done (Raise TypeError) [].
Proof.
  apply between_mixed_awareness; reflexivity.
Defined.

Lemma between_empty_window_frame_witness :
  let t := datetime_of 2018 7 3 14 0 0 0 UTC in
  between one_row 4 pvlive (VDatetime t) (VDatetime t) (VInt 0) true
    (VStr "") []
  = Done (Raise UnboundLocalError) [].
Proof.
  apply between_empty_window_frame; reflexivity.
Defined.

(** [between] on two datetimes that normalise to datetimes, in either
    mode: the loop, then the rows or the frame under the last answer's
    column names. *)
Lemma between_datetimes_mode (H : Host) (fuel : nat) (r : Z) (s e : datetime)
  (pes_id extra_fields : pyval) (data_frame : bool) (w : world) :
  in_range (nearest_hh s) = true ->
  in_range (nearest_hh e) = true ->
  between H fuel (PVLive_init r) (VDatetime s) (VDatetime e) pes_id data_frame
    extra_fields w
  = (x <- between_loop H fuel fuel (PVLive_init r) pes_id extra_fields
            (nearest_hh e) (limit_of pes_id) [] None (nearest_hh s) ;;
     if data_frame then
       match snd x with
       | None => raise UnboundLocalError
       | Some resp =>
           columns <- lift (getitem_str resp "meta") ;;
           ret (DataFrame (VList (fst x)) columns)
       end
     else ret (Value (VList (fst x)))) w.
Proof.
  intros Hs He. unfold between, discard, bind, lift, ret, limit_of.
  rewrite (nearest_hh_ok s Hs), (nearest_hh_ok e He).
  cbn [attr_tzinfo rbind isinstance_datetime andb negb
       max_range_national max_range_regional PVLive_init].
  destruct (tzinfo s); [destruct (tzinfo e) |]; cbn [orb];
    destruct (between_loop _ _ _ _ _ _ _ _ _ _ _ _) as [[[d resp] | ex] w1 |];
    reflexivity.
Qed.

(** Answered chunks at the head of a list: the walk goes on with the rest,
    the rows so far in hand. *)
Lemma query_chunks_app (H : Host) (self : PVLive) (pes_id extra_fields : pyval)
  (n : nat) (cs1 : list (datetime * datetime)) (w w1 : world)
  (rowss : list (list pyval)) :
  answered H n self pes_id extra_fields cs1 w rowss w1 ->
  forall (cs2 : list (datetime * datetime)) (data : list pyval)
         (response : option pyval),
  exists response',
    query_chunks H n self pes_id extra_fields (cs1 ++ cs2) data response w
    = query_chunks H n self pes_id extra_fields cs2
        (data ++ List.concat rowss)%list response' w1.
Proof.
  induction 1 as [w | rs re cs w w1 w2 params resp rows rowss Hp Hq Hr _ IH];
    intros cs2 data response.
  - exists response. cbn. rewrite app_nil_r. reflexivity.
  - destruct (IH cs2 (data ++ rows)%list (Some resp)) as (response' & Hrun).
    exists response'. cbn [app query_chunks List.concat].
    unfold bind at 1 2 3, lift. rewrite Hp, Hq, Hr, Hrun, <- app_assoc.
    reflexivity.
Qed.

Section Between.

Variable H : Host.
Variable fuel : nat.
Variable r : Z.
Variables s e : datetime.
Variables pes_id extra_fields : pyval.

Let self := PVLive_init r.
Let start := nearest_hh s.
Let end_ := nearest_hh e.
Let max_range := limit_of pes_id.

(** The bounds can be ordered, the window stays inside the calendar (the
    normalised end is a datetime, and so is the normalised start advanced
    by one step per chunk), and the loop has budget for every chunk. *)
Hypothesis Hcomparable : comparable s e = true.
Hypothesis Hend : in_range end_ = true.
Hypothesis Hwindow : window_in_range start end_ max_range.
Hypothesis Hfuel : (chunk_count start end_ max_range <= fuel)%nat.

Lemma between_walk (data_frame : bool) (w : world) :
  between H fuel self (VDatetime s) (VDatetime e) pes_id data_frame
    extra_fields w
  = (x <- query_chunks H fuel self pes_id extra_fields
            (chunks start end_ max_range) [] None ;;
     if data_frame then
       match snd x with
       | None => raise UnboundLocalError
       | Some resp =>
           columns <- lift (getitem_str resp "meta") ;;
           ret (DataFrame (VList (fst x)) columns)
       end
     else ret (Value (VList (fst x)))) w.
Proof.
  unfold self. rewrite between_datetimes_mode.
  - unfold bind at 1 3.
    rewrite between_loop_chunks; auto.
    + apply limit_of_pos.
    + rewrite comparable_nearest_hh. exact Hcomparable.
  - apply (window_in_range_start start end_ max_range);
      [apply limit_of_pos | exact Hwindow].
  - exact Hend.
Qed.

(** For a window that stays inside the calendar: when a chunk's query
    raises, [between] raises the same thing there and then: the chunks
    after it are not queried and the rows of the chunks before it are
    lost. *)
Theorem between_stops_at_first_failure (data_frame : bool)
  (cs1 cs2 : list (datetime * datetime)) (a b : datetime)
  (rowss : list (list pyval)) (params : list (string * pyval)) (ex : exn)
  (w w1 w2 : world) :
  chunks start end_ max_range = (cs1 ++ (a, b) :: cs2)%list ->
  answered H fuel self pes_id extra_fields cs1 w rowss w1 ->
  _compile_params extra_fields (VDatetime a) (VDatetime b) = Ok params ->
  _query_api H fuel self pes_id params w1 = Done (Raise ex) w2 ->
  between H fuel self (VDatetime s) (VDatetime e) pes_id data_frame
    extra_fields w
  = Done (Raise ex) w2.
Proof.
  intros Hcs Hans Hp Hq. rewrite between_walk, Hcs. unfold bind at 1.
  destruct (query_chunks_app H self pes_id extra_fields fuel cs1 w w1 rowss
              Hans ((a, b) :: cs2) [] None) as (resp' & ->).
  cbn [query_chunks]. unfold bind, lift. rewrite Hp, Hq. reflexivity.
Qed.

(** For a window that stays inside the calendar: in frame mode, when
    every chunk is answered, the frame holds the rows of all chunks in
    order and takes its column names from the last answer alone. *)
Theorem between_frame_columns (cs1 : list (datetime * datetime))
  (a b : datetime) (rowss : list (list pyval))
  (params : list (string * pyval)) (resp columns : pyval)
  (rows : list pyval) (w w1 w2 : world) :
  chunks start end_ max_range = (cs1 ++ [(a, b)])%list ->
  answered H fuel self pes_id extra_fields cs1 w rowss w1 ->
  _compile_params extra_fields (VDatetime a) (VDatetime b) = Ok params ->
  _query_api H fuel self pes_id params w1 = Done (Ok resp) w2 ->
  rbind (getitem_str resp "data") py_iter = Ok rows ->
  getitem_str resp "meta" = Ok columns ->
  between H fuel self (VDatetime s) (VDatetime e) pes_id true extra_fields w
  = Done (Ok (DataFrame (VList (List.concat rowss ++ rows)) columns)) w2.
Proof.
  intros Hcs Hans Hp Hq Hrows Hmeta. rewrite between_walk, Hcs.
  unfold bind at 1.
  destruct (query_chunks_app H self pes_id extra_fields fuel cs1 w w1 rowss
              Hans [(a, b)] [] None) as (resp' & ->).
  cbn [query_chunks]. unfold bind, lift, ret.
  rewrite Hp, Hq, Hrows. cbn [snd fst]. rewrite Hmeta. reflexivity.
Qed.

End Between.

Lemma first_chunk_answered (H : Host) :
  json_loads H "first" = Some first_page ->
  serve H [] first_url = Page "first" ->
  answered H 4 pvlive (VInt 0) (VStr "")
    [(long_start, dt_add long_start (timedelta 365 0 0))] []
    [[row "2019-01-01T00:00:00Z" (CFloat 1)]] [EGet first_url].
Proof.
  intros Hloads Hserve.
  apply (answered_cons H 4 pvlive (VInt 0) (VStr "") long_start
           (dt_add long_start (timedelta 365 0 0)) [] [] [EGet first_url]
           [EGet first_url]
           [("start", VStr "2018-01-01T00:00:00Z");
            ("end", VStr "2019-01-01T00:00:00Z")]
           first_page [row "2019-01-01T00:00:00Z" (CFloat 1)] []).
  - vm_compute. reflexivity.
  - unfold _query_api.
    change (_build_url H pvlive (VInt 0)
              [("start", VStr "2018-01-01T00:00:00Z");
               ("end", VStr "2019-01-01T00:00:00Z")]) with first_url.
    unfold _fetch_url, bind. rewrite fetch_loop_eq.
    cbn [negb andb retries pvlive PVLive_init Z.ltb Z.add Z.compare Pos.compare
         Pos.compare_cont].
    rewrite Hserve, fetch_loop_eq. cbn [negb andb]. rewrite Hloads.
    reflexivity.
  - reflexivity.
  - apply answered_nil.
Qed.

Lemma between_stops_at_first_failure_witness :
  between second_drops 4 pvlive (VDatetime long_start) (VDatetime long_end)
    (VInt 0) false (VStr "") []
  = Done (Raise (RequestException "ConnectionError"))
      [EGet first_url; EGet second_url].
Proof.
  refine (between_stops_at_first_failure second_drops 4 3 long_start long_end
            (VInt 0) (VStr "") eq_refl eq_refl _ _ false
            [(long_start, dt_add long_start (timedelta 365 0 0))] []
            (dt_add (dt_add long_start (timedelta 365 0 0)) (timedelta 0 30 0))
            long_end
            [[row "2019-01-01T00:00:00Z" (CFloat 1)]]
            [("start", VStr "2019-01-01T00:30:00Z");
             ("end", VStr "2019-02-05T00:00:00Z")]
            (RequestException "ConnectionError")
            [] [EGet first_url] [EGet first_url; EGet second_url] _ _ _ _).
  - vm_compute. split; [discriminate | reflexivity].
  - vm_compute. lia.
  - vm_compute. reflexivity.
  - apply first_chunk_answered; reflexivity.
  - vm_compute. reflexivity.
  - vm_compute. reflexivity.
Defined.

Lemma between_frame_columns_witness :
  between two_pages 4 pvlive (VDatetime long_start) (VDatetime long_end)
    (VInt 0) true (VStr "") []
  = Done (Ok (DataFrame
                (VList [row "2019-01-01T00:00:00Z" (CFloat 1);
                        row "2019-02-05T00:00:00Z" (CFloat 2)])
                meta))
      [EGet first_url; EGet second_url].
Proof.
  refine (between_frame_columns two_pages 4 3 long_start long_end
            (VInt 0) (VStr "") eq_refl eq_refl _ _
            [(long_start, dt_add long_start (timedelta 365 0 0))]
            (dt_add (dt_add long_start (timedelta 365 0 0)) (timedelta 0 30 0))
            long_end
            [[row "2019-01-01T00:00:00Z" (CFloat 1)]]
            [("start", VStr "2019-01-01T00:30:00Z");
             ("end", VStr "2019-02-05T00:00:00Z")]
            (VDict [("data", VList [row "2019-02-05T00:00:00Z" (CFloat 2)]);
                    ("meta", meta)])
            meta
            [row "2019-02-05T00:00:00Z" (CFloat 2)]
            [] [EGet first_url] [EGet first_url; EGet second_url] _ _ _ _ _ _).
  - vm_compute. split; [discriminate | reflexivity].
  - vm_compute. lia.
  - vm_compute. reflexivity.
  - apply first_chunk_answered; reflexivity.
  - vm_compute. reflexivity.
  - vm_compute. reflexivity.
  - reflexivity.
  - reflexivity.
Defined.

(** ** The chunks of a window *)

Lemma nth_error_map_seq {A} (f : nat -> A) (n : nat) :
  forall st i,
    nth_error (map f (seq st n)) i
    = if (i <? n)%nat then Some (f (st + i)%nat) else None.
Proof.
  induction n as [| n IH]; intros st i.
  - destruct i; reflexivity.
  - destruct i as [| i]; cbn [seq map nth_error].
    + rewrite Nat.add_0_r. reflexivity.
    + rewrite IH. change (S i <? S n)%nat with (i <? n)%nat.
      rewrite Nat.add_succ_r. reflexivity.
Qed.

Lemma nth_error_chunks (st en : datetime) (mr : Z) (i : nat)
  (c : datetime * datetime) :
  nth_error (chunks st en mr) i = Some c
  <-> (i < chunk_count st en mr)%nat /\ c = chunk st en mr i.
Proof.
  unfold chunks. rewrite nth_error_map_seq. cbn [Nat.add].
  destruct (i <? chunk_count st en mr)%nat eqn:E.
  - apply Nat.ltb_lt in E. split.
    + intros [= <-]. auto.
    + intros [_ ->]. reflexivity.
  - apply Nat.ltb_ge in E. split; [discriminate | lia].
Qed.

Lemma instant_earlier (a b : datetime) :
  instant (earlier a b) = Z.min (instant a) (instant b).
Proof.
  unfold earlier. destruct (instant b <? instant a) eqn:E.
  - apply Z.ltb_lt in E. lia.
  - apply Z.ltb_ge in E. lia.
Qed.

Section Chunks.

Variable H : Host.
Variable self : PVLive.
Variables pes_id extra_fields : pyval.
Variables fuel n : nat.
Variables start end_ : datetime.
Variable max_range : Z.

(** The limit is positive, the bounds can be ordered, every datetime the
    loop computes is inside the calendar (the start advanced by
    [max_range + 30 min] once per chunk still is), and the loop has budget
    for every chunk. *)
Hypothesis Hrange : 0 < max_range.
Hypothesis Hcomparable : comparable start end_ = true.
Hypothesis Hwindow : window_in_range start end_ max_range.
Hypothesis Hfuel : (chunk_count start end_ max_range <= fuel)%nat.

(** While the loop stays inside the calendar, the requests of the loop of
    [between] are the chunks of the window, and every chunk starts inside the window strictly before its end, is not
    empty, ends no later than the window and spans at most [max_range].
    Of two chunks in a row the first spans exactly [max_range] and the
    second starts 30 minutes after the first ends. *)
Theorem between_loop_chunk_bounds (data : list pyval)
  (response : option pyval) (w : world) :
  between_loop H fuel n self pes_id extra_fields end_ max_range data response
    start w
  = query_chunks H n self pes_id extra_fields (chunks start end_ max_range)
      data response w
  /\ (forall i a b,
        nth_error (chunks start end_ max_range) i = Some (a, b) ->
        instant start <= instant a < instant end_
        /\ instant a < instant b <= instant end_
        /\ instant b - instant a <= max_range)
  /\ (forall i a b a' b',
        nth_error (chunks start end_ max_range) i = Some (a, b) ->
        nth_error (chunks start end_ max_range) (S i) = Some (a', b') ->
        b = dt_add a max_range /\ a' = dt_add b (timedelta 0 30 0)).
Proof.
  assert (Hstep : 0 < max_range + one_interval)
    by (unfold one_interval, timedelta; lia).
  split; [apply between_loop_chunks; assumption |]. split.
  - intros i a b Hi. apply nth_error_chunks in Hi as [Hi Hc].
    apply (chunk_count_spec _ _ _ _ Hrange) in Hi.
    unfold chunk in Hc. injection Hc as -> ->.
    rewrite instant_earlier, !instant_add.
    assert (0 <= Z.of_nat i * (max_range + one_interval))
      by (apply Z.mul_nonneg_nonneg; lia).
    lia.
  - intros i a b a' b' Hi Hi'.
    apply nth_error_chunks in Hi as [_ Hc].
    apply nth_error_chunks in Hi' as [Hi' Hc'].
    apply (chunk_count_spec _ _ _ _ Hrange) in Hi'.
    assert (Ha' : a' = dt_add start
                         ((Z.of_nat i + 1) * (max_range + one_interval))).
    { replace (Z.of_nat i + 1) with (Z.of_nat (S i)) by lia.
      change (a' = fst (chunk start end_ max_range (S i))).
      rewrite <- Hc'. reflexivity. }
    clear Hc'. subst a'.
    unfold chunk in Hc. injection Hc as -> ->.
    assert (Hb : earlier end_
                   (dt_add (dt_add start (Z.of_nat i * (max_range + one_interval)))
                      max_range)
                 = dt_add (dt_add start (Z.of_nat i * (max_range + one_interval)))
                     max_range).
    { unfold earlier. rewrite !instant_add.
      replace (instant start + Z.of_nat i * (max_range + one_interval)
               + max_range <? instant end_) with true; [reflexivity |].
      symmetry. apply Z.ltb_lt.
      rewrite Nat2Z.inj_succ in Hi'. unfold one_interval, timedelta in *. lia. }
    rewrite Hb. split; [reflexivity |].
    unfold dt_add. cbn [micros tzinfo]. f_equal.
    unfold one_interval. lia.
Qed.

(** While the loop stays inside the calendar and [max_range] is a whole
    number of half hours, no half-hour step from the start that falls strictly before the end is skipped: each lies
    inside one of the chunks the loop requests. *)
Theorem between_loop_covers_half_hours (data : list pyval)
  (response : option pyval) (w : world) (k : nat) :
  max_range mod timedelta 0 30 0 = 0 ->
  instant start + Z.of_nat k * timedelta 0 30 0 < instant end_ ->
  between_loop H fuel n self pes_id extra_fields end_ max_range data response
    start w
  = query_chunks H n self pes_id extra_fields (chunks start end_ max_range)
      data response w
  /\ exists i a b,
       nth_error (chunks start end_ max_range) i = Some (a, b)
       /\ instant a <= instant start + Z.of_nat k * timedelta 0 30 0
          <= instant b.
Proof.
  intros Hmod Hk.
  split; [apply between_loop_chunks; assumption |].
  change (timedelta 0 30 0) with 1800000000 in *.
  set (step := max_range + one_interval).
  assert (Hstep : step = max_range + 1800000000) by reflexivity.
  set (g := Z.of_nat k * 1800000000) in *.
  set (q := g / step).
  assert (Hg : 0 <= g) by (unfold g; lia).
  assert (Hq : 0 <= q) by (apply Z.div_pos; lia).
  assert (Hdiv : g = step * q + g mod step) by (apply Z.div_mod; lia).
  assert (Hrem : 0 <= g mod step < step) by (apply Z.mod_pos_bound; lia).
  assert (Hmr : max_range = 1800000000 * (max_range / 1800000000)).
  { rewrite (Z.div_mod max_range 1800000000) at 1 by lia. lia. }
  set (c := max_range / 1800000000) in *.
  assert (Hle : g mod step <= max_range).
  { assert (Hprod : step * q = 1800000000 * ((c + 1) * q)).
    { rewrite Hstep, Hmr. ring. }
    set (t := (c + 1) * q) in *. unfold g in *. lia. }
  exists (Z.to_nat q), (dt_add start (q * step)),
    (earlier end_ (dt_add (dt_add start (q * step)) max_range)).
  split.
  - apply nth_error_chunks. split.
    + apply (chunk_count_spec _ _ _ _ Hrange). rewrite Z2Nat.id by exact Hq.
      fold step. lia.
    + unfold chunk. rewrite Z2Nat.id by exact Hq. reflexivity.
  - rewrite instant_earlier, !instant_add. lia.
Qed.

(** While the loop stays inside the calendar, a window that is a whole
    number of steps of [max_range] + 30 minutes long loses its last
    instant: every chunk the loop requests ends at
    least 30 minutes before the end of the window. *)
Theorem between_loop_drops_seam_end (data : list pyval)
  (response : option pyval) (w : world) (k : nat) :
  instant end_ - instant start
  = Z.of_nat (S k) * (max_range + timedelta 0 30 0) ->
  between_loop H fuel n self pes_id extra_fields end_ max_range data response
    start w
  = query_chunks H n self pes_id extra_fields (chunks start end_ max_range)
      data response w
  /\ chunk_count start end_ max_range = S k
  /\ forall i a b,
       nth_error (chunks start end_ max_range) i = Some (a, b) ->
       instant b <= instant end_ - timedelta 0 30 0.
Proof.
  intros Hwin.
  change (timedelta 0 30 0) with 1800000000 in *.
  assert (Hstep : 0 < max_range + one_interval)
    by (unfold one_interval, timedelta; lia).
  assert (Hone : one_interval = 1800000000) by reflexivity.
  assert (Hlt : forall i : nat,
             (i < chunk_count start end_ max_range)%nat <-> (i < S k)%nat).
  { intros i. rewrite (chunk_count_spec _ _ _ _ Hrange). rewrite Hone.
    split; intros Hi.
    - assert (Hm : Z.of_nat i * (max_range + 1800000000)
                   < Z.of_nat (S k) * (max_range + 1800000000)) by lia.
      apply Z.mul_lt_mono_pos_r in Hm; lia.
    - assert (Z.of_nat i * (max_range + 1800000000)
              < Z.of_nat (S k) * (max_range + 1800000000))
        by (apply Z.mul_lt_mono_pos_r; lia).
      lia. }
  split; [apply between_loop_chunks; assumption |]. split.
  - destruct (Nat.lt_trichotomy (chunk_count start end_ max_range) (S k))
      as [Hc | [Hc | Hc]]; [| exact Hc |].
    + apply Hlt in Hc. lia.
    + apply Hlt in Hc. lia.
  - intros i a b Hi. apply nth_error_chunks in Hi as [Hi Hc].
    apply Hlt in Hi. unfold chunk in Hc. injection Hc as -> ->.
    rewrite instant_earlier, !instant_add, Hone.
    assert (Z.of_nat i * (max_range + 1800000000)
            <= Z.of_nat k * (max_range + 1800000000))
      by (apply Z.mul_le_mono_nonneg_r; lia).
    rewrite Nat2Z.inj_succ in Hwin. lia.
Qed.

End Chunks.

Lemma between_loop_chunk_bounds_witness :
  let a := datetime_of 2019 1 1 0 30 0 0 UTC in
  instant long_start <= instant a < instant long_end
  /\ instant a < instant long_end <= instant long_end
  /\ instant long_end - instant a <= timedelta 365 0 0.
Proof.
  intros a.
  refine (proj1 (proj2 (between_loop_chunk_bounds two_pages pvlive (VInt 0)
                          (VStr "") 4 4 long_start long_end (timedelta 365 0 0)
                          _ _ _ _ [] None [])) 1%nat a long_end _).
  - reflexivity.
  - reflexivity.
  - vm_compute. split; [discriminate | reflexivity].
  - vm_compute. lia.
  - vm_compute. reflexivity.
Defined.

Lemma between_loop_covers_half_hours_witness :
  exists i a b,
    nth_error (chunks long_start long_end (timedelta 365 0 0)) i = Some (a, b)
    /\ instant a <= instant long_start + Z.of_nat 4800 * timedelta 0 30 0
       <= instant b.
Proof.
  refine (proj2 (between_loop_covers_half_hours two_pages pvlive (VInt 0)
                   (VStr "") 4 4 long_start long_end (timedelta 365 0 0)
                   _ _ _ _ [] None [] 4800%nat _ _)).
  - reflexivity.
  - reflexivity.
  - vm_compute. split; [discriminate | reflexivity].
  - vm_compute. lia.
  - reflexivity.
  - reflexivity.
Defined.

Lemma between_loop_drops_seam_end_witness :
  chunk_count long_start seam_end (timedelta 365 0 0) = 1%nat
  /\ forall i a b,
       nth_error (chunks long_start seam_end (timedelta 365 0 0)) i
       = Some (a, b) ->
       instant b <= instant seam_end - timedelta 0 30 0.
Proof.
  refine (proj2 (between_loop_drops_seam_end two_pages pvlive (VInt 0)
                   (VStr "") 4 4 long_start seam_end (timedelta 365 0 0)
                   _ _ _ _ [] None [] 0 _)).
  - reflexivity.
  - reflexivity.
  - vm_compute. split; [discriminate | reflexivity].
  - vm_compute. lia.
  - reflexivity.
Defined.

(** ** More on the fetcher *)

Lemma total_sleep_app (w1 w2 : world) :
  total_sleep (w1 ++ w2)%list = total_sleep w1 + total_sleep w2.
Proof.
  induction w1 as [| [u | d] w1 IH]; cbn [app total_sleep]; lia.
Qed.

Lemma count_sleeps_app (w1 w2 : world) :
  count_sleeps (w1 ++ w2)%list = (count_sleeps w1 + count_sleeps w2)%nat.
Proof. unfold count_sleeps. rewrite filter_app, length_app. reflexivity. Qed.

Lemma total_sleep_backoff (url : string) (k : nat) :
  forall d, total_sleep (backoff url k d) = d * (2 ^ Z.of_nat k - 1).
Proof.
  induction k as [| k IH]; intros d.
  - cbn. lia.
  - cbn [backoff total_sleep]. rewrite IH, Nat2Z.inj_succ, Z.pow_succ_r by lia.
    ring.
Qed.

Lemma count_sleeps_backoff (url : string) (k : nat) :
  forall d, count_sleeps (backoff url k d) = k.
Proof.
  induction k as [| k IH]; intros d; [reflexivity |].
  cbn [backoff].
  change (count_sleeps (EGet url :: ESleep d :: backoff url k (d * 2)))
    with (S (count_sleeps (backoff url k (d * 2)))).
  rewrite IH. reflexivity.
Qed.

Lemma backoff_snoc_last (url : string) (k : nat) :
  forall d,
    backoff url (S k) d
    = (backoff url k d ++ [EGet url; ESleep (d * 2 ^ Z.of_nat k)])%list.
Proof.
  induction k as [| k IH]; intros d.
  - cbn. rewrite Z.mul_1_r. reflexivity.
  - change (backoff url (S (S k)) d)
      with (EGet url :: ESleep d :: backoff url (S k) (d * 2)).
    rewrite IH. cbn [backoff app].
    rewrite Nat2Z.inj_succ, Z.pow_succ_r by lia.
    replace (d * 2 * 2 ^ Z.of_nat k) with (d * (2 * 2 ^ Z.of_nat k)) by ring.
    reflexivity.
Qed.

(** When every allowed GET ends in an HTTP error status the fetch gives up
    with the communication error after [retries + 1] GETs and as many
    sleeps, the last of them after the final GET: [2 ^ (retries + 1) - 1]
    time units slept in all. *)
Theorem fetch_url_exhausted_cost (H : Host) (fuel : nat) (self : PVLive)
  (url : string) (w : world) :
  0 <= retries self ->
  (Z.to_nat (retries self + 1) <= fuel)%nat ->
  (forall i, Z.of_nat i <= retries self -> reply H url w i = HTTPError) ->
  exists w',
    _fetch_url H fuel self url w = Done (Raise communication_error) w'
    /\ Z.of_nat (count_gets w') = Z.of_nat (count_gets w) + retries self + 1
    /\ Z.of_nat (count_sleeps w')
       = Z.of_nat (count_sleeps w) + retries self + 1
    /\ total_sleep w' = total_sleep w + 2 ^ (retries self + 1) - 1
    /\ last w' (EGet url) = ESleep (2 ^ retries self).
Proof.
  intros Hr Hfuel Hfail.
  exists (w ++ backoff url (Z.to_nat (retries self + 1)) 1)%list.
  split.
  { apply fetch_url_exhausted; auto. intros i Hi. apply Hfail. lia. }
  rewrite count_gets_app, count_gets_backoff, count_sleeps_app,
    count_sleeps_backoff, total_sleep_app, total_sleep_backoff.
  rewrite Z2Nat.id by lia.
  repeat split; try lia.
  replace (Z.to_nat (retries self + 1)) with (S (Z.to_nat (retries self)))
    by lia.
  rewrite backoff_snoc_last, Z2Nat.id, Z.mul_1_l by lia.
  change [EGet url; ESleep (2 ^ retries self)]
    with ([EGet url] ++ [ESleep (2 ^ retries self)])%list.
  rewrite !app_assoc. apply last_last.
Qed.

Lemma fetch_url_exhausted_cost_witness :
  exists w',
    _fetch_url always_failing 4 pvlive demo_url [] = Done (Raise communication_error) w'
    /\ Z.of_nat (count_gets w') = Z.of_nat (count_gets []) + retries pvlive + 1
    /\ Z.of_nat (count_sleeps w')
       = Z.of_nat (count_sleeps []) + retries pvlive + 1
    /\ total_sleep w' = total_sleep [] + 2 ^ (retries pvlive + 1) - 1
    /\ last w' (EGet demo_url) = ESleep (2 ^ retries pvlive).
Proof.
  apply fetch_url_exhausted_cost.
  - cbn. lia.
  - cbn. lia.
  - reflexivity.
Defined.

(** With a negative retry budget the loop body never runs: every fetch
    raises the communication error at once and sends nothing, whatever the
    service would have answered. *)
Theorem fetch_url_negative_retries (H : Host) (fuel : nat) (self : PVLive)
  (url : string) (w : world) :
  retries self < 0 ->
  _fetch_url H fuel self url w = Done (Raise communication_error) w.
Proof.
  intros Hr. unfold _fetch_url, bind. rewrite fetch_loop_eq.
  replace (0 <? retries self + 1) with false
    by (symmetry; apply Z.ltb_ge; lia).
  reflexivity.
Qed.

Lemma fetch_url_negative_retries_witness :
  _fetch_url one_row 0 (PVLive_init (-1)) demo_url []
  = Done (Raise communication_error) [].
Proof.
  apply fetch_url_negative_retries. reflexivity.
Defined.

(** ** More on the time normaliser *)

Lemma nearest_hh_returns (dt r : datetime) :
  _nearest_hh (VDatetime dt) = Ok r ->
  r = nearest_hh dt /\ in_range (nearest_hh dt) = true.
Proof.
  unfold _nearest_hh. destruct (in_range (nearest_hh dt)); [| discriminate].
  intros [= <-]. auto.
Qed.

(** The rounded time is never before the argument and at most 30 minutes
    after it. *)
Lemma nearest_hh_near (dt : datetime) :
  micros dt <= micros (nearest_hh dt) <= micros dt + 1800000000.
Proof.
  rewrite nearest_hh_micros. unfold microsecond.
  destruct (micros dt mod 1800000000 =? 0);
    Z.to_euclidean_division_equations; lia.
Qed.

(** On a time given in whole seconds whose rounding stays inside the
    calendar the normaliser keeps its docstring: it returns a half-hour
    boundary, not before the argument, and no boundary lies in between; a
    second pass returns the same again. *)
Theorem nearest_hh_whole_second_contract (dt : datetime) :
  microsecond dt = 0 ->
  in_range (nearest_hh dt) = true ->
  exists r,
    _nearest_hh (VDatetime dt) = Ok r
    /\ on_half_hour r = true
    /\ micros dt <= micros r
    /\ (forall b, on_half_hour b = true -> micros dt <= micros b ->
                  micros r <= micros b)
    /\ _nearest_hh (VDatetime r) = Ok r.
Proof.
  intros Hus Hr.
  destruct (nearest_hh_whole_seconds dt Hus) as (Hb & Hge & Hleast).
  exists (nearest_hh dt). split; [apply nearest_hh_ok, Hr |].
  repeat split; auto.
  unfold _nearest_hh.
  rewrite (nearest_hh_idempotent_whole_seconds dt Hus), Hr. reflexivity.
Qed.

Lemma nearest_hh_whole_second_contract_witness :
  let t := datetime_of 2018 6 3 12 35 59 0 UTC in
  exists r,
    _nearest_hh (VDatetime t) = Ok r
    /\ on_half_hour r = true
    /\ micros t <= micros r
    /\ (forall b, on_half_hour b = true -> micros t <= micros b ->
                  micros r <= micros b)
    /\ _nearest_hh (VDatetime r) = Ok r.
Proof.
  intros t. apply nearest_hh_whole_second_contract; reflexivity.
Defined.

(** For any datetime: when 30 minutes after it is still inside the
    calendar the normaliser returns a time; a time it returns is never
    before the argument and never more than 30 minutes after it, has the
    argument's tzinfo, and is the argument itself exactly when that is a
    half-hour boundary; and the only failure is an [OverflowError], within
    the last 30 minutes of the calendar. *)
Theorem nearest_hh_bounds (dt : datetime) :
  in_range dt = true ->
  (micros dt + timedelta 0 30 0 < max_micros ->
   exists r, _nearest_hh (VDatetime dt) = Ok r)
  /\ (forall r, _nearest_hh (VDatetime dt) = Ok r ->
        micros dt <= micros r <= micros dt + timedelta 0 30 0
        /\ tzinfo r = tzinfo dt
        /\ (r = dt <-> on_half_hour dt = true))
  /\ (forall ex, _nearest_hh (VDatetime dt) = Raise ex ->
        ex = OverflowError
        /\ max_micros <= micros dt + timedelta 0 30 0).
Proof.
  intros Hdt. apply in_range_spec in Hdt.
  assert (Hm := nearest_hh_micros dt).
  assert (Hnear := nearest_hh_near dt).
  change (timedelta 0 30 0) with 1800000000.
  split; [| split].
  - intros Hlast. exists (nearest_hh dt). apply nearest_hh_ok, in_range_spec.
    lia.
  - intros r Hr. apply nearest_hh_returns in Hr as [-> _].
    split; [exact Hnear |]. split; [apply tzinfo_nearest_hh |]. split.
    + intros Heq. apply half_hour_iff.
      rewrite Heq in Hm.
      destruct (micros dt mod 1800000000 =? 0) eqn:E;
        [apply Z.eqb_eq in E; exact E |].
      unfold microsecond in Hm. Z.to_euclidean_division_equations; lia.
    + apply nearest_hh_fixed.
  - intros ex. unfold _nearest_hh.
    destruct (in_range (nearest_hh dt)) eqn:E; [discriminate |].
    intros [= <-]. split; [reflexivity |].
    destruct (Z.lt_ge_cases (micros dt + 1800000000) max_micros) as [Hlt | Hge];
      [| lia].
    assert (Hin : in_range (nearest_hh dt) = true)
      by (apply in_range_spec; lia).
    congruence.
Qed.

Lemma nearest_hh_bounds_witness :
  let t := datetime_of 2018 6 3 12 10 30 250 UTC in
  (micros t + timedelta 0 30 0 < max_micros ->
   exists r, _nearest_hh (VDatetime t) = Ok r)
  /\ (forall r, _nearest_hh (VDatetime t) = Ok r ->
        micros t <= micros r <= micros t + timedelta 0 30 0
        /\ tzinfo r = tzinfo t
        /\ (r = t <-> on_half_hour t = true))
  /\ (forall ex, _nearest_hh (VDatetime t) = Raise ex ->
        ex = OverflowError
        /\ max_micros <= micros t + timedelta 0 30 0).
Proof.
  intros t. apply nearest_hh_bounds. reflexivity.
Defined.

(** In the last half hour of the calendar the normaliser fails. *)
Example nearest_hh_last_half_hour :
  _nearest_hh (VDatetime (datetime_of 9999 12 31 23 45 0 0 UTC))
  = Raise OverflowError.
Proof. reflexivity. Qed.

(** Microseconds survive the rounding: for a datetime that carries some,
    and for which two passes stay inside the calendar, the normaliser
    returns a time with the same microseconds, which is not a half-hour
    boundary, and a second pass returns a time 30 minutes later still. *)
Theorem nearest_hh_keeps_microseconds (dt : datetime) :
  microsecond dt <> 0 ->
  in_range dt = true ->
  in_range (nearest_hh (nearest_hh dt)) = true ->
  exists r r2,
    _nearest_hh (VDatetime dt) = Ok r
    /\ _nearest_hh (VDatetime r) = Ok r2
    /\ microsecond r = microsecond dt
    /\ on_half_hour r = false
    /\ micros r2 = micros r + 1800000000.
Proof.
  intros Hus Hdt Hr2.
  destruct (nearest_hh_microseconds dt Hus) as (Hk & Hb & Hstep).
  assert (Hr : in_range (nearest_hh dt) = true).
  { apply in_range_spec in Hdt, Hr2. apply in_range_spec.
    assert (Hnear := nearest_hh_near dt). lia. }
  exists (nearest_hh dt), (nearest_hh (nearest_hh dt)).
  rewrite (nearest_hh_ok dt Hr), (nearest_hh_ok (nearest_hh dt) Hr2). auto.
Qed.

Lemma nearest_hh_keeps_microseconds_witness :
  let t := datetime_of 2018 6 3 12 10 30 250 UTC in
  exists r r2,
    _nearest_hh (VDatetime t) = Ok r
    /\ _nearest_hh (VDatetime r) = Ok r2
    /\ microsecond r = microsecond t
    /\ on_half_hour r = false
    /\ micros r2 = micros r + 1800000000.
Proof.
  intros t. apply nearest_hh_keeps_microseconds;
    [vm_compute; discriminate | reflexivity | reflexivity].
Defined.


(** ** More on the daily queries *)

Section DailyRuns.

Variable H : Host.
Variable self : PVLive.
Variable fuel : nat.
Variable o : Z.
Variables pes_id response : pyval.
Variables w w' : world.

Hypothesis Hday : day_in_range o.

Lemma day_energy_run :
  _query_api H fuel self pes_id (day_params (VStr "") o) w
    = Done (Ok response) w' ->
  day_energy H fuel self (VDate o) pes_id w
  = (data <- lift (getitem_str response "data") ;;
     if truthy data then
       xs <- lift (py_iter data) ;;
       gens <- lift (mapr (gen_or (VInt 0)) xs) ;;
       total <- lift (py_sum gens) ;;
       lift (py_mul total (VFloat 0.5))
     else ret VNone) w'.
Proof.
  intros Hq.
  unfold day_energy, bind at 1 2 3 4, lift at 1 2, ret at 1, discard.
  cbn [isinstance_date negb].
  rewrite (day_window_date o Hday), compile_params_day, Hq. reflexivity.
Qed.

Lemma day_peak_run (extra_fields : pyval) (data_frame : bool) :
  _query_api H fuel self pes_id (day_params extra_fields o) w
    = Done (Ok response) w' ->
  day_peak H fuel self (VDate o) pes_id data_frame extra_fields w
  = (data <- lift (getitem_str response "data") ;;
     if truthy data then
       xs <- lift (py_iter data) ;;
       gens <- lift (mapr (gen_or (VFloat (-1e308))) xs) ;;
       index_max <- lift (argmax H gens) ;;
       row <- lift (getitem_int data index_max) ;;
       if data_frame then
         meta <- lift (getitem_str response "meta") ;;
         ret (convert_tuple_to_df row meta)
       else
         t <- lift (py_tuple row) ;;
         ret (Value t)
     else ret (Value null_row)) w'.
Proof.
  intros Hq.
  unfold day_peak, bind at 1 2 3 4, lift at 1 2, ret at 1, discard.
  cbn [isinstance_date negb].
  rewrite (day_window_date o Hday), compile_params_day, Hq. reflexivity.
Qed.

End DailyRuns.

Lemma cells_all_null (rows : list pyval) :
  Forall (fun r => has_cell r CNull) rows ->
  Forall2 has_cell rows (repeat CNull (List.length rows)).
Proof.
  induction 1 as [| r rows Hr _ IH]; cbn [List.length repeat]; constructor;
    assumption.
Qed.

Lemma energy_all_null (n : nat) :
  energy_of (repeat CNull n) = Ok (VFloat 0).
Proof.
  assert (Hint : Forall is_int_cell (repeat CNull n)).
  { induction n; cbn [repeat]; constructor; cbn; auto. }
  assert (Hzero : int_total (repeat CNull n) = 0)
    by (clear Hint; induction n as [| n IH]; [reflexivity | exact IH]).
  rewrite (energy_of_ints _ Hint), Hzero. reflexivity.
Qed.

(** On a day before 9999-12-31 whose rows all carry a null generation the
    energy is 0.0, which is not the [None] of a day without rows. *)
Theorem day_energy_all_null (H : Host) (fuel : nat) (self : PVLive) (o : Z)
  (pes_id response : pyval) (rows : list pyval) (w w' : world) :
  day_in_range o ->
  _query_api H fuel self pes_id (day_params (VStr "") o) w
    = Done (Ok response) w' ->
  getitem_str response "data" = Ok (VList rows) ->
  rows <> [] ->
  Forall (fun r => has_cell r CNull) rows ->
  day_energy H fuel self (VDate o) pes_id w = Done (Ok (VFloat 0)) w'.
Proof.
  intros Ho Hq Hdata Hne Hnull.
  rewrite (day_energy_run H self fuel o pes_id response w w' Ho Hq).
  unfold bind, lift. rewrite Hdata.
  destruct rows as [| r rows]; [congruence |].
  cbn [truthy py_iter].
  rewrite (mapr_gen_or _ _ _ (cells_all_null _ Hnull)).
  generalize (energy_all_null (List.length (r :: rows))).
  unfold energy_of, rbind.
  destruct (py_sum _); [| discriminate]. intros ->. reflexivity.
Qed.

Lemma day_energy_all_null_witness :
  day_energy all_null 4 pvlive (VDate (_ymd2ord 2018 6 3)) (VInt 0) []
  = Done (Ok (VFloat 0)) [EGet day_url].
Proof.
  refine (day_energy_all_null all_null 4 pvlive (_ymd2ord 2018 6 3) (VInt 0)
            _ _ [] [EGet day_url] _ _ _ _ _).
  - vm_compute. split; [discriminate | reflexivity].
  - vm_compute. reflexivity.
  - reflexivity.
  - discriminate.
  - repeat constructor; eexists; split; reflexivity.
Defined.

(** In frame mode, on a day before 9999-12-31 and with generation cells
    that are null, ints or floats other than NaN, [day_peak] picks the row
    as in row mode, the first with a maximal key (the generation, or
    -1e308 for null), and wraps it in a one-row frame under the answer's
    column names; an answer without column names fails with [KeyError]
    after the request. *)
Theorem day_peak_frame (H : Host) (fuel : nat) (self : PVLive) (o : Z)
  (pes_id extra_fields response : pyval) (rows : list pyval)
  (cells : list cell) (w w' : world) :
  day_in_range o ->
  _query_api H fuel self pes_id (day_params extra_fields o) w
    = Done (Ok response) w' ->
  getitem_str response "data" = Ok (VList rows) ->
  rows <> [] ->
  Forall2 has_cell rows cells ->
  Forall cell_is_number cells ->
  exists i r,
    first_max (map peak_key cells) i
    /\ nth_error rows i = Some r
    /\ (forall columns,
          getitem_str response "meta" = Ok columns ->
          day_peak H fuel self (VDate o) pes_id true extra_fields w
          = Done (Ok (DataFrame (VList [r]) columns)) w')
    /\ (getitem_str response "meta" = Raise KeyError ->
        day_peak H fuel self (VDate o) pes_id true extra_fields w
        = Done (Raise KeyError) w').
Proof.
  intros Ho Hq Hdata Hne Hcells Hnum.
  assert (Hkeys : map peak_key cells <> []).
  { destruct Hcells; [congruence | discriminate]. }
  destruct (argmax_first_max H (map peak_key cells) Hkeys
              (peak_key_is_number cells Hnum)) as (i & Hmax & Hfirst).
  destruct (nth_error cells i) as [c |] eqn:Ec.
  2:{ destruct Hfirst as (ki & Hki & _).
      rewrite nth_error_map, Ec in Hki. discriminate Hki. }
  destruct (has_cell_nth rows cells Hcells i c Ec) as (cs & Hrow & _).
  exists i, (VList cs). split; [exact Hfirst |]. split; [exact Hrow |].
  assert (Hrun : day_peak H fuel self (VDate o) pes_id true extra_fields w
                 = (meta <- lift (getitem_str response "meta") ;;
                    ret (convert_tuple_to_df (VList cs) meta)) w').
  { rewrite (day_peak_run H self fuel o pes_id response w w' Ho extra_fields
               true Hq).
    unfold bind, lift, ret. rewrite Hdata.
    destruct rows as [| r0 rows]; [congruence |].
    cbn [truthy py_iter]. rewrite (mapr_gen_or _ _ _ Hcells), peak_keys, Hmax.
    rewrite (getitem_int_list _ _ _ Hrow). reflexivity. }
  rewrite Hrun. unfold bind, lift, ret. split.
  - intros columns ->. reflexivity.
  - intros ->. reflexivity.
Qed.

Lemma day_peak_frame_witness :
  exists i r,
    first_max (map peak_key (map snd mixed_rows)) i
    /\ nth_error (map (fun x => row (fst x) (snd x)) mixed_rows) i = Some r
    /\ (forall columns,
          getitem_str (VDict [("data", VList (map (fun x => row (fst x) (snd x))
                                                mixed_rows));
                              ("meta", meta)]) "meta" = Ok columns ->
          day_peak four_mixed_rows 4 pvlive (VDate (_ymd2ord 2018 6 3)) (VInt 0)
            true (VStr "") []
          = Done (Ok (DataFrame (VList [r]) columns)) [EGet day_url])
    /\ (getitem_str (VDict [("data", VList (map (fun x => row (fst x) (snd x))
                                              mixed_rows));
                            ("meta", meta)]) "meta" = Raise KeyError ->
        day_peak four_mixed_rows 4 pvlive (VDate (_ymd2ord 2018 6 3)) (VInt 0)
          true (VStr "") []
        = Done (Raise KeyError) [EGet day_url]).
Proof.
  apply (day_peak_frame four_mixed_rows 4 pvlive (_ymd2ord 2018 6 3) (VInt 0)
           (VStr "")
           (VDict [("data", VList (map (fun x => row (fst x) (snd x)) mixed_rows));
                   ("meta", meta)])
           (map (fun x => row (fst x) (snd x)) mixed_rows) (map snd mixed_rows)
           [] [EGet day_url]).
  - vm_compute. split; [discriminate | reflexivity].
  - vm_compute. reflexivity.
  - reflexivity.
  - discriminate.
  - repeat constructor; eexists; split; reflexivity.
  - repeat constructor.
Defined.

(** ** More on the request builder *)

Lemma append_nil_r (s : string) : s ++ "" = s.
Proof. induction s; cbn; congruence. Qed.

(** A text without [+] has no [+00:00] to replace. *)
Lemma replace_without_plus (s : string) :
  has_char "+" s = false ->
  forall n, replace_from n "+00:00" "Z" s = s.
Proof.
  induction s as [| c s IH]; intros Hno n.
  - destruct n; reflexivity.
  - cbn in Hno. apply orb_false_iff in Hno as [Hc Hno].
    destruct n as [| n]; [reflexivity |].
    cbn [replace_from strip_prefix]. rewrite Ascii.eqb_sym, Hc, IH by exact Hno.
    reflexivity.
Qed.

Lemma iso_param_naive (dt : datetime) :
  tzinfo dt = None ->
  iso_param (VDatetime dt) = Ok (VStr (isoformat_naive dt)).
Proof.
  intros Htz. unfold iso_param, py_isoformat, rbind, isoformat, str_replace.
  rewrite Htz, append_nil_r, replace_without_plus; [reflexivity |].
  apply no_plus_isoformat_naive.
Qed.

Lemma iso_param_datetime (dt : datetime) :
  exists s, iso_param (VDatetime dt) = Ok (VStr s).
Proof. unfold iso_param, py_isoformat, rbind. eexists. reflexivity. Qed.

(** [_compile_params] on the arguments the methods give it ([None] or a
    datetime for each bound) never fails, and the request holds exactly the
    fields that were given: [extra_fields] when it is a true value,
    [start] when a start was given, [end] when a start or an end was given.
    A naive datetime is written as its wall clock, with no suffix. *)
Theorem compile_params_fields (extra_fields start end_ : pyval) :
  time_arg start -> time_arg end_ ->
  exists params,
    _compile_params extra_fields start end_ = Ok params
    /\ dict_get params "extra_fields"
       = (if truthy extra_fields then Some extra_fields else None)
    /\ (dict_get params "start" = None <-> start = VNone)
    /\ (dict_get params "end" = None <-> start = VNone /\ end_ = VNone)
    /\ (forall dt, start = VDatetime dt -> tzinfo dt = None ->
                   dict_get params "start" = Some (VStr (isoformat_naive dt))).
Proof.
  intros [-> | (s & ->)] [-> | (e & ->)].
  - exists (extra_params extra_fields). unfold _compile_params, extra_params.
    destruct (truthy extra_fields); cbn;
      repeat split; auto; try discriminate; intros; tauto.
  - destruct (iso_param_datetime e) as (te & He).
    exists (extra_params extra_fields ++ [("end", VStr te)])%list.
    unfold _compile_params, extra_params. cbn [is_none negb andb rbind].
    rewrite He. destruct (truthy extra_fields); cbn;
      repeat split; auto; try discriminate; intros [? ?]; discriminate.
  - destruct (iso_param_datetime s) as (ts & Hs).
    exists (extra_params extra_fields
            ++ [("start", VStr ts); ("end", VStr ts)])%list.
    change (_compile_params extra_fields (VDatetime s) VNone)
      with (_compile_params extra_fields (VDatetime s) (VDatetime s)).
    rewrite compile_params_datetimes, Hs. cbn [rbind].
    rewrite dict_set_extra_params.
    unfold extra_params. destruct (truthy extra_fields); cbn;
      repeat split; auto; try discriminate;
      try (intros [? ?]; discriminate);
      intros dt [= <-] Htz; rewrite (iso_param_naive _ Htz) in Hs;
      injection Hs as <-; reflexivity.
  - destruct (iso_param_datetime s) as (ts & Hs).
    destruct (iso_param_datetime e) as (te & He).
    exists (extra_params extra_fields
            ++ [("start", VStr ts); ("end", VStr te)])%list.
    rewrite compile_params_datetimes, Hs, He. cbn [rbind].
    rewrite dict_set_extra_params.
    unfold extra_params. destruct (truthy extra_fields); cbn;
      repeat split; auto; try discriminate;
      try (intros [? ?]; discriminate);
      intros dt [= <-] Htz; rewrite (iso_param_naive _ Htz) in Hs;
      injection Hs as <-; reflexivity.
Qed.

Lemma compile_params_fields_witness :
  exists params,
    _compile_params (VStr "ucl_mw")
      (VDatetime (datetime_of 2018 6 3 12 0 0 0 None)) VNone = Ok params
    /\ dict_get params "extra_fields"
       = (if truthy (VStr "ucl_mw") then Some (VStr "ucl_mw") else None)
    /\ (dict_get params "start" = None
        <-> VDatetime (datetime_of 2018 6 3 12 0 0 0 None) = VNone)
    /\ (dict_get params "end" = None
        <-> VDatetime (datetime_of 2018 6 3 12 0 0 0 None) = VNone
            /\ VNone = VNone)
    /\ (forall dt,
          VDatetime (datetime_of 2018 6 3 12 0 0 0 None) = VDatetime dt ->
          tzinfo dt = None ->
          dict_get params "start" = Some (VStr (isoformat_naive dt))).
Proof.
  apply compile_params_fields.
  - right. eexists. reflexivity.
  - left. reflexivity.
Defined.



(** ** What a fetch adds to the log *)

Lemma fetch_loop_log (H : Host) (self : PVLive) (url : string) (fuel : nat) :
  forall (success : bool) (tc d : Z) (page : option string) (w w' : world)
         (r : result (bool * option string)),
    1 <= d ->
    fetch_loop H fuel self url success tc d page w = Done r w' ->
    exists l, w' = (w ++ l)%list /\ Forall (fetch_event url) l.
Proof.
  induction fuel as [| fuel IH]; intros success tc d page w w' r Hd;
    rewrite fetch_loop_eq;
    destruct (negb success && (tc <? retries self + 1));
    try discriminate;
    try (intros [= <- <-]; exists []; rewrite app_nil_r; split;
         [reflexivity | constructor]).
  destruct (serve H w url) as [text | | name].
  - intros Hrun. apply IH in Hrun as (l & -> & Hl); [| exact Hd].
    exists (EGet url :: l). rewrite <- app_assoc. split; [reflexivity |].
    constructor; [reflexivity | exact Hl].
  - intros Hrun. apply IH in Hrun as (l & -> & Hl); [| lia].
    exists (EGet url :: ESleep d :: l). rewrite <- !app_assoc.
    split; [reflexivity |].
    constructor; [reflexivity |]. constructor; [exact Hd | exact Hl].
  - intros [= <- <-]. exists [EGet url]. split; [reflexivity |].
    constructor; [reflexivity | constructor].
Qed.

(** Whatever the service does, a fetch that ends only appends to the log,
    and what it appends is GETs of the URL it was given and sleeps of at
    least one time unit: it never asks for another URL. *)
Theorem fetch_url_log (H : Host) (fuel : nat) (self : PVLive) (url : string)
  (w w' : world) (r : result pyval) :
  _fetch_url H fuel self url w = Done r w' ->
  exists l, w' = (w ++ l)%list /\ Forall (fetch_event url) l.
Proof.
  unfold _fetch_url, bind.
  destruct (fetch_loop H fuel self url false 0 1 None w)
    as [[[success page] | ex] w1 |] eqn:Hloop; try discriminate.
  - apply fetch_loop_log in Hloop; [| lia].
    destruct (negb success); [intros [= <- <-]; exact Hloop |].
    destruct page as [text |]; [| intros [= <- <-]; exact Hloop].
    destruct (json_loads H text); intros [= <- <-]; exact Hloop.
  - apply fetch_loop_log in Hloop; [| lia].
    intros [= <- <-]. exact Hloop.
Qed.

Lemma fetch_url_log_witness :
  exists l,
    [EGet demo_url; ESleep 1; EGet demo_url; ESleep 2; EGet demo_url]
    = ([] ++ l)%list
    /\ Forall (fetch_event demo_url) l.
Proof.
  apply (fetch_url_log flaky 4 pvlive demo_url []
           [EGet demo_url; ESleep 1; EGet demo_url; ESleep 2; EGet demo_url]
           (Ok (VDict [("data", VList []); ("meta", VList [])]))).
  vm_compute. reflexivity.
Defined.

Lemma build_url_day (H : Host) (self : PVLive) (pes_id : pyval) (o : Z) :
  _build_url H self pes_id (day_params (VStr "") o)
  = day_query_url (base_url self) (py_str H pes_id) o.
Proof.
  unfold _build_url, day_params, day_query_url.
  cbn [truthy String.eqb negb app map join fst snd py_str].
  rewrite !append_assoc. reflexivity.
Qed.

(** The window of a date exists or the addition overflows. *)
Lemma day_window_cases (o : Z) :
  day_window (VDate o) = Ok (combine o 0 30 UTC, combine (o + 1) 0 0 UTC)
  \/ day_window (VDate o) = Raise OverflowError.
Proof.
  unfold day_window, py_combine, dt_minus, dt_plus, rbind. cbv zeta.
  destruct (in_range (dt_add (combine o 0 30 UTC) (timedelta 1 0 0)));
    [| right; reflexivity].
  destruct (in_range _); [left | right; reflexivity].
  unfold combine, dt_add, timedelta. cbn [micros tzinfo].
  do 3 f_equal. lia.
Qed.

(** [day_energy] on a date talks to one URL only: whatever the service
    does, all it adds to the log is GETs of the day's query URL, region and
    00:30 to 00:00 bounds included, and the sleeps between them. *)
Theorem day_energy_requests (H : Host) (fuel : nat) (self : PVLive) (o : Z)
  (pes_id : pyval) (w w' : world) (r : result pyval) :
  day_energy H fuel self (VDate o) pes_id w = Done r w' ->
  exists l,
    w' = (w ++ l)%list
    /\ Forall (fetch_event
                 (day_query_url (base_url self) (py_str H pes_id) o)) l.
Proof.
  unfold day_energy, bind at 1 2 3 4, lift at 1 2, ret at 1, discard.
  cbn [isinstance_date negb].
  destruct (day_window_cases o) as [-> | ->].
  2:{ intros [= <- <-]. exists []. rewrite app_nil_r. auto. }
  rewrite compile_params_day.
  unfold _query_api. rewrite build_url_day.
  destruct (_fetch_url H fuel self
              (day_query_url (base_url self) (py_str H pes_id) o) w)
    as [[response | ex] w1 |] eqn:Hfetch; try discriminate.
  - apply fetch_url_log in Hfetch.
    unfold bind, lift, ret.
    destruct (getitem_str response "data") as [data | ex];
      [| intros [= <- <-]; exact Hfetch].
    destruct (truthy data); [| intros [= <- <-]; exact Hfetch].
    destruct (py_iter data) as [xs | ex]; [| intros [= <- <-]; exact Hfetch].
    destruct (mapr (gen_or (VInt 0)) xs) as [gens | ex];
      [| intros [= <- <-]; exact Hfetch].
    destruct (py_sum gens) as [total | ex];
      intros [= <- <-]; exact Hfetch.
  - apply fetch_url_log in Hfetch. intros [= <- <-]. exact Hfetch.
Qed.

Lemma day_energy_requests_witness :
  exists l,
    [EGet day_url] = ([] ++ l)%list
    /\ Forall (fetch_event
                 (day_query_url (base_url pvlive) (py_str three_rows (VInt 0))
                    (_ymd2ord 2018 6 3))) l.
Proof.
  apply (day_energy_requests three_rows 4 pvlive (_ymd2ord 2018 6 3) (VInt 0)
           [] [EGet day_url] (Ok (VFloat 3))).
  vm_compute. reflexivity.
Defined.
